(** * System Report Generator: a shallow embedding and its properties

    The program collects one snapshot of the host (platform, CPU, memory,
    disks, network, processes, users, boot time, sensors) through [psutil],
    [platform] and [socket], keeps it in [self.info], and renders it as text
    or as JSON.  Every query of the operating system is an input of the
    model (record [OS]); everything the script computes from those answers is
    a function below, in the order of the source. *)

From Stdlib Require Import List ZArith NArith QArith Qround Qabs.
From Stdlib Require Import Lqa.
From Stdlib Require Import Bool Lia Sorted Permutation.
From Stdlib Require Import String Ascii.
Import Corelib.Init.Datatypes Stdlib.Lists.List.
Import ListNotations.

Local Open Scope Z_scope.

(** ** Python strings

    A [str] is a sequence of code points.  Literals of the source are written
    as UTF-8 string literals and decoded by [lit]. *)

Definition str := list N.

Definition bytes_of (s : String.string) : list N :=
  map Ascii.N_of_ascii (String.list_ascii_of_string s).

Fixpoint utf8_go (pending : nat) (acc : N) (bs : list N) : str :=
  match bs with
  | [] => []
  | b :: bs' =>
      match pending with
      | O =>
          if (b <? 128)%N then b :: utf8_go 0 0%N bs'
          else if (b <? 224)%N then utf8_go 1 (b mod 32)%N bs'
          else if (b <? 240)%N then utf8_go 2 (b mod 16)%N bs'
          else utf8_go 3 (b mod 8)%N bs'
      | S O => (acc * 64 + b mod 64)%N :: utf8_go 0 0%N bs'
      | S p => utf8_go p (acc * 64 + b mod 64)%N bs'
      end
  end.

Definition lit (s : String.string) : str := utf8_go 0 0%N (bytes_of s).

Arguments lit s%_string.

Definition NL : str := [10%N].

Definition str_eqb (a b : str) : bool :=
  if list_eq_dec N.eq_dec a b then true else false.

(** [sep.join(parts)] *)
Fixpoint join (sep : str) (parts : list str) : str :=
  match parts with
  | [] => []
  | [p] => p
  | p :: ps => p ++ sep ++ join sep ps
  end.

(** [c * n] for a one-character string *)
Definition times (c : N) (n : nat) : str := repeat c n.

(** [s1 in s2] on strings *)
Fixpoint prefixb (p s : str) : bool :=
  match p, s with
  | [], _ => true
  | a :: p', b :: s' => (a =? b)%N && prefixb p' s'
  | _ :: _, [] => false
  end.

Fixpoint contains (p s : str) : bool :=
  prefixb p s || match s with [] => false | _ :: s' => contains p s' end.

(** ** Integers as text: [str(int)] and zero padding *)

(** the decimal digits of [n], most significant first; [fuel] bounds the
    number of digits *)
Fixpoint digits_fuel (fuel : nat) (n : N) : str :=
  match fuel with
  | O => []
  | S f =>
      if (n <? 10)%N then [(48 + n)%N]
      else digits_fuel f (n / 10)%N ++ [(48 + n mod 10)%N]
  end.

Definition str_of_N (n : N) : str :=
  digits_fuel (S (N.to_nat (N.log2 n))) n.

Definition str_of_Z (z : Z) : str :=
  if z <? 0 then 45%N :: str_of_N (Z.abs_N z) else str_of_N (Z.to_N z).

(** [str(x)] for a value that may be [None] *)
Definition str_of_optZ (o : option Z) : str :=
  match o with Some z => str_of_Z z | None => lit "None" end.

Definition str_of_optstr (o : option str) : str :=
  match o with Some s => s | None => lit "None" end.

(** right and left justification, as the format mini-language pads numbers
    and strings *)
Definition rjust (w : nat) (s : str) : str :=
  repeat 32%N (w - length s) ++ s.

Definition ljust (w : nat) (s : str) : str :=
  s ++ repeat 32%N (w - length s).

(** zero padding of a non-negative field, as [strftime] does for [%m], [%H] *)
Definition zpad (w : nat) (n : N) : str :=
  let s := str_of_N n in repeat 48%N (w - length s) ++ s.

(** ** [datetime] objects and [strftime] *)

Record datetime := {
  year : N; month : N; day : N; hour : N; minute : N; second : N
}.

(** ["%H:%M:%S"] *)
Definition strftime_HMS (d : datetime) : str :=
  zpad 2 (hour d) ++ lit ":" ++ zpad 2 (minute d) ++ lit ":" ++ zpad 2 (second d).

(** ["%Y-%m-%d %H:%M:%S"] *)
Definition strftime_full (d : datetime) : str :=
  zpad 4 (year d) ++ lit "-" ++ zpad 2 (month d) ++ lit "-" ++ zpad 2 (day d)
  ++ lit " " ++ strftime_HMS d.

(** ['%Y%m%d_%H%M%S'] *)
Definition strftime_compact (d : datetime) : str :=
  zpad 4 (year d) ++ zpad 2 (month d) ++ zpad 2 (day d) ++ lit "_"
  ++ zpad 2 (hour d) ++ zpad 2 (minute d) ++ zpad 2 (second d).

(** ** Floats

    The script never computes with floats beyond one division; it orders
    them, formats them and hands them to [json].  A float is therefore kept
    abstract: a finite value with its exact rational reading [f2Q], the result
    of [int / int], [repr] and [float(...)].  (psutil reports finite numbers;
    [nan] and the infinities are outside the type.) *)

Class PyFloat := {
  float : Type;
  f2Q : float -> Q;
  truediv : Z -> Z -> float;
  float_repr : float -> str;
  float_of_str : str -> option float
}.

(** characters of a JSON number token *)
Definition is_digit (c : N) : bool := ((48 <=? c) && (c <=? 57))%N.

Definition is_numchar (c : N) : bool :=
  is_digit c || (c =? 45)%N || (c =? 43)%N || (c =? 46)%N
  || (c =? 101)%N || (c =? 69)%N.

(** a token that [json] reads back as an [int]: an optional minus sign and
    digits, no fraction and no exponent *)
Definition is_int_token (t : str) : bool :=
  match t with
  | [] => false
  | c :: t' =>
      if (c =? 45)%N
      then match t' with [] => false | _ => forallb is_digit t' end
      else forallb is_digit t
  end.

(** What the model relies on about floats: [repr] writes a number token with
    a fraction or an exponent, [float(repr(x)) == x], and the quotient of a
    non-negative by a positive integer is not negative. *)
Class PyFloatLaws (F : PyFloat) : Prop := {
  repr_numchars : forall f : float, forallb is_numchar (float_repr f) = true;
  repr_not_int : forall f : float, is_int_token (float_repr f) = false;
  repr_nonempty : forall f : float, float_repr f <> [];
  float_of_repr : forall f : float, float_of_str (float_repr f) = Some f;
  truediv_nonneg : forall a b : Z, 0 <= a -> 0 < b -> (0 <= f2Q (truediv a b))%Q
}.

(** rounding to the nearest integer, ties to even, of a non-negative rational *)
Definition round_half_even (q : Q) : Z :=
  let fl := Qfloor q in
  match Qcompare (q - inject_Z fl) (1 # 2) with
  | Lt => fl
  | Gt => fl + 1
  | Eq => if Z.even fl then fl else fl + 1
  end.

Definition Qneg (q : Q) : bool :=
  match Qcompare q 0 with Lt => true | _ => false end.

(** [format(x, '.<prec>f')] on the exact value: sign, integer part, and
    [prec] fraction digits *)
Definition format_fixed_Q (prec : nat) (q : Q) : str :=
  let p10 := 10 ^ Z.of_nat prec in
  let scaled := round_half_even (Qabs q * inject_Z p10) in
  (if Qneg q then [45%N] else [])
  ++ str_of_N (Z.to_N (scaled / p10))
  ++ match prec with
     | O => []
     | _ => 46%N :: zpad prec (Z.to_N (scaled mod p10))
     end.

(** ** Exceptions

    Only the classes the script names in an [except] clause are told apart. *)

Inductive exn_class :=
| PermissionError | OSError | NoSuchProcess | AccessDenied
| AttributeError | KeyError | OtherException.

Record exn := { exn_cls : exn_class; exn_msg : str }.

Inductive result (A : Type) :=
| Ok (a : A)
| Raise (e : exn).

Arguments Ok {A} a.
Arguments Raise {A} e.

Definition bind {A B} (r : result A) (k : A -> result B) : result B :=
  match r with Ok a => k a | Raise e => Raise e end.

Notation "x <- r ;; k" := (bind r (fun x => k))
  (at level 61, r at next level, right associativity).

Definition exn_class_eqb (a b : exn_class) : bool :=
  match a, b with
  | PermissionError, PermissionError | OSError, OSError
  | NoSuchProcess, NoSuchProcess | AccessDenied, AccessDenied
  | AttributeError, AttributeError | KeyError, KeyError
  | OtherException, OtherException => true
  | _, _ => false
  end.

(** [except (c1, c2, ...)] catches [e] *)
Definition catches (cs : list exn_class) (e : exn) : bool :=
  existsb (exn_class_eqb (exn_cls e)) cs.

(** ** Dictionaries in insertion order *)

Fixpoint dict_get {V} (d : list (str * V)) (k : str) : option V :=
  match d with
  | [] => None
  | (k', v) :: d' => if str_eqb k' k then Some v else dict_get d' k
  end.

(** [d[k] = v] *)
Fixpoint dict_set {V} (d : list (str * V)) (k : str) (v : V) : list (str * V) :=
  match d with
  | [] => [(k, v)]
  | (k', v') :: d' =>
      if str_eqb k' k then (k', v) :: d' else (k', v') :: dict_set d' k v
  end.

Section Model.

Context {F : PyFloat}.

(** [format(x, '.<prec>f')] *)
Definition format_fixed (prec : nat) (x : float) : str :=
  format_fixed_Q prec (f2Q x).

(** comparisons of floats are comparisons of their values *)
Definition float_ltb (x y : float) : bool := negb (Qle_bool (f2Q y) (f2Q x)).
Definition float_eqb (x y : float) : bool := Qeq_bool (f2Q x) (f2Q y).

(** ** What the operating system answers *)

Record scpufreq := { freq_current : float }.
Record svmem := { vm_total : Z; vm_used : Z; vm_percent : float }.
Record sswap := { sw_used : Z; sw_total : Z }.
Record sdiskpart := { part_device : str; part_mountpoint : str; part_fstype : str }.
Record sdiskusage := { du_total : Z; du_used : Z; du_free : Z; du_percent : float }.
Record sdiskio := { io_read_bytes : Z; io_write_bytes : Z }.
Record snetio := {
  nio_bytes_sent : Z; nio_bytes_recv : Z; nio_packets_sent : Z; nio_packets_recv : Z
}.

Inductive family := AF_INET | AF_INET6 | AF_LINK | AF_OTHER.

Record snicaddr := { addr_family : family; addr_address : str; addr_netmask : option str }.
Record snicstats := { nic_isup : bool; nic_speed : Z; nic_mtu : Z }.

(** one item of [psutil.process_iter([...])]: its [info] and what
    [psutil.Process(pid).memory_info().rss] gives for it *)
Record process := {
  proc_pid : Z; proc_name : str; proc_cpu_percent : float;
  proc_memory_percent : float; proc_rss : result Z
}.

Record suser := { user_name : str; user_host : str; user_started : float }.
Record shwtemp := { temp_label : str; temp_current : float }.

Record OS := {
  platform_system : str;
  platform_release : str;
  platform_version : str;
  gethostname : str;
  gethostbyname : str -> result str;
  cpu_freq : option scpufreq;
  cpu_count_physical : option Z;
  cpu_count_logical : option Z;
  cpu_percent : float;
  cpu_percent_percpu : list float;
  virtual_memory : svmem;
  swap_memory : sswap;
  disk_partitions : list sdiskpart;
  disk_usage : str -> result sdiskusage;
  disk_io_counters : result (option (list (str * sdiskio)));
  net_io_counters : snetio;
  net_if_addrs : list (str * list snicaddr);
  net_if_stats : list (str * snicstats);
  process_iter : list process;
  users : list suser;
  fromtimestamp : float -> datetime;
  boot_time : float;
  sensors_temperatures : result (list (str * list shwtemp))
}.

(** ** The snapshot ([self.info]); each field is the dictionary key of the
    same name *)

Record platform_info := {
  pl_system : str; pl_release : str; pl_version : str; pl_host : str; pl_ip : str
}.

Record cpu_info := {
  cpu_physical_cores : option Z; cpu_logical_cores : option Z;
  cpu_freq_s : str; cpu_usage : float; cpu_per_cpu : list float
}.

Record memory_info := {
  mem_total_ram : str; mem_used_ram : str; mem_ram_percent : float; mem_swap : str
}.

(** [dk_io] holds ["read_bytes"] and ["write_bytes"], which are present
    together or not at all *)
Record disk_info := {
  dk_device : str; dk_mountpoint : str; dk_fstype : str;
  dk_total : str; dk_used : str; dk_free : str; dk_percent : float;
  dk_io : option (str * str)
}.

Record iface_stats := { st_is_up : str; st_speed : str; st_mtu : Z }.

(** [if_stats] is [None] for the empty dictionary *)
Record iface_info := {
  if_ip_addresses : list str; if_mac : option str; if_stats : option iface_stats
}.

Record network_info := {
  net_bytes_sent : str; net_bytes_recv : str;
  net_packets_sent : Z; net_packets_recv : Z;
  net_interfaces : list (str * iface_info)
}.

Record proc_info := {
  pi_pid : Z; pi_name : str; pi_cpu_percent : float;
  pi_memory_percent : float; pi_memory_mb : float
}.

Record user_info := { us_name : str; us_host : str; us_started : str }.

(** [{"info": "N/A"}] or a dictionary from sensor name to its readings
    [{"current": ...}] *)
Inductive sensors_info :=
| SensorsNA
| SensorsMap (m : list (str * list float)).

Record snapshot := {
  s_time : str;
  s_platform : platform_info;
  s_cpu : cpu_info;
  s_memory : memory_info;
  s_disks : list disk_info;
  s_network : network_info;
  s_processes : list proc_info;
  s_users : list user_info;
  s_boot : str;
  s_sensors : sensors_info
}.

(** ** The collectors *)

(** [f"{n / (1024**3):.1f} GB"] and [f"{n / (1024**2):.1f} MB"] *)
Definition fmt_GB (n : Z) : str := format_fixed 1 (truediv n (1024 ^ 3)) ++ lit " GB".
Definition fmt_MB (n : Z) : str := format_fixed 1 (truediv n (1024 ^ 2)) ++ lit " MB".

Definition _platform (os : OS) : result platform_info :=
  ip <- gethostbyname os (gethostname os) ;;
  Ok {| pl_system := platform_system os;
        pl_release := platform_release os;
        pl_version := platform_version os;
        pl_host := gethostname os;
        pl_ip := ip |}.

Definition _cpu (os : OS) : cpu_info :=
  let freq := cpu_freq os in
  {| cpu_physical_cores := cpu_count_physical os;
     cpu_logical_cores := cpu_count_logical os;
     cpu_freq_s := match freq with
                   | Some fr => format_fixed 0 (freq_current fr) ++ lit " MHz"
                   | None => lit "N/A"
                   end;
     cpu_usage := cpu_percent os;
     cpu_per_cpu := cpu_percent_percpu os |}.

Definition _memory (os : OS) : memory_info :=
  let vmem := virtual_memory os in
  let swap := swap_memory os in
  {| mem_total_ram := fmt_GB (vm_total vmem);
     mem_used_ram := fmt_GB (vm_used vmem);
     mem_ram_percent := vm_percent vmem;
     mem_swap := format_fixed 1 (truediv (sw_used swap) (1024 ^ 3)) ++ lit "/"
                 ++ format_fixed 1 (truediv (sw_total swap) (1024 ^ 3)) ++ lit " GB" |}.

(** [s.replace("\\", "").replace("/", "")] *)
Definition strip_slashes (s : str) : str :=
  filter (fun c => negb (c =? 47)%N)
         (filter (fun c => negb (c =? 92)%N) s).

(** the inner [try] of [_disks]: the I/O counters of the device, or nothing
    when the query raises, returns [None] or does not list the device *)
Definition disk_io_of (os : OS) (device : str) : option (str * str) :=
  match disk_io_counters os with
  | Ok (Some table) =>
      match dict_get table (strip_slashes device) with
      | Some io => Some (fmt_MB (io_read_bytes io), fmt_MB (io_write_bytes io))
      | None => None
      end
  | Ok None => None
  | Raise _ => None
  end.

Fixpoint disks_loop (os : OS) (parts : list sdiskpart) (disks : list disk_info)
  : result (list disk_info) :=
  match parts with
  | [] => Ok disks
  | part :: rest =>
      match disk_usage os (part_mountpoint part) with
      | Ok use =>
          let disk_info0 :=
            {| dk_device := part_device part;
               dk_mountpoint := part_mountpoint part;
               dk_fstype := part_fstype part;
               dk_total := fmt_GB (du_total use);
               dk_used := fmt_GB (du_used use);
               dk_free := fmt_GB (du_free use);
               dk_percent := du_percent use;
               dk_io := disk_io_of os (part_device part) |} in
          disks_loop os rest (disks ++ [disk_info0])
      | Raise e =>
          if catches [PermissionError; OSError] e
          then disks_loop os rest disks
          else Raise e
      end
  end.

Definition _disks (os : OS) : result (list disk_info) :=
  disks_loop os (disk_partitions os) [].

(** the inner loop of [_network] over the addresses of one interface *)
Fixpoint addrs_loop (addrs : list snicaddr) (ip_addresses : list str)
  (mac_address : option str) : list str * option str :=
  match addrs with
  | [] => (ip_addresses, mac_address)
  | addr :: rest =>
      match addr_family addr with
      | AF_INET =>
          addrs_loop rest
            (ip_addresses ++ [lit "IPv4: " ++ addr_address addr ++ lit "/"
                              ++ str_of_optstr (addr_netmask addr)])
            mac_address
      | AF_INET6 =>
          addrs_loop rest (ip_addresses ++ [lit "IPv6: " ++ addr_address addr])
            mac_address
      | AF_LINK => addrs_loop rest ip_addresses (Some (addr_address addr))
      | AF_OTHER => addrs_loop rest ip_addresses mac_address
      end
  end.

Definition iface_entry (os : OS) (iface : str) (addrs : list snicaddr) : iface_info :=
  let '(ip_addresses, mac_address) := addrs_loop addrs [] None in
  let stats :=
    match dict_get (net_if_stats os) iface with
    | Some stat =>
        Some {| st_is_up := if nic_isup stat then lit "UP" else lit "DOWN";
                st_speed := if 0 <? nic_speed stat
                            then str_of_Z (nic_speed stat) ++ lit " Mbps"
                            else lit "N/A";
                st_mtu := nic_mtu stat |}
    | None => None
    end in
  {| if_ip_addresses := ip_addresses; if_mac := mac_address; if_stats := stats |}.

Fixpoint interfaces_loop (os : OS) (items : list (str * list snicaddr))
  (interfaces : list (str * iface_info)) : list (str * iface_info) :=
  match items with
  | [] => interfaces
  | (iface, addrs) :: rest =>
      interfaces_loop os rest (dict_set interfaces iface (iface_entry os iface addrs))
  end.

Definition _network (os : OS) : network_info :=
  let io := net_io_counters os in
  let interfaces := interfaces_loop os (net_if_addrs os) [] in
  {| net_bytes_sent := fmt_MB (nio_bytes_sent io);
     net_bytes_recv := fmt_MB (nio_bytes_recv io);
     net_packets_sent := nio_packets_sent io;
     net_packets_recv := nio_packets_recv io;
     net_interfaces := interfaces |}.

(** the loop of [_processes]: a process whose resident-size lookup raises
    [NoSuchProcess] or [AccessDenied] is left out *)
Fixpoint processes_loop (ps : list process) (procs : list proc_info)
  : result (list proc_info) :=
  match ps with
  | [] => Ok procs
  | p :: rest =>
      match proc_rss p with
      | Ok rss =>
          let info :=
            {| pi_pid := proc_pid p;
               pi_name := proc_name p;
               pi_cpu_percent := proc_cpu_percent p;
               pi_memory_percent := proc_memory_percent p;
               pi_memory_mb := truediv rss (1024 ^ 2) |} in
          processes_loop rest (procs ++ [info])
      | Raise e =>
          if catches [NoSuchProcess; AccessDenied] e
          then processes_loop rest procs
          else Raise e
      end
  end.

(** [list.sort(key=key, reverse=True)]: a stable sort, largest key first.
    [insert_desc] puts [x], which stood before every element of [l], in front
    of the first element whose key is not larger. *)
Fixpoint insert_desc {A} (key : A -> float) (x : A) (l : list A) : list A :=
  match l with
  | [] => [x]
  | y :: l' =>
      if float_ltb (key x) (key y) then y :: insert_desc key x l' else x :: y :: l'
  end.

Fixpoint sort_desc {A} (key : A -> float) (l : list A) : list A :=
  match l with
  | [] => []
  | x :: l' => insert_desc key x (sort_desc key l')
  end.

Definition _processes (os : OS) : result (list proc_info) :=
  procs <- processes_loop (process_iter os) [] ;;
  let procs := sort_desc pi_memory_percent procs in
  Ok (firstn 8 procs).

Definition _users (os : OS) : list user_info :=
  map (fun user =>
         {| us_name := user_name user;
            us_host := user_host user;
            us_started := strftime_HMS (fromtimestamp os (user_started user)) |})
      (users os).

Definition _boot (os : OS) : str :=
  strftime_full (fromtimestamp os (boot_time os)).

Fixpoint sensors_loop (items : list (str * list shwtemp))
  (sensors : list (str * list float)) : list (str * list float) :=
  match items with
  | [] => sensors
  | (name, entries) :: rest =>
      sensors_loop rest (dict_set sensors name (map temp_current (firstn 2 entries)))
  end.

Definition _sensors (os : OS) : result sensors_info :=
  match sensors_temperatures os with
  | Ok temps =>
      let sensors := [] in
      let sensors := match temps with
                     | [] => sensors
                     | _ => sensors_loop temps sensors
                     end in
      Ok (SensorsMap sensors)
  | Raise e =>
      if catches [AttributeError] e then Ok SensorsNA else Raise e
  end.

(** ** The report object *)

(** [info] is [None] for the empty dictionary of [__init__] *)
Record SystemReport := {
  fmt : str;
  info : option snapshot;
  time : str
}.

(** [SystemReport(fmt)], with [now] the reading of [datetime.datetime.now()] *)
Definition __init__ (now : datetime) (fmt0 : str) : SystemReport :=
  {| fmt := fmt0; info := None; time := strftime_full now |}.

Definition collect (os : OS) (self : SystemReport) : result SystemReport :=
  platform <- _platform os ;;
  let cpu := _cpu os in
  let memory := _memory os in
  disks <- _disks os ;;
  let network := _network os in
  processes <- _processes os ;;
  let users0 := _users os in
  let boot := _boot os in
  sensors <- _sensors os ;;
  Ok {| fmt := fmt self;
        info := Some {| s_time := time self;
                        s_platform := platform;
                        s_cpu := cpu;
                        s_memory := memory;
                        s_disks := disks;
                        s_network := network;
                        s_processes := processes;
                        s_users := users0;
                        s_boot := boot;
                        s_sensors := sensors |};
        time := time self |}.

(** ** The text renderer *)

(** [enumerate(l, start)] *)
Fixpoint enumerate {A} (start : N) (l : list A) : list (N * A) :=
  match l with
  | [] => []
  | x :: l' => (start, x) :: enumerate (start + 1)%N l'
  end.

(** [truthy] values of the kinds the script tests with [if] *)
Definition truthy_list {A} (l : list A) : bool :=
  match l with [] => false | _ => true end.

Definition truthy_optstr (o : option str) : bool :=
  match o with Some (_ :: _) => true | _ => false end.

Definition header_lines (time0 : str) : list str :=
  [ times 61%N 60;
    lit "СИСТЕМНЫЙ ОТЧЕТ - " ++ time0;
    times 61%N 60 ].

Definition platform_lines (p : platform_info) : list str :=
  [ NL ++ lit "ПЛАТФОРМА:";
    times 45%N 40;
    lit "Система: " ++ pl_system p ++ lit " " ++ pl_release p;
    lit "Версия: " ++ pl_version p;
    lit "Хост: " ++ pl_host p;
    lit "IP-адрес: " ++ pl_ip p ].

Definition cpu_lines (cpu : cpu_info) : list str :=
  [ NL ++ lit "ПРОЦЕССОР:";
    times 45%N 40;
    lit "Ядра: " ++ str_of_optZ (cpu_physical_cores cpu) ++ lit " физических, "
      ++ str_of_optZ (cpu_logical_cores cpu) ++ lit " логических";
    lit "Частота: " ++ cpu_freq_s cpu;
    lit "Загрузка: " ++ float_repr (cpu_usage cpu) ++ lit "%";
    lit "По ядрам: "
      ++ join (lit ", ") (map (fun p => float_repr p ++ lit "%") (cpu_per_cpu cpu)) ].

Definition memory_lines (mem : memory_info) : list str :=
  [ NL ++ lit "ПАМЯТЬ:";
    times 45%N 40;
    lit "ОЗУ: " ++ mem_used_ram mem ++ lit " / " ++ mem_total_ram mem
      ++ lit " (" ++ float_repr (mem_ram_percent mem) ++ lit "%)";
    lit "SWAP: " ++ mem_swap mem ].

(** the lines of one disk, numbered [i] *)
Definition disk_lines (i : N) (disk : disk_info) : list str :=
  let disk_info0 :=
    [ str_of_N i ++ lit ". " ++ dk_device disk ++ lit " → " ++ dk_mountpoint disk;
      lit "   Тип: " ++ dk_fstype disk ++ lit ", Всего: " ++ dk_total disk;
      lit "   Использовано: " ++ dk_used disk ++ lit " ("
        ++ float_repr (dk_percent disk) ++ lit "%), Свободно: " ++ dk_free disk ] in
  match dk_io disk with
  | Some (read_bytes, write_bytes) =>
      disk_info0 ++ [lit "   Чтение: " ++ read_bytes ++ lit ", Запись: " ++ write_bytes]
  | None => disk_info0
  end.

Definition disks_lines (disks : list disk_info) : list str :=
  [NL ++ lit "ДИСКОВЫЕ НАКОПИТЕЛИ:"; times 45%N 40]
  ++ flat_map (fun '(i, disk) => disk_lines i disk) (enumerate 1%N disks).

Definition network_head_lines (net : network_info) : list str :=
  [ NL ++ lit "СЕТЕВЫЕ ИНТЕРФЕЙСЫ:";
    times 45%N 40;
    lit "Отправлено: " ++ net_bytes_sent net ++ lit ", Получено: " ++ net_bytes_recv net;
    lit "Пакеты: отправлено " ++ str_of_Z (net_packets_sent net)
      ++ lit ", получено " ++ str_of_Z (net_packets_recv net) ].

(** the body of the loop over [net['interfaces'].items()] *)
Definition iface_lines (iface : str) (inf : iface_info) : list str :=
  if truthy_list (if_ip_addresses inf) then
    [NL ++ iface ++ lit ":"]
    ++ (if truthy_optstr (if_mac inf)
        then [lit "  MAC: " ++ str_of_optstr (if_mac inf)] else [])
    ++ map (fun ip => lit "  " ++ ip) (firstn 2 (if_ip_addresses inf))
    ++ match if_stats inf with
       | Some st => [lit "  Статус: " ++ st_is_up st ++ lit ", "
                     ++ lit "Скорость: " ++ st_speed st]
       | None => []
       end
  else [].

Definition interfaces_lines (interfaces : list (str * iface_info)) : list str :=
  flat_map (fun '(iface, inf) => iface_lines iface inf) interfaces.

Definition proc_line (i : N) (proc : proc_info) : str :=
  str_of_N i ++ lit ". " ++ ljust 20 (firstn 20 (pi_name proc)) ++ lit " "
  ++ lit "PID:" ++ rjust 6 (str_of_Z (pi_pid proc)) ++ lit " "
  ++ lit "CPU:" ++ rjust 5 (format_fixed 1 (pi_cpu_percent proc)) ++ lit "% "
  ++ lit "MEM:" ++ rjust 5 (format_fixed 1 (pi_memory_percent proc)) ++ lit "%".

Definition processes_lines (procs : list proc_info) : list str :=
  [NL ++ lit "ТОП-8 ПРОЦЕССОВ:"; times 45%N 40]
  ++ map (fun '(i, proc) => proc_line i proc) (enumerate 1%N procs).

Definition user_line (user : user_info) : str :=
  us_name user ++ lit " с " ++ us_host user ++ lit " (с " ++ us_started user ++ lit ")".

Definition users_lines (us : list user_info) : list str :=
  if truthy_list us
  then [NL ++ lit "АКТИВНЫЕ ПОЛЬЗОВАТЕЛИ:"; times 45%N 40] ++ map user_line us
  else [].

Definition boot_lines (boot : str) : list str :=
  [NL ++ lit "ВРЕМЯ ЗАГРУЗКИ: " ++ boot; times 61%N 60].

(** the list [report] of [text_report], in the order it is extended *)
Definition text_lines (time0 : str) (s : snapshot) : list str :=
  header_lines time0
  ++ platform_lines (s_platform s)
  ++ cpu_lines (s_cpu s)
  ++ memory_lines (s_memory s)
  ++ disks_lines (s_disks s)
  ++ network_head_lines (s_network s)
  ++ interfaces_lines (net_interfaces (s_network s))
  ++ processes_lines (s_processes s)
  ++ users_lines (s_users s)
  ++ boot_lines (s_boot s).

Definition key_error (k : String.string) : exn :=
  {| exn_cls := KeyError; exn_msg := lit "'" ++ lit k ++ lit "'" |}.

(** [self.info['platform']] raises [KeyError] on the empty dictionary *)
Definition text_report (self : SystemReport) : result str :=
  match info self with
  | Some s => Ok (join NL (text_lines (time self) s))
  | None => Raise (key_error "platform")
  end.

(** ** The JSON renderer

    [json] is the structural form: what [json.loads] builds and, for a
    snapshot, the nested dictionaries and lists of [self.info] themselves. *)

#[local] Unset Elimination Schemes.

Inductive json :=
| JNull
| JBool (b : bool)
| JInt (z : Z)
| JFloat (x : float)
| JStr (s : str)
| JArr (l : list json)
| JObj (m : list (str * json)).

#[local] Set Elimination Schemes.

Definition jopt {A} (f : A -> json) (o : option A) : json :=
  match o with Some a => f a | None => JNull end.

Definition platform_json (p : platform_info) : json :=
  JObj [ (lit "system", JStr (pl_system p));
         (lit "release", JStr (pl_release p));
         (lit "version", JStr (pl_version p));
         (lit "host", JStr (pl_host p));
         (lit "ip", JStr (pl_ip p)) ].

Definition cpu_json (c : cpu_info) : json :=
  JObj [ (lit "physical_cores", jopt JInt (cpu_physical_cores c));
         (lit "logical_cores", jopt JInt (cpu_logical_cores c));
         (lit "freq", JStr (cpu_freq_s c));
         (lit "usage", JFloat (cpu_usage c));
         (lit "per_cpu", JArr (map JFloat (cpu_per_cpu c))) ].

Definition memory_json (m : memory_info) : json :=
  JObj [ (lit "total_ram", JStr (mem_total_ram m));
         (lit "used_ram", JStr (mem_used_ram m));
         (lit "ram_percent", JFloat (mem_ram_percent m));
         (lit "swap", JStr (mem_swap m)) ].

Definition disk_json (d : disk_info) : json :=
  JObj ([ (lit "device", JStr (dk_device d));
          (lit "mountpoint", JStr (dk_mountpoint d));
          (lit "fstype", JStr (dk_fstype d));
          (lit "total", JStr (dk_total d));
          (lit "used", JStr (dk_used d));
          (lit "free", JStr (dk_free d));
          (lit "percent", JFloat (dk_percent d)) ]
        ++ match dk_io d with
           | Some (r, w) => [ (lit "read_bytes", JStr r); (lit "write_bytes", JStr w) ]
           | None => []
           end).

Definition stats_json (o : option iface_stats) : json :=
  match o with
  | Some st => JObj [ (lit "is_up", JStr (st_is_up st));
                      (lit "speed", JStr (st_speed st));
                      (lit "mtu", JInt (st_mtu st)) ]
  | None => JObj []
  end.

Definition iface_json (i : iface_info) : json :=
  JObj [ (lit "ip_addresses", JArr (map JStr (if_ip_addresses i)));
         (lit "mac", jopt JStr (if_mac i));
         (lit "stats", stats_json (if_stats i)) ].

Definition network_json (n : network_info) : json :=
  JObj [ (lit "bytes_sent", JStr (net_bytes_sent n));
         (lit "bytes_recv", JStr (net_bytes_recv n));
         (lit "packets_sent", JInt (net_packets_sent n));
         (lit "packets_recv", JInt (net_packets_recv n));
         (lit "interfaces",
          JObj (map (fun '(k, i) => (k, iface_json i)) (net_interfaces n))) ].

(** the keys of [p.info] in the order they are requested, then the added
    ["memory_mb"] *)
Definition proc_json (p : proc_info) : json :=
  JObj [ (lit "pid", JInt (pi_pid p));
         (lit "name", JStr (pi_name p));
         (lit "cpu_percent", JFloat (pi_cpu_percent p));
         (lit "memory_percent", JFloat (pi_memory_percent p));
         (lit "memory_mb", JFloat (pi_memory_mb p)) ].

Definition user_json (u : user_info) : json :=
  JObj [ (lit "name", JStr (us_name u));
         (lit "host", JStr (us_host u));
         (lit "started", JStr (us_started u)) ].

Definition sensors_json (s : sensors_info) : json :=
  match s with
  | SensorsNA => JObj [ (lit "info", JStr (lit "N/A")) ]
  | SensorsMap m =>
      JObj (map (fun '(k, rs) =>
                   (k, JArr (map (fun c => JObj [ (lit "current", JFloat c) ]) rs)))
                m)
  end.

(** [self.info] after [collect], as the dictionary it is *)
Definition snapshot_json (s : snapshot) : json :=
  JObj [ (lit "time", JStr (s_time s));
         (lit "platform", platform_json (s_platform s));
         (lit "cpu", cpu_json (s_cpu s));
         (lit "memory", memory_json (s_memory s));
         (lit "disks", JArr (map disk_json (s_disks s)));
         (lit "network", network_json (s_network s));
         (lit "processes", JArr (map proc_json (s_processes s)));
         (lit "users", JArr (map user_json (s_users s)));
         (lit "boot", JStr (s_boot s));
         (lit "sensors", sensors_json (s_sensors s)) ].

Definition info_json (o : option snapshot) : json :=
  match o with Some s => snapshot_json s | None => JObj [] end.

(** *** [json.dumps(obj, indent=2)]

    Strings are written with [ensure_ascii]: every character outside
    [' '..'~'], the quote and the backslash are escaped, characters beyond
    the basic plane as a surrogate pair. *)

Definition hex_digit (d : N) : N :=
  if (d <? 10)%N then (48 + d)%N else (87 + d)%N.

Definition hex4 (n : N) : str :=
  [ hex_digit (n / 4096 mod 16)%N; hex_digit (n / 256 mod 16)%N;
    hex_digit (n / 16 mod 16)%N; hex_digit (n mod 16)%N ].

Definition escape_u (n : N) : str := 92%N :: 117%N :: hex4 n.

Definition escape_char (c : N) : str :=
  if (c =? 34)%N then [92; 34]%N
  else if (c =? 92)%N then [92; 92]%N
  else if (c =? 8)%N then [92; 98]%N
  else if (c =? 12)%N then [92; 102]%N
  else if (c =? 10)%N then [92; 110]%N
  else if (c =? 13)%N then [92; 114]%N
  else if (c =? 9)%N then [92; 116]%N
  else if ((32 <=? c) && (c <=? 126))%N then [c]
  else if (c <? 65536)%N then escape_u c
  else let n := (c - 65536)%N in
       escape_u (55296 + n / 1024)%N ++ escape_u (56320 + n mod 1024)%N.

Definition encode_str (s : str) : str :=
  34%N :: flat_map escape_char s ++ [34%N].

(** a newline and the indentation of nesting depth [level] *)
Definition nl_indent (level : nat) : str := 10%N :: repeat 32%N (2 * level).

Definition item_sep (level : nat) : str := 44%N :: nl_indent level.

Fixpoint encode (level : nat) (v : json) : str :=
  match v with
  | JNull => lit "null"
  | JBool true => lit "true"
  | JBool false => lit "false"
  | JInt z => str_of_Z z
  | JFloat x => float_repr x
  | JStr s => encode_str s
  | JArr [] => lit "[]"
  | JArr l =>
      lit "[" ++ nl_indent (S level)
      ++ join (item_sep (S level)) (map (encode (S level)) l)
      ++ nl_indent level ++ lit "]"
  | JObj [] => lit "{}"
  | JObj m =>
      lit "{" ++ nl_indent (S level)
      ++ join (item_sep (S level))
           (map (fun kv => encode_str (fst kv) ++ lit ": " ++ encode (S level) (snd kv)) m)
      ++ nl_indent level ++ lit "}"
  end.

Definition dumps (v : json) : str := encode 0 v.

(** none of the values of a snapshot needs the [default=str] fallback: they
    are dictionaries with string keys, lists, strings, numbers and [None] *)
Definition json_report (self : SystemReport) : str :=
  dumps (info_json (info self)).

(** *** [json.loads] *)

Definition is_ws (c : N) : bool :=
  ((c =? 32) || (c =? 9) || (c =? 10) || (c =? 13))%N.

Fixpoint skip_ws (s : str) : str :=
  match s with
  | c :: s' => if is_ws c then skip_ws s' else s
  | [] => []
  end.

Definition hex_val (c : N) : option N :=
  if is_digit c then Some (c - 48)%N
  else if ((97 <=? c) && (c <=? 102))%N then Some (c - 87)%N
  else if ((65 <=? c) && (c <=? 70))%N then Some (c - 55)%N
  else None.

(** the four hexadecimal digits after [\u] *)
Definition decode_u (s : str) : option (N * str) :=
  match s with
  | a :: b :: c :: d :: rest =>
      match hex_val a, hex_val b, hex_val c, hex_val d with
      | Some x, Some y, Some z, Some w =>
          Some (x * 4096 + y * 256 + z * 16 + w, rest)%N
      | _, _, _, _ => None
      end
  | _ => None
  end.

Definition unescape (e : N) : option N :=
  if (e =? 34)%N then Some 34%N
  else if (e =? 92)%N then Some 92%N
  else if (e =? 47)%N then Some 47%N
  else if (e =? 98)%N then Some 8%N
  else if (e =? 102)%N then Some 12%N
  else if (e =? 110)%N then Some 10%N
  else if (e =? 114)%N then Some 13%N
  else if (e =? 116)%N then Some 9%N
  else None.

Definition cons_fst {A B} (a : A) (r : option (list A * B)) : option (list A * B) :=
  match r with Some (l, b) => Some (a :: l, b) | None => None end.

(** the text of a string up to its closing quote, and what follows it *)
Fixpoint scanstring (fuel : nat) (s : str) : option (str * str) :=
  match fuel with
  | O => None
  | S fuel' =>
      match s with
      | [] => None
      | c :: s' =>
          if (c =? 34)%N then Some ([], s')
          else if (c =? 92)%N then
            match s' with
            | [] => None
            | e :: s'' =>
                if (e =? 117)%N then
                  match decode_u s'' with
                  | None => None
                  | Some (uni, s3) =>
                      if ((55296 <=? uni) && (uni <=? 56319))%N then
                        match s3 with
                        | 92%N :: 117%N :: s5 =>
                            match decode_u s5 with
                            | None => None
                            | Some (uni2, s6) =>
                                if ((56320 <=? uni2) && (uni2 <=? 57343))%N
                                then cons_fst
                                       (65536 + ((uni - 55296) * 1024 + (uni2 - 56320)))%N
                                       (scanstring fuel' s6)
                                else cons_fst uni (scanstring fuel' s3)
                            end
                        | _ => cons_fst uni (scanstring fuel' s3)
                        end
                      else cons_fst uni (scanstring fuel' s3)
                  end
                else
                  match unescape e with
                  | Some ch => cons_fst ch (scanstring fuel' s'')
                  | None => None
                  end
            end
          else if (c <? 32)%N then None
          else cons_fst c (scanstring fuel' s')
      end
  end.

(** a number token: the longest run of number characters *)
Fixpoint span_num (s : str) : str * str :=
  match s with
  | c :: s' =>
      if is_numchar c then let '(t, r) := span_num s' in (c :: t, r) else ([], s)
  | [] => ([], [])
  end.

Fixpoint digits_val (acc : N) (ds : str) : N :=
  match ds with
  | [] => acc
  | d :: ds' => digits_val (acc * 10 + (d - 48))%N ds'
  end.

(** [int(token)] *)
Definition int_of_token (t : str) : Z :=
  match t with
  | c :: ds => if (c =? 45)%N then - Z.of_N (digits_val 0 ds)
               else Z.of_N (digits_val 0 t)
  | [] => 0
  end.

Definition scan_number (s : str) : option (json * str) :=
  let '(t, rest) := span_num s in
  if is_int_token t then Some (JInt (int_of_token t), rest)
  else match float_of_str t with
       | Some x => Some (JFloat x, rest)
       | None => None
       end.

Fixpoint strip_prefix (p s : str) : option str :=
  match p, s with
  | [], _ => Some s
  | a :: p', b :: s' => if (a =? b)%N then strip_prefix p' s' else None
  | _ :: _, [] => None
  end.

Definition scan_const (p : str) (v : json) (s : str) : option (json * str) :=
  match strip_prefix p s with Some rest => Some (v, rest) | None => None end.

(** [dict(pairs)]: a later pair replaces the value of an equal key *)
Definition dict_of_pairs {V} (pairs : list (str * V)) : list (str * V) :=
  fold_left (fun d kv => dict_set d (fst kv) (snd kv)) pairs [].

Fixpoint scan_once (fuel : nat) (s : str) {struct fuel} : option (json * str) :=
  match fuel with
  | O => None
  | S fuel' =>
      match s with
      | [] => None
      | c :: s' =>
          if (c =? 34)%N then
            match scanstring (length s') s' with
            | Some (k, rest) => Some (JStr k, rest)
            | None => None
            end
          else if (c =? 123)%N then
            match skip_ws s' with
            | c1 :: rest =>
                if (c1 =? 125)%N then Some (JObj [], rest)
                else match scan_members fuel' (c1 :: rest) with
                     | Some (pairs, rest') => Some (JObj (dict_of_pairs pairs), rest')
                     | None => None
                     end
            | [] => None
            end
          else if (c =? 91)%N then
            match skip_ws s' with
            | c1 :: rest =>
                if (c1 =? 93)%N then Some (JArr [], rest)
                else match scan_items fuel' (c1 :: rest) with
                     | Some (items, rest') => Some (JArr items, rest')
                     | None => None
                     end
            | [] => None
            end
          else if (c =? 110)%N then scan_const (lit "ull") JNull s'
          else if (c =? 116)%N then scan_const (lit "rue") (JBool true) s'
          else if (c =? 102)%N then scan_const (lit "alse") (JBool false) s'
          else scan_number s
      end
  end

with scan_items (fuel : nat) (s : str) {struct fuel} : option (list json * str) :=
  match fuel with
  | O => None
  | S fuel' =>
      match scan_once fuel' s with
      | Some (v, rest) =>
          match skip_ws rest with
          | c :: rest' =>
              if (c =? 93)%N then Some ([v], rest')
              else if (c =? 44)%N then cons_fst v (scan_items fuel' (skip_ws rest'))
              else None
          | [] => None
          end
      | None => None
      end
  end

with scan_members (fuel : nat) (s : str) {struct fuel}
  : option (list (str * json) * str) :=
  match fuel with
  | O => None
  | S fuel' =>
      match s with
      | c :: s1 =>
          if (c =? 34)%N then
            match scanstring (length s1) s1 with
            | Some (k, r1) =>
                match skip_ws r1 with
                | c2 :: r2 =>
                    if (c2 =? 58)%N then
                      match scan_once fuel' (skip_ws r2) with
                      | Some (v, r3) =>
                          match skip_ws r3 with
                          | c3 :: r4 =>
                              if (c3 =? 125)%N then Some ([(k, v)], r4)
                              else if (c3 =? 44)%N
                              then cons_fst (k, v) (scan_members fuel' (skip_ws r4))
                              else None
                          | [] => None
                          end
                      | None => None
                      end
                    else None
                | [] => None
                end
            | None => None
            end
          else None
      | [] => None
      end
  end.

Definition loads (s : str) : option json :=
  match scan_once (length s) (skip_ws s) with
  | Some (v, rest) => match skip_ws rest with [] => Some v | _ => None end
  | None => None
  end.

(** ** Saving and the command line

    What the program does to the outside is a list of events: lines printed
    on the console and files written.  [WriteFile fname content] stands for
    a file that was opened for writing, so created or emptied, and closed
    holding [content]. *)

Inductive event :=
| Print (s : str)
| WriteFile (fname : str) (content : str).

Definition io (A : Type) : Type := list event * result A.

Definition io_bind {A B} (m : io A) (k : A -> io B) : io B :=
  match m with
  | (ev, Ok a) => let '(ev', r) := k a in (ev ++ ev', r)
  | (ev, Raise e) => (ev, Raise e)
  end.

Definition io_lift {A} (r : result A) : io A := ([], r).

(** [print(s)]: the console is taken to show every text; its encoding and
    what it does with a character it cannot encode are set by the
    environment, not by the script *)
Definition io_print (s : str) : io unit := ([Print s], Ok tt).

(** *** Writing text as UTF-8

    The file is opened with [encoding='utf-8'] and the default, strict,
    error handling: [f.write] encodes the whole text first and raises
    [UnicodeEncodeError] when it holds a surrogate code point
    (U+D800..U+DFFF); nothing is written then. *)

Definition is_surrogate (c : N) : bool := ((55296 <=? c) && (c <=? 57343))%N.

(** the number of surrogates at the head of [s] *)
Fixpoint surrogate_run (s : str) : N :=
  match s with
  | [] => 0%N
  | c :: s' => if is_surrogate c then (1 + surrogate_run s')%N else 0%N
  end.

(** the [UnicodeEncodeError] (a [ValueError], none of the classes the
    collectors name) for the surrogate [c] found at [pos], the first of
    [run] surrogates in a row; its message is [str(e)], with positions
    counted in the text as written where the line separator is ["\n"] *)
Definition unicode_encode_error (c pos run : N) : exn :=
  {| exn_cls := OtherException;
     exn_msg :=
       if (run =? 1)%N
       then lit "'utf-8' codec can't encode character '\u" ++ hex4 c
            ++ lit "' in position " ++ str_of_N pos
            ++ lit ": surrogates not allowed"
       else lit "'utf-8' codec can't encode characters in position "
            ++ str_of_N pos ++ lit "-" ++ str_of_N (pos + run - 1)
            ++ lit ": surrogates not allowed" |}.

(** the error of encoding [s], whose first character has index [pos], if
    there is one *)
Fixpoint utf8_error_from (pos : N) (s : str) : option exn :=
  match s with
  | [] => None
  | c :: s' =>
      if is_surrogate c
      then Some (unicode_encode_error c pos (1 + surrogate_run s'))
      else utf8_error_from (pos + 1) s'
  end.

Definition utf8_error (s : str) : option exn := utf8_error_from 0 s.

(** [SystemReport.save]: [now] is the reading of [datetime.datetime.now()]
    made here, [open_w fname] tells whether the file can be opened for
    writing.  The content is rendered before the file is opened; when
    [f.write] raises, the [with] block closes the file, which stays empty,
    and no name is returned. *)
Definition save (now : datetime) (open_w : str -> result unit)
  (self : SystemReport) (fname : option str) : io str :=
  let fname :=
    if truthy_optstr fname then str_of_optstr fname
    else lit "system_report_" ++ strftime_compact now in
  let fname := fname ++ (if str_eqb (fmt self) (lit "json")
                         then lit ".json" else lit ".txt") in
  io_bind (io_lift (if str_eqb (fmt self) (lit "json")
                    then Ok (json_report self) else text_report self))
    (fun content =>
       io_bind (io_lift (open_w fname))
         (fun _ =>
            match utf8_error content with
            | None => ([WriteFile fname content], Ok fname)
            | Some e => ([WriteFile fname []], Raise e)
            end)).

Record args := { a_format : str; a_output : option str; a_print : bool }.

Record World := {
  w_os : OS;
  w_now_init : datetime;
  w_now_save : datetime;
  w_open : str -> result unit
}.

(** the body of the [try] in [main] *)
Definition main_body (w : World) (a : args) : io unit :=
  let report := __init__ (w_now_init w) (a_format a) in
  io_bind (io_lift (collect (w_os w) report))
    (fun report =>
       io_bind
         (if a_print a
          then io_bind (io_lift (if str_eqb (a_format a) (lit "json")
                                 then Ok (json_report report)
                                 else text_report report))
                       io_print
          else ([], Ok tt))
         (fun _ =>
            if truthy_optstr (a_output a) || negb (a_print a)
            then io_bind (save (w_now_save w) (w_open w) report (a_output a))
                   (fun fname => io_print (lit "Отчет сохранен: " ++ fname))
            else ([], Ok tt))).

Definition main (w : World) (a : args) : list event :=
  match main_body w a with
  | (ev, Ok _) => ev
  | (ev, Raise e) => ev ++ [Print (lit "Ошибка: " ++ exn_msg e)]
  end.

End Model.

(** ** A concrete float

    Decimal numbers with one digit after the point, kept as a count of
    tenths: enough to run the model on examples.  [int / int] truncates
    towards zero. *)

Definition tenths_repr (z : Z) : str :=
  (if z <? 0 then [45%N] else [])
  ++ str_of_N (Z.abs_N z / 10) ++ [46%N] ++ str_of_N (Z.abs_N z mod 10).

Fixpoint span_digits (s : str) : str * str :=
  match s with
  | c :: s' =>
      if is_digit c then let '(t, r) := span_digits s' in (c :: t, r) else ([], s)
  | [] => ([], [])
  end.

Definition tenths_of_body (body : str) : option N :=
  match span_digits body with
  | ((_ :: _) as ip, [dot; d]) =>
      if (dot =? 46)%N && is_digit d
      then Some (digits_val 0 ip * 10 + (d - 48))%N
      else None
  | _ => None
  end.

Definition tenths_of_str (s : str) : option Z :=
  match s with
  | c :: r =>
      if (c =? 45)%N
      then option_map (fun n => - Z.of_N n) (tenths_of_body r)
      else option_map Z.of_N (tenths_of_body s)
  | [] => None
  end.

Definition tenths_float : PyFloat :=
  {| float := Z;
     f2Q := fun z => z # 10;
     truediv := fun a b => Z.quot (10 * a) b;
     float_repr := tenths_repr;
     float_of_str := tenths_of_str |}.

(** * Vocabulary of the properties *)

Section Vocabulary.

Context {F : PyFloat}.

Definition is_prefix {A} (l1 l2 : list A) : Prop := exists t, l2 = l1 ++ t.

(** what one enumerated process adds to [procs] *)
Definition proc_entry (p : process) : list proc_info :=
  match proc_rss p with
  | Ok rss => [ {| pi_pid := proc_pid p;
                   pi_name := proc_name p;
                   pi_cpu_percent := proc_cpu_percent p;
                   pi_memory_percent := proc_memory_percent p;
                   pi_memory_mb := truediv rss (1024 ^ 2) |} ]
  | Raise _ => []
  end.

(** descending order of the memory percentage *)
Definition mem_ge (a b : proc_info) : Prop :=
  (f2Q (pi_memory_percent b) <= f2Q (pi_memory_percent a))%Q.

Definition same_mem (k : float) (p : proc_info) : bool :=
  float_eqb (pi_memory_percent p) k.

(** the record [_disks] appends for a partition whose usage lookup gave
    [use] *)
Definition disk_record (os : OS) (part : sdiskpart) (use : sdiskusage) : disk_info :=
  {| dk_device := part_device part;
     dk_mountpoint := part_mountpoint part;
     dk_fstype := part_fstype part;
     dk_total := fmt_GB (du_total use);
     dk_used := fmt_GB (du_used use);
     dk_free := fmt_GB (du_free use);
     dk_percent := du_percent use;
     dk_io := disk_io_of os (part_device part) |}.

Definition disk_entry (os : OS) (part : sdiskpart) : list disk_info :=
  match disk_usage os (part_mountpoint part) with
  | Ok use => [disk_record os part use]
  | Raise _ => []
  end.

(** *** Ranges *)

Definition pct_okb (x : float) : bool :=
  Qle_bool 0 (f2Q x) && Qle_bool (f2Q x) 100.

(** a formatted size shows no minus sign *)
Definition no_minus (s : str) : bool := negb (existsb (N.eqb 45) s).

Definition opt_forall {A} (p : A -> bool) (o : option A) : bool :=
  match o with Some a => p a | None => true end.

Definition ok_forall {A} (p : A -> bool) (r : result A) : bool :=
  match r with Ok a => p a | Raise _ => true end.

(** the percentage fields of a snapshot are within [0, 100] *)
Definition snapshot_percent_okb (s : snapshot) : bool :=
  pct_okb (cpu_usage (s_cpu s))
  && forallb pct_okb (cpu_per_cpu (s_cpu s))
  && pct_okb (mem_ram_percent (s_memory s))
  && forallb (fun d => pct_okb (dk_percent d)) (s_disks s)
  && forallb (fun p => pct_okb (pi_cpu_percent p) && pct_okb (pi_memory_percent p))
       (s_processes s).

(** the size fields of a snapshot are not negative *)
Definition snapshot_sizes_okb (s : snapshot) : bool :=
  no_minus (mem_total_ram (s_memory s))
  && no_minus (mem_used_ram (s_memory s))
  && no_minus (mem_swap (s_memory s))
  && forallb (fun d => no_minus (dk_total d) && no_minus (dk_used d)
                       && no_minus (dk_free d)
                       && opt_forall (fun rw => no_minus (fst rw) && no_minus (snd rw))
                            (dk_io d))
       (s_disks s)
  && no_minus (net_bytes_sent (s_network s))
  && no_minus (net_bytes_recv (s_network s))
  && (0 <=? net_packets_sent (s_network s))
  && (0 <=? net_packets_recv (s_network s))
  && forallb (fun ki => opt_forall (fun st => no_minus (st_speed st)
                                              && (0 <=? st_mtu st))
                          (if_stats (snd ki)))
       (net_interfaces (s_network s))
  && forallb (fun p => Qle_bool 0 (f2Q (pi_memory_mb p))) (s_processes s).

(** the same of the answers of the operating system *)
Definition os_percent_okb (os : OS) : bool :=
  pct_okb (cpu_percent os)
  && forallb pct_okb (cpu_percent_percpu os)
  && pct_okb (vm_percent (virtual_memory os))
  && forallb (fun part => ok_forall (fun u => pct_okb (du_percent u))
                            (disk_usage os (part_mountpoint part)))
       (disk_partitions os)
  && forallb (fun p => pct_okb (proc_cpu_percent p) && pct_okb (proc_memory_percent p))
       (process_iter os).

Definition os_sizes_okb (os : OS) : bool :=
  (0 <=? vm_total (virtual_memory os))
  && (0 <=? vm_used (virtual_memory os))
  && (0 <=? sw_used (swap_memory os))
  && (0 <=? sw_total (swap_memory os))
  && forallb (fun part => ok_forall (fun u => (0 <=? du_total u) && (0 <=? du_used u)
                                              && (0 <=? du_free u))
                            (disk_usage os (part_mountpoint part)))
       (disk_partitions os)
  && ok_forall (opt_forall (forallb (fun kv => (0 <=? io_read_bytes (snd kv))
                                               && (0 <=? io_write_bytes (snd kv)))))
       (disk_io_counters os)
  && (0 <=? nio_bytes_sent (net_io_counters os))
  && (0 <=? nio_bytes_recv (net_io_counters os))
  && (0 <=? nio_packets_sent (net_io_counters os))
  && (0 <=? nio_packets_recv (net_io_counters os))
  && forallb (fun ks => 0 <=? nic_mtu (snd ks)) (net_if_stats os)
  && forallb (fun p => ok_forall (fun rss => 0 <=? rss) (proc_rss p)) (process_iter os).

(** every failing usage lookup fails with one of the errors [_disks] names *)
Definition usage_errors_caught (os : OS) : bool :=
  forallb (fun part => match disk_usage os (part_mountpoint part) with
                       | Ok _ => true
                       | Raise e => catches [PermissionError; OSError] e
                       end)
          (disk_partitions os).

(** *** The text report by sections *)

(** the lines before the process list and after the network totals are
    those of the interfaces; [lines_before_interfaces] is what precedes them *)
Definition lines_before_interfaces (time0 : str) (s : snapshot) : list str :=
  header_lines time0 ++ platform_lines (s_platform s) ++ cpu_lines (s_cpu s)
  ++ memory_lines (s_memory s) ++ disks_lines (s_disks s)
  ++ network_head_lines (s_network s).

(** everything the report holds before the users *)
Definition lines_before_users (time0 : str) (s : snapshot) : list str :=
  lines_before_interfaces time0 s
  ++ interfaces_lines (net_interfaces (s_network s))
  ++ processes_lines (s_processes s).

(** the line of a login session: name, host and the login time as
    [HH:MM:SS]; the connecting words are the program's own, "с" standing for
    both "from" and "since" *)
Definition session_line (os : OS) (u : suser) : str :=
  let d := fromtimestamp os (user_started u) in
  user_name u ++ lit " с " ++ user_host u ++ lit " (с "
  ++ zpad 2 (hour d) ++ lit ":" ++ zpad 2 (minute d) ++ lit ":" ++ zpad 2 (second d)
  ++ lit ")".

(** the addresses [_network] keeps for an interface *)
Definition is_ip (a : snicaddr) : bool :=
  match addr_family a with AF_INET | AF_INET6 => true | _ => false end.

Definition ip_text (a : snicaddr) : str :=
  match addr_family a with
  | AF_INET => lit "IPv4: " ++ addr_address a ++ lit "/" ++ str_of_optstr (addr_netmask a)
  | _ => lit "IPv6: " ++ addr_address a
  end.

(** *** The command line *)

(** what the selected renderer gives for [r] *)
Definition rendered_as (format : str) (r : SystemReport) : result str :=
  if str_eqb format (lit "json") then Ok (json_report r) else text_report r.

Definition extension_of (format : str) : str :=
  if str_eqb format (lit "json") then lit ".json" else lit ".txt".


(** *** Well-formed JSON values

    The code points of a string are those that decoding operating-system
    data yields: no high surrogate (U+D800..U+DBFF), nothing beyond U+10FFFF.
    The keys of a dictionary are distinct. *)

Definition text_cp (c : N) : bool :=
  ((c <? 55296) || ((56320 <=? c) && (c <? 1114112)))%N.

Definition text_ok (s : str) : bool := forallb text_cp s.

Fixpoint distinct (ks : list str) : bool :=
  match ks with
  | [] => true
  | k :: ks' => negb (existsb (str_eqb k) ks') && distinct ks'
  end.

Fixpoint json_ok (v : json) : bool :=
  match v with
  | JStr s => text_ok s
  | JArr l => forallb json_ok l
  | JObj m =>
      forallb (fun kv => text_ok (fst kv) && json_ok (snd kv)) m
      && distinct (map fst m)
  | _ => true
  end.

(** the number of steps the decoder needs for a value *)
Fixpoint jsize (v : json) : nat :=
  match v with
  | JArr l => S (list_sum (map (fun e => S (jsize e)) l))
  | JObj m => S (list_sum (map (fun kv => S (jsize (snd kv))) m))
  | _ => 1
  end.

(** what may follow a value in a document: nothing, or a character that
    cannot continue a number *)
Definition delim (s : str) : bool :=
  match s with [] => true | c :: _ => negb (is_numchar c) end.

(** a member of an encoded dictionary: the key, [": "] and the value *)
Definition encode_member (level : nat) (kv : str * json) : str :=
  encode_str (fst kv) ++ lit ": " ++ encode level (snd kv).

(** the first character of an encoded value: it is neither white space nor
    a closing bracket, and a number starts with a number character *)
Definition value_start (c : N) : Prop :=
  is_ws c = false /\ (c =? 93)%N = false /\ (c =? 125)%N = false.

(** the statement of the round trip for one value *)
Definition reads_back (v : json) : Prop :=
  forall (level : nat) (rest : str) (fuel : nat),
    json_ok v = true -> (jsize v <= fuel)%nat -> delim rest = true ->
    scan_once fuel (encode level v ++ rest) = Some (v, rest).

(** the strings the operating system hands over are text *)
Definition os_text_okb (os : OS) : bool :=
  text_ok (platform_system os)
  && text_ok (platform_release os)
  && text_ok (platform_version os)
  && text_ok (gethostname os)
  && ok_forall text_ok (gethostbyname os (gethostname os))
  && forallb (fun p => text_ok (part_device p) && text_ok (part_mountpoint p)
                       && text_ok (part_fstype p))
       (disk_partitions os)
  && forallb (fun ka => text_ok (fst ka)
                        && forallb (fun a => text_ok (addr_address a)
                                             && opt_forall text_ok (addr_netmask a))
                             (snd ka))
       (net_if_addrs os)
  && forallb (fun p => text_ok (proc_name p)) (process_iter os)
  && forallb (fun u => text_ok (user_name u) && text_ok (user_host u)) (users os)
  && ok_forall (forallb (fun ke => text_ok (fst ke))) (sensors_temperatures os).

(** *** Further vocabulary: failures, tables, widths *)

(** the lookup of a process either succeeds or fails in a way [_processes]
    skips *)
Definition process_skippable (p : process) : bool :=
  match proc_rss p with
  | Ok _ => true
  | Raise e => catches [NoSuchProcess; AccessDenied] e
  end.

(** the same for a partition and [_disks] *)
Definition partition_skippable (os : OS) (part : sdiskpart) : bool :=
  match disk_usage os (part_mountpoint part) with
  | Ok _ => true
  | Raise e => catches [PermissionError; OSError] e
  end.

(** a disk record without its optional I/O counters *)
Definition without_io (d : disk_info) : disk_info :=
  {| dk_device := dk_device d; dk_mountpoint := dk_mountpoint d;
     dk_fstype := dk_fstype d; dk_total := dk_total d; dk_used := dk_used d;
     dk_free := dk_free d; dk_percent := dk_percent d; dk_io := None |}.

(** two results that fail alike or succeed with related values *)
Definition result_rel {A B} (R : A -> B -> Prop) (x : result A) (y : result B) : Prop :=
  match x, y with
  | Ok a, Ok b => R a b
  | Raise e, Raise e' => e = e'
  | _, _ => False
  end.

Definition is_link (a : snicaddr) : bool :=
  match addr_family a with AF_LINK => true | _ => false end.

(** the link-layer address [_network] keeps: the last one listed *)
Definition last_link (addrs : list snicaddr) : option str :=
  last (map (fun a => Some (addr_address a)) (filter is_link addrs)) None.

(** the name [save] writes to *)
Definition save_name (now : datetime) (format : str) (fname : option str) : str :=
  (if truthy_optstr fname then str_of_optstr fname
   else lit "system_report_" ++ strftime_compact now)
  ++ extension_of format.

(** the two lines [main] prints besides the report *)
Definition error_line (e : exn) : event := Print (lit "Ошибка: " ++ exn_msg e).

(** the ranges of the fields of a [datetime] object of a year with four
    digits, which [strftime] writes alike on every platform *)
Definition valid_datetime (d : datetime) : bool :=
  ((1000 <=? year d) && (year d <=? 9999) && (1 <=? month d) && (month d <=? 12)
   && (1 <=? day d) && (day d <=? 31) && (hour d <? 24) && (minute d <? 60)
   && (second d <? 60))%N.

(** a process whose figures fit the columns of the process table *)
Definition fits_columns (p : proc_info) : bool :=
  (0 <=? pi_pid p) && (pi_pid p <? 1000000)
  && Qle_bool 0 (f2Q (pi_cpu_percent p)) && Qle_bool (f2Q (pi_cpu_percent p)) 999
  && Qle_bool 0 (f2Q (pi_memory_percent p))
  && Qle_bool (f2Q (pi_memory_percent p)) 999.

(** a printable ASCII character or a newline *)
Definition json_char (c : N) : bool := ((c =? 10) || ((32 <=? c) && (c <=? 126)))%N.




(** a text that UTF-8 encodes: it holds no surrogate code point *)
Definition encodable (s : str) : bool := forallb (fun c => negb (is_surrogate c)) s.


(** the entry of the sensors mapping for a reported group: the current
    temperatures of its first two readings *)
Definition sensor_entry (group : str * list shwtemp) : str * list float :=
  (fst group, map temp_current (firstn 2 (snd group))).

End Vocabulary.

(** * A sample host

    One concrete set of answers of the operating system, over the concrete
    floats above (a percentage [12.5] is [125] tenths): two partitions, the
    second of which may not be read; three interfaces, one of them without an
    IP address; ten processes, one of which denies access. *)

(** the float of [z] tenths *)
Definition tenths (z : Z) : @float tenths_float := z.

Definition mk_process (pid : Z) (name : String.string) (cpu mem : Z)
  (rss : result Z) : process (F := tenths_float) :=
  @Build_process tenths_float pid (lit name) (tenths cpu) (tenths mem) rss.

Definition access_denied : exn :=
  {| exn_cls := AccessDenied; exn_msg := lit "psutil.AccessDenied" |}.

Definition permission_denied : exn :=
  {| exn_cls := PermissionError; exn_msg := lit "[Errno 13] Permission denied" |}.

Definition attribute_error : exn :=
  {| exn_cls := AttributeError;
     exn_msg := lit "module 'psutil' has no attribute 'sensors_temperatures'" |}.

Definition sample_processes : list (process (F := tenths_float)) :=
  [ mk_process 1 "systemd" 0 1 (Ok 12582912);
    mk_process 212 "postgres" 35 82 (Ok 692060160);
    mk_process 305 "sshd" 0 3 (Ok 6291456);
    mk_process 411 "firefox" 120 155 (Ok 1304428544);
    mk_process 412 "firefox-content" 40 82 (Ok 687865856);
    mk_process 500 "kworker" 1 0 (Raise access_denied);
    mk_process 617 "python3" 990 47 (Ok 396361728);
    mk_process 702 "bash" 0 3 (Ok 5242880);
    mk_process 703 "vim" 2 9 (Ok 75497472);
    mk_process 810 "dockerd" 15 47 (Ok 400556032);
    mk_process 811 "containerd" 10 21 (Ok 176160768) ].

Definition addr4 (a m : String.string) : snicaddr :=
  {| addr_family := AF_INET; addr_address := lit a; addr_netmask := Some (lit m) |}.

Definition addr_of (f : family) (a : String.string) : snicaddr :=
  {| addr_family := f; addr_address := lit a; addr_netmask := None |}.

Arguments mk_process pid name%_string cpu mem rss.
Arguments addr4 (a m)%_string.
Arguments addr_of f a%_string.

Definition sample_os : OS (F := tenths_float) :=
  {| platform_system := lit "Linux";
     platform_release := lit "6.1.0";
     platform_version := lit "#1 SMP";
     gethostname := lit "box";
     gethostbyname := fun _ => Ok (lit "127.0.1.1");
     cpu_freq := Some {| freq_current := tenths 24005 |};
     cpu_count_physical := Some 2;
     cpu_count_logical := Some 4;
     cpu_percent := tenths 125;
     cpu_percent_percpu := map tenths [100; 150; 50; 200];
     virtual_memory := {| vm_total := 8 * 1024 ^ 3; vm_used := 3 * 1024 ^ 3;
                          vm_percent := tenths 375 |};
     swap_memory := {| sw_used := 0; sw_total := 2 * 1024 ^ 3 |};
     disk_partitions :=
       [ {| part_device := lit "/dev/sda1"; part_mountpoint := lit "/";
            part_fstype := lit "ext4" |};
         {| part_device := lit "/dev/sdb1"; part_mountpoint := lit "/mnt/vault";
            part_fstype := lit "ext4" |};
         {| part_device := lit "/dev/sda2"; part_mountpoint := lit "/home";
            part_fstype := lit "xfs" |} ];
     disk_usage := fun m =>
       if str_eqb m (lit "/mnt/vault") then Raise permission_denied
       else Ok {| du_total := 100 * 1024 ^ 3; du_used := 40 * 1024 ^ 3;
                  du_free := 60 * 1024 ^ 3; du_percent := tenths 400 |};
     disk_io_counters :=
       Ok (Some [ (lit "devsda1",
                   {| io_read_bytes := 5 * 1024 ^ 2; io_write_bytes := 7 * 1024 ^ 2 |}) ]);
     net_io_counters := {| nio_bytes_sent := 3 * 1024 ^ 2; nio_bytes_recv := 9 * 1024 ^ 2;
                           nio_packets_sent := 1200; nio_packets_recv := 3400 |};
     net_if_addrs :=
       [ (lit "lo", [ addr4 "127.0.0.1" "255.0.0.0";
                      addr_of AF_INET6 "::1";
                      addr_of AF_LINK "00:00:00:00:00:00" ]);
         (lit "eth0", [ addr4 "192.168.1.5" "255.255.255.0";
                        addr_of AF_INET6 "fe80::1";
                        addr_of AF_INET6 "2001:db8::5";
                        addr_of AF_LINK "aa:bb:cc:dd:ee:ff" ]);
         (lit "tun0", [ addr_of AF_LINK "12:34:56:78:9a:bc" ]) ];
     net_if_stats :=
       [ (lit "lo", {| nic_isup := true; nic_speed := 0; nic_mtu := 65536 |});
         (lit "eth0", {| nic_isup := true; nic_speed := 1000; nic_mtu := 1500 |}) ];
     process_iter := sample_processes;
     users := [ {| user_name := lit "alice"; user_host := lit "10.0.0.7";
                   user_started := tenths 327850 |};
                {| user_name := lit "bob"; user_host := lit "localhost";
                   user_started := tenths 36610 |} ];
     fromtimestamp := fun t =>
       let sec := Z.to_N ((t : Z) / 10) in
       {| year := 2024; month := 3; day := 9;
          hour := (sec / 3600) mod 24; minute := (sec / 60) mod 60;
          second := sec mod 60 |}%N;
     boot_time := tenths 21600;
     sensors_temperatures :=
       Ok [ (lit "coretemp", [ {| temp_label := lit "Core 0"; temp_current := tenths 450 |};
                               {| temp_label := lit "Core 1"; temp_current := tenths 470 |};
                               {| temp_label := lit "Core 2"; temp_current := tenths 465 |} ]) ] |}.

(** the clock when the report object is made and, later, when it is saved *)
Definition sample_now : datetime :=
  {| year := 2024; month := 3; day := 9; hour := 14; minute := 5; second := 9 |}.

Definition sample_later : datetime :=
  {| year := 2024; month := 3; day := 9; hour := 14; minute := 5; second := 10 |}.

Definition sample_self : SystemReport (F := tenths_float) :=
  __init__ sample_now (lit "text").


(** a host without temperature-sensor support *)
Definition headless_os : OS (F := tenths_float) :=
  {| platform_system := platform_system sample_os;
     platform_release := platform_release sample_os;
     platform_version := platform_version sample_os;
     gethostname := gethostname sample_os;
     gethostbyname := gethostbyname sample_os;
     cpu_freq := None;
     cpu_count_physical := None;
     cpu_count_logical := cpu_count_logical sample_os;
     cpu_percent := cpu_percent sample_os;
     cpu_percent_percpu := cpu_percent_percpu sample_os;
     virtual_memory := virtual_memory sample_os;
     swap_memory := swap_memory sample_os;
     disk_partitions := disk_partitions sample_os;
     disk_usage := disk_usage sample_os;
     disk_io_counters := disk_io_counters sample_os;
     net_io_counters := net_io_counters sample_os;
     net_if_addrs := net_if_addrs sample_os;
     net_if_stats := net_if_stats sample_os;
     process_iter := process_iter sample_os;
     users := [];
     fromtimestamp := fromtimestamp sample_os;
     boot_time := boot_time sample_os;
     sensors_temperatures := Raise attribute_error |}.

(** the sample host with other processes *)
Definition with_processes (os : OS (F := tenths_float))
  (ps : list (process (F := tenths_float))) : OS (F := tenths_float) :=
  {| platform_system := platform_system os;
     platform_release := platform_release os;
     platform_version := platform_version os;
     gethostname := gethostname os;
     gethostbyname := gethostbyname os;
     cpu_freq := cpu_freq os;
     cpu_count_physical := cpu_count_physical os;
     cpu_count_logical := cpu_count_logical os;
     cpu_percent := cpu_percent os;
     cpu_percent_percpu := cpu_percent_percpu os;
     virtual_memory := virtual_memory os;
     swap_memory := swap_memory os;
     disk_partitions := disk_partitions os;
     disk_usage := disk_usage os;
     disk_io_counters := disk_io_counters os;
     net_io_counters := net_io_counters os;
     net_if_addrs := net_if_addrs os;
     net_if_stats := net_if_stats os;
     process_iter := ps;
     users := users os;
     fromtimestamp := fromtimestamp os;
     boot_time := boot_time os;
     sensors_temperatures := sensors_temperatures os |}.

(** a four-core host on which one process keeps two and a half cores busy:
    psutil reports its CPU percentage as 250.0 *)
Definition busy_os : OS (F := tenths_float) :=
  with_processes sample_os
    [ mk_process 1 "systemd" 0 1 (Ok 12582912);
      mk_process 617 "python3" 2500 47 (Ok 396361728) ].


(** no flag at all *)
Definition bare_args : args :=
  {| a_format := lit "text"; a_output := None; a_print := false |}.

(** the reports collected on the sample host and on the busy host *)
Definition sample_report : SystemReport (F := tenths_float) :=
  Eval vm_compute in
    match collect sample_os sample_self with Ok r => r | Raise _ => sample_self end.

Definition busy_report : SystemReport (F := tenths_float) :=
  Eval vm_compute in
    match collect busy_os sample_self with Ok r => r | Raise _ => sample_self end.

(** the same host, reported in the other format *)
Definition sample_self_json : SystemReport (F := tenths_float) :=
  __init__ sample_now (lit "json").

Definition sample_report_json : SystemReport (F := tenths_float) :=
  Eval vm_compute in
    match collect sample_os sample_self_json with
    | Ok r => r
    | Raise _ => sample_self_json
    end.

(** ** Hosts on which a query fails *)

(** the sample host with other answers to the queries that can fail *)
Definition with_answers (os : OS (F := tenths_float))
  (lookup : str -> result str)
  (usage : str -> result (sdiskusage (F := tenths_float)))
  (io : result (option (list (str * sdiskio))))
  (temps : result (list (str * list (shwtemp (F := tenths_float)))))
  : OS (F := tenths_float) :=
  {| platform_system := platform_system os;
     platform_release := platform_release os;
     platform_version := platform_version os;
     gethostname := gethostname os;
     gethostbyname := lookup;
     cpu_freq := cpu_freq os;
     cpu_count_physical := cpu_count_physical os;
     cpu_count_logical := cpu_count_logical os;
     cpu_percent := cpu_percent os;
     cpu_percent_percpu := cpu_percent_percpu os;
     virtual_memory := virtual_memory os;
     swap_memory := swap_memory os;
     disk_partitions := disk_partitions os;
     disk_usage := usage;
     disk_io_counters := io;
     net_io_counters := net_io_counters os;
     net_if_addrs := net_if_addrs os;
     net_if_stats := net_if_stats os;
     process_iter := process_iter os;
     users := users os;
     fromtimestamp := fromtimestamp os;
     boot_time := boot_time os;
     sensors_temperatures := temps |}.

(** an error of none of the classes the collectors catch *)
Definition out_of_memory : exn :=
  {| exn_cls := OtherException; exn_msg := lit "out of memory" |}.

(** [socket.gaierror], a subclass of [OSError] *)
Definition unknown_host : exn :=
  {| exn_cls := OSError; exn_msg := lit "[Errno -2] Name or service not known" |}.

Definition io_error : exn :=
  {| exn_cls := OSError; exn_msg := lit "[Errno 5] Input/output error" |}.

(** a process whose memory cannot be read, for another reason than its end
    or a refusal *)
Definition crashing_os : OS (F := tenths_float) :=
  with_processes sample_os
    [ mk_process 1 "systemd" 0 1 (Ok 12582912);
      mk_process 500 "kworker" 1 0 (Raise access_denied);
      mk_process 9 "ghost" 0 0 (Raise out_of_memory);
      mk_process 702 "bash" 0 3 (Ok 5242880) ].

Definition broken_disk_os : OS (F := tenths_float) :=
  with_answers sample_os (gethostbyname sample_os)
    (fun m => if str_eqb m (lit "/home") then Raise out_of_memory
              else disk_usage sample_os m)
    (disk_io_counters sample_os) (sensors_temperatures sample_os).

(** the sample host without disk I/O counters *)
Definition quiet_disk_os : OS (F := tenths_float) :=
  with_answers sample_os (gethostbyname sample_os) (disk_usage sample_os)
    (Ok None) (sensors_temperatures sample_os).

(** a host whose own name does not resolve *)
Definition unnamed_os : OS (F := tenths_float) :=
  with_answers sample_os (fun _ => Raise unknown_host) (disk_usage sample_os)
    (disk_io_counters sample_os) (sensors_temperatures sample_os).

Definition broken_sensors_os : OS (F := tenths_float) :=
  with_answers sample_os (gethostbyname sample_os) (disk_usage sample_os)
    (disk_io_counters sample_os) (Raise io_error).

(** a later host, with one process *)
Definition later_os : OS (F := tenths_float) :=
  with_processes headless_os [ mk_process 1 "systemd" 0 1 (Ok 12582912) ].

Definition world_of (os : OS (F := tenths_float)) (open_w : str -> result unit)
  : World (F := tenths_float) :=
  {| w_os := os; w_now_init := sample_now; w_now_save := sample_later;
     w_open := open_w |}.


(** [--print --output report] *)
Definition print_and_save : args :=
  {| a_format := lit "text"; a_output := Some (lit "report"); a_print := true |}.

(** the processes reported on the sample host, and those left out *)
Definition sample_top : list (proc_info (F := tenths_float)) :=
  Eval vm_compute in
    match _processes sample_os with Ok l => l | Raise _ => [] end.

Definition sample_text : str :=
  Eval vm_compute in
    match text_report sample_report with Ok s => s | Raise _ => [] end.

(** a report made of the sample host's report, on the later host *)
Definition later_report : SystemReport (F := tenths_float) :=
  Eval vm_compute in
    match collect later_os sample_report with Ok r => r | Raise _ => sample_self end.

(** ** Hosts without sensors, and with a name that is not text *)

(** a host on which the sensor query answers, and reports no sensor *)
Definition no_sensor_os : OS (F := tenths_float) :=
  with_answers sample_os (gethostbyname sample_os) (disk_usage sample_os)
    (disk_io_counters sample_os) (Ok []).

Definition no_sensor_report : SystemReport (F := tenths_float) :=
  Eval vm_compute in
    match collect no_sensor_os sample_self with Ok r => r | Raise _ => sample_self end.

Definition headless_report : SystemReport (F := tenths_float) :=
  Eval vm_compute in
    match collect headless_os sample_self with Ok r => r | Raise _ => sample_self end.

(** a process whose name holds a byte that is not UTF-8, which Python reads
    as the lone surrogate U+DCFF *)
Definition badly_named_os : OS (F := tenths_float) :=
  with_processes sample_os
    [ mk_process 1 "systemd" 0 1 (Ok 12582912);
      @Build_process tenths_float 77 (lit "bad" ++ [56575%N]) (tenths 0) (tenths 2)
        (Ok 1048576) ].

Definition badly_named_report : SystemReport (F := tenths_float) :=
  Eval vm_compute in
    match collect badly_named_os sample_self with Ok r => r | Raise _ => sample_self end.

Definition badly_named_text : str :=
  Eval vm_compute in
    match text_report badly_named_report with Ok s => s | Raise _ => [] end.

(** * Properties *)

(** destructs the condition of the [if] at the head of hypothesis [H] *)
Ltac split_if H :=
  match type of H with
  | (if ?c then _ else _) = _ => destruct c eqn:?
  end.

(** splits a conjunction of boolean tests; closed tests are computed *)
Ltac split_andb :=
  repeat match goal with |- _ && _ = true => apply andb_true_iff; split end.

Ltac obj_ok :=
  cbn [json_ok forallb fst snd map app]; split_andb; try reflexivity.

(** takes a hypothesis [a && b = true] apart *)
Ltac andb_hyps :=
  repeat match goal with
         | H : _ && _ = true |- _ => apply andb_true_iff in H; destruct H
         end.

(** linear arithmetic with division and remainder by constants *)
Ltac dlia := zify; Z.to_euclidean_division_equations; lia.

Section Properties.

Context {F : PyFloat} {FL : PyFloatLaws F}.

(** ** Generic facts about lists *)

Lemma filter_firstn_prefix {A} (p : A -> bool) (n : nat) (l : list A) :
  is_prefix (filter p (firstn n l)) (filter p l).
Proof.
  exists (filter p (skipn n l)).
  rewrite <- filter_app, firstn_skipn. reflexivity.
Qed.

Lemma in_firstn {A} (x : A) (n : nat) (l : list A) :
  In x (firstn n l) -> In x l.
Proof.
  revert n. induction l as [|a l IH]; intros [|n]; simpl; try tauto.
  intros [H|H]; [now left | right; eapply IH; eauto].
Qed.

Lemma firstn_strongly_sorted {A} (R : A -> A -> Prop) (n : nat) (l : list A) :
  StronglySorted R l -> StronglySorted R (firstn n l).
Proof.
  intros H. revert n. induction H as [|a l Hs IH Hall]; intros [|n]; simpl;
    try constructor.
  - apply IH.
  - rewrite Forall_forall in *. intros x Hx. apply Hall.
    eapply in_firstn; eauto.
Qed.

(** ** What a successful [collect] returns *)

Lemma collect_inv (os : OS) (self r : SystemReport) :
  collect os self = Ok r ->
  exists platform disks processes sensors,
    _platform os = Ok platform /\ _disks os = Ok disks /\
    _processes os = Ok processes /\ _sensors os = Ok sensors /\
    fmt r = fmt self /\ time r = time self /\
    info r = Some {| s_time := time self;
                     s_platform := platform;
                     s_cpu := _cpu os;
                     s_memory := _memory os;
                     s_disks := disks;
                     s_network := _network os;
                     s_processes := processes;
                     s_users := _users os;
                     s_boot := _boot os;
                     s_sensors := sensors |}.
Proof.
  unfold collect, bind. intros H.
  destruct (_platform os) as [platform|]; [|discriminate].
  destruct (_disks os) as [disks|]; [|discriminate].
  destruct (_processes os) as [processes|]; [|discriminate].
  destruct (_sensors os) as [sensors|]; [|discriminate].
  injection H as <-. exists platform, disks, processes, sensors.
  repeat split; reflexivity.
Qed.

(** ** The process list *)

Lemma processes_loop_ok (ps : list process) (acc kept : list proc_info) :
  processes_loop ps acc = Ok kept -> kept = acc ++ flat_map proc_entry ps.
Proof.
  revert acc. induction ps as [|p ps IH]; simpl; intros acc H.
  - injection H as <-. now rewrite app_nil_r.
  - unfold proc_entry at 1. destruct (proc_rss p) as [rss|e].
    + apply IH in H. rewrite H, <- app_assoc. reflexivity.
    + split_if H; [|discriminate].
      apply IH in H. exact H.
Qed.

Lemma float_ltb_false (x y : float) :
  float_ltb x y = false -> (f2Q y <= f2Q x)%Q.
Proof.
  unfold float_ltb. intros H. apply negb_false_iff in H.
  now apply Qle_bool_iff.
Qed.

Lemma float_ltb_true (x y : float) :
  float_ltb x y = true -> (f2Q x < f2Q y)%Q.
Proof.
  unfold float_ltb. intros H. apply negb_true_iff in H.
  apply Qnot_le_lt. intros Hle. apply Qle_bool_iff in Hle. congruence.
Qed.

Lemma insert_desc_perm {A} (key : A -> float) (x : A) (l : list A) :
  Permutation (insert_desc key x l) (x :: l).
Proof.
  induction l as [|y l IH]; simpl; [reflexivity|].
  destruct (float_ltb (key x) (key y)); [|reflexivity].
  rewrite IH. apply perm_swap.
Qed.

Lemma sort_desc_perm {A} (key : A -> float) (l : list A) :
  Permutation (sort_desc key l) l.
Proof.
  induction l as [|x l IH]; simpl; [reflexivity|].
  rewrite insert_desc_perm. now constructor.
Qed.

Lemma insert_desc_sorted (x : proc_info) (l : list proc_info) :
  StronglySorted mem_ge l ->
  StronglySorted mem_ge (insert_desc pi_memory_percent x l).
Proof.
  induction 1 as [|y l Hs IH Hall]; simpl.
  - repeat constructor.
  - destruct (float_ltb (pi_memory_percent x) (pi_memory_percent y)) eqn:E.
    + constructor; [exact IH|].
      rewrite Forall_forall in *. intros z Hz.
      apply (Permutation_in _ (insert_desc_perm _ _ _)) in Hz.
      destruct Hz as [<-|Hz]; [|now apply Hall].
      apply float_ltb_true in E. unfold mem_ge. now apply Qlt_le_weak.
    + apply float_ltb_false in E.
      constructor; [now constructor|].
      constructor; [exact E|].
      rewrite Forall_forall in *. intros z Hz. unfold mem_ge in *.
      eapply Qle_trans; [apply Hall; exact Hz | exact E].
Qed.

Lemma sort_desc_sorted (l : list proc_info) :
  StronglySorted mem_ge (sort_desc pi_memory_percent l).
Proof.
  induction l as [|x l IH]; simpl; [constructor | now apply insert_desc_sorted].
Qed.

(** stability: among the processes of one memory percentage, sorting keeps
    the order of the input *)
Lemma insert_desc_stable (k : float) (x : proc_info) (l : list proc_info) :
  filter (same_mem k) (insert_desc pi_memory_percent x l)
  = filter (same_mem k) (x :: l).
Proof.
  induction l as [|y l IH]; simpl; [reflexivity|].
  destruct (float_ltb (pi_memory_percent x) (pi_memory_percent y)) eqn:E;
    [|reflexivity].
  simpl. rewrite IH. simpl.
  destruct (same_mem k x) eqn:Ex; [|reflexivity].
  destruct (same_mem k y) eqn:Ey; [|reflexivity].
  exfalso. apply float_ltb_true in E.
  unfold same_mem, float_eqb in *.
  apply Qeq_bool_iff in Ex, Ey. rewrite Ex, Ey in E.
  exact (Qlt_irrefl _ E).
Qed.

Lemma sort_desc_stable (k : float) (l : list proc_info) :
  filter (same_mem k) (sort_desc pi_memory_percent l) = filter (same_mem k) l.
Proof.
  induction l as [|x l IH]; simpl; [reflexivity|].
  rewrite insert_desc_stable. simpl. now rewrite IH.
Qed.

Lemma _processes_ok (os : OS) (procs : list proc_info) :
  _processes os = Ok procs ->
  procs = firstn 8 (sort_desc pi_memory_percent
                      (flat_map proc_entry (process_iter os))).
Proof.
  unfold _processes, bind. intros Hp.
  destruct (processes_loop (process_iter os) []) as [kept|] eqn:Hk; [|discriminate].
  apply processes_loop_ok in Hk. cbn [app] in Hk. congruence.
Qed.

(** C1: in every snapshot the process list has at most 8 entries, is in
    descending order of memory percentage, and is the first 8 of a
    rearrangement of the enumerated processes in which processes of one
    memory percentage keep their order of enumeration. *)
Theorem processes_top8_sorted_stable (os : OS) (self r : SystemReport) (s : snapshot) :
  collect os self = Ok r -> info r = Some s ->
  (length (s_processes s) <= 8)%nat
  /\ StronglySorted mem_ge (s_processes s)
  /\ (exists sorted,
        Permutation sorted (flat_map proc_entry (process_iter os))
        /\ s_processes s = firstn 8 sorted)
  /\ (forall k : float,
        is_prefix (filter (same_mem k) (s_processes s))
                  (filter (same_mem k) (flat_map proc_entry (process_iter os)))).
Proof.
  intros Hc Hi. apply collect_inv in Hc.
  destruct Hc as (pl & dk & procs & sn & _ & _ & Hp & _ & _ & _ & Hinfo).
  rewrite Hinfo in Hi. injection Hi as <-. cbn [s_processes].
  apply _processes_ok in Hp. rewrite Hp. clear Hp Hinfo.
  set (enum := flat_map proc_entry (process_iter os)).
  split; [apply firstn_le_length|].
  split; [apply firstn_strongly_sorted, sort_desc_sorted|].
  split.
  - exists (sort_desc pi_memory_percent enum). split; [apply sort_desc_perm | reflexivity].
  - intros k. rewrite <- (sort_desc_stable k enum). apply filter_firstn_prefix.
Qed.

(** ** Digits and signs of formatted numbers *)

Lemma digits_fuel_digits (fuel : nat) (n : N) :
  forallb is_digit (digits_fuel fuel n) = true.
Proof.
  revert n. induction fuel as [|f IH]; intros n; cbn [digits_fuel]; [reflexivity|].
  pose proof (N.mod_upper_bound n 10 ltac:(lia)) as Hm.
  revert Hm. generalize (n mod 10)%N. intros d Hd.
  destruct (n <? 10)%N eqn:E.
  - apply N.ltb_lt in E. cbn [forallb]. unfold is_digit.
    rewrite andb_true_r. apply andb_true_iff. split; apply N.leb_le; lia.
  - rewrite forallb_app, IH. cbn [forallb andb]. unfold is_digit.
    rewrite andb_true_r. apply andb_true_iff. split; apply N.leb_le; lia.
Qed.

Lemma str_of_N_digits (n : N) : forallb is_digit (str_of_N n) = true.
Proof. apply digits_fuel_digits. Qed.

Lemma no_minus_app (a b : str) : no_minus (a ++ b) = no_minus a && no_minus b.
Proof. unfold no_minus. now rewrite existsb_app, negb_orb. Qed.

Lemma digits_no_minus (s : str) : forallb is_digit s = true -> no_minus s = true.
Proof.
  unfold no_minus. induction s as [|c s IH]; cbn [forallb existsb]; [reflexivity|].
  intros H. apply andb_true_iff in H. destruct H as [Hc Hs].
  rewrite negb_orb, (IH Hs), andb_true_r.
  unfold is_digit in Hc. apply andb_true_iff in Hc. destruct Hc as [Hc _].
  apply N.leb_le in Hc. apply negb_true_iff, N.eqb_neq. lia.
Qed.

Lemma zpad_no_minus (w : nat) (n : N) : no_minus (zpad w n) = true.
Proof.
  unfold zpad. rewrite no_minus_app, (digits_no_minus _ (str_of_N_digits n)).
  rewrite andb_true_r. unfold no_minus.
  induction (w - length (str_of_N n))%nat; simpl; [reflexivity | assumption].
Qed.

Lemma Qneg_nonneg (q : Q) : (0 <= q)%Q -> Qneg q = false.
Proof.
  unfold Qneg. intros H. destruct (Qcompare q 0) eqn:E; try reflexivity.
  apply Qlt_alt in E. exfalso. exact (Qlt_not_le _ _ E H).
Qed.

Lemma format_fixed_Q_no_minus (prec : nat) (q : Q) :
  (0 <= q)%Q -> no_minus (format_fixed_Q prec q) = true.
Proof.
  intros H. unfold format_fixed_Q. rewrite (Qneg_nonneg q H).
  cbn [app]. rewrite no_minus_app, (digits_no_minus _ (str_of_N_digits _)).
  destruct prec; [reflexivity|].
  cbn [andb]. change (46%N :: ?l) with ([46%N] ++ l).
  rewrite no_minus_app, zpad_no_minus. reflexivity.
Qed.

Lemma fmt_GB_no_minus (n : Z) : 0 <= n -> no_minus (fmt_GB n) = true.
Proof.
  intros H. unfold fmt_GB, format_fixed.
  rewrite no_minus_app, format_fixed_Q_no_minus; [reflexivity|].
  apply truediv_nonneg; [exact H | reflexivity].
Qed.

Lemma fmt_MB_no_minus (n : Z) : 0 <= n -> no_minus (fmt_MB n) = true.
Proof.
  intros H. unfold fmt_MB, format_fixed.
  rewrite no_minus_app, format_fixed_Q_no_minus; [reflexivity|].
  apply truediv_nonneg; [exact H | reflexivity].
Qed.

(** ** The disk list *)

Lemma disks_loop_ok (os : OS) (parts : list sdiskpart) (acc disks : list disk_info) :
  disks_loop os parts acc = Ok disks ->
  disks = acc ++ flat_map (disk_entry os) parts.
Proof.
  revert acc. induction parts as [|part parts IH]; cbn [disks_loop flat_map]; intros acc H.
  - injection H as <-. now rewrite app_nil_r.
  - unfold disk_entry at 1. destruct (disk_usage os (part_mountpoint part)) as [use|e].
    + apply IH in H. rewrite H, <- app_assoc. reflexivity.
    + split_if H; [|discriminate]. apply IH in H. exact H.
Qed.

Lemma _disks_ok (os : OS) (disks : list disk_info) :
  _disks os = Ok disks -> disks = flat_map (disk_entry os) (disk_partitions os).
Proof. unfold _disks. intros H. now apply disks_loop_ok in H. Qed.

Lemma str_eqb_eq (a b : str) : str_eqb a b = true <-> a = b.
Proof.
  unfold str_eqb. destruct (list_eq_dec N.eq_dec a b); split; congruence.
Qed.

Lemma str_eqb_refl (a : str) : str_eqb a a = true.
Proof. now apply str_eqb_eq. Qed.

Lemma dict_get_in {V} (d : list (str * V)) (k : str) (v : V) :
  dict_get d k = Some v -> In (k, v) d.
Proof.
  induction d as [|[k' v'] d IH]; cbn [dict_get]; [discriminate|].
  destruct (str_eqb k' k) eqn:E.
  - apply str_eqb_eq in E. intros [= ->]. left. now subst.
  - intros H. right. now apply IH.
Qed.

(** ** Dictionaries built by assignment *)

Lemma dict_set_in {V} (d : list (str * V)) (k k' : str) (v v' : V) :
  In (k', v') (dict_set d k v) -> (k' = k /\ v' = v) \/ In (k', v') d.
Proof.
  induction d as [|[k0 v0] d IH]; cbn [dict_set].
  - intros [[= <- <-]|[]]. now left.
  - destruct (str_eqb k0 k) eqn:E.
    + apply str_eqb_eq in E. subst k0. intros [[= <- <-]|H]; [now left|].
      right. now right.
    + intros [H|H]; [right; now left|].
      destruct (IH H) as [?|?]; [now left | right; now right].
Qed.

(** the keys that [d[k] = v] leaves in [d] *)
Lemma dict_set_keys {V} (d : list (str * V)) (k a : str) (v : V) :
  existsb (str_eqb a) (map fst (dict_set d k v))
  = existsb (str_eqb a) (map fst d) || str_eqb a k.
Proof.
  induction d as [|[k0 v0] d IH]; cbn [dict_set map fst existsb].
  - now rewrite orb_false_r.
  - destruct (str_eqb k0 k) eqn:E; cbn [map fst existsb].
    + apply str_eqb_eq in E. subst k0.
      destruct (str_eqb a k); [reflexivity | now rewrite orb_false_r].
    + rewrite IH. now rewrite orb_assoc.
Qed.

Lemma dict_set_distinct {V} (d : list (str * V)) (k : str) (v : V) :
  distinct (map fst d) = true -> distinct (map fst (dict_set d k v)) = true.
Proof.
  induction d as [|[k0 v0] d IH]; cbn [dict_set map fst distinct existsb];
    [reflexivity|].
  intros H. apply andb_true_iff in H. destruct H as [Hk0 Hd].
  destruct (str_eqb k0 k) eqn:E; cbn [map fst distinct].
  - now rewrite Hk0, Hd.
  - rewrite (IH Hd), andb_true_r, dict_set_keys, E, orb_false_r. exact Hk0.
Qed.
Lemma interfaces_loop_inv (os : OS) (P : str -> iface_info -> Prop)
  (items : list (str * list snicaddr)) (acc : list (str * iface_info)) :
  distinct (map fst acc) = true ->
  (forall k v, In (k, v) acc -> P k v) ->
  (forall k addrs, In (k, addrs) items -> P k (iface_entry os k addrs)) ->
  distinct (map fst (interfaces_loop os items acc)) = true
  /\ forall k v, In (k, v) (interfaces_loop os items acc) -> P k v.
Proof.
  revert acc. induction items as [|[k addrs] items IH]; intros acc Hd Hacc Hitems;
    cbn [interfaces_loop]; [now split|].
  apply IH.
  - now apply dict_set_distinct.
  - intros k' v' Hin. destruct (dict_set_in _ _ _ _ _ Hin) as [[-> ->]|Hold].
    + apply Hitems. now left.
    + now apply Hacc.
  - intros k' a' Hin. apply Hitems. now right.
Qed.

(** ** Ranges of the snapshot *)

Lemma in_sorted_top (n : nat) (l : list proc_info) (p : proc_info) :
  In p (firstn n (sort_desc pi_memory_percent l)) -> In p l.
Proof.
  intros H. apply in_firstn in H.
  exact (Permutation_in _ (sort_desc_perm _ _) H).
Qed.

Lemma in_proc_entry (os : OS) (p : proc_info) :
  In p (flat_map proc_entry (process_iter os)) ->
  exists q rss, In q (process_iter os) /\ proc_rss q = Ok rss
                /\ pi_cpu_percent p = proc_cpu_percent q
                /\ pi_memory_percent p = proc_memory_percent q
                /\ pi_memory_mb p = truediv rss (1024 ^ 2).
Proof.
  intros H. apply in_flat_map in H. destruct H as (q & Hq & Hp).
  unfold proc_entry in Hp. destruct (proc_rss q) as [rss|] eqn:E; [|contradiction].
  destruct Hp as [<-|[]]. exists q, rss. repeat split; assumption.
Qed.

Lemma disk_io_no_minus (os : OS) (device : str) :
  ok_forall (opt_forall (forallb (fun kv => (0 <=? io_read_bytes (snd kv))
                                            && (0 <=? io_write_bytes (snd kv)))))
    (disk_io_counters os) = true ->
  opt_forall (fun rw => no_minus (fst rw) && no_minus (snd rw))
    (disk_io_of os device) = true.
Proof.
  unfold disk_io_of. destruct (disk_io_counters os) as [[table|]|]; try reflexivity.
  cbn [ok_forall opt_forall]. intros H.
  destruct (dict_get table (strip_slashes device)) as [io0|] eqn:E; [|reflexivity].
  apply dict_get_in in E. rewrite forallb_forall in H. specialize (H _ E).
  cbn [snd opt_forall fst] in *. apply andb_true_iff in H. destruct H as [Hr Hw].
  apply Z.leb_le in Hr, Hw.
  now rewrite fmt_MB_no_minus, fmt_MB_no_minus.
Qed.

(** C2, as the collectors have it: they pass the percentages of the
    operating system on unchanged and format its counters, without clamping:
    every percentage of the snapshot is the one the query reported, every
    size is the reported counter, formatted.  Whenever the reported
    percentages are within [0, 100] and the reported counters are not
    negative, so are the percentage and size fields of the snapshot. *)
Theorem snapshot_ranges_follow_os (os : OS) (self r : SystemReport) (s : snapshot) :
  collect os self = Ok r -> info r = Some s ->
  (cpu_usage (s_cpu s) = cpu_percent os
   /\ cpu_per_cpu (s_cpu s) = cpu_percent_percpu os
   /\ mem_ram_percent (s_memory s) = vm_percent (virtual_memory os)
   /\ mem_total_ram (s_memory s) = fmt_GB (vm_total (virtual_memory os))
   /\ mem_used_ram (s_memory s) = fmt_GB (vm_used (virtual_memory os))
   /\ mem_swap (s_memory s)
      = format_fixed 1 (truediv (sw_used (swap_memory os)) (1024 ^ 3)) ++ lit "/"
        ++ format_fixed 1 (truediv (sw_total (swap_memory os)) (1024 ^ 3))
        ++ lit " GB"
   /\ net_bytes_sent (s_network s) = fmt_MB (nio_bytes_sent (net_io_counters os))
   /\ net_bytes_recv (s_network s) = fmt_MB (nio_bytes_recv (net_io_counters os))
   /\ net_packets_sent (s_network s) = nio_packets_sent (net_io_counters os)
   /\ net_packets_recv (s_network s) = nio_packets_recv (net_io_counters os)
   /\ s_disks s = flat_map (disk_entry os) (disk_partitions os)
   /\ (forall d, In d (s_disks s) ->
         exists part use,
           In part (disk_partitions os)
           /\ disk_usage os (part_mountpoint part) = Ok use
           /\ dk_percent d = du_percent use
           /\ dk_total d = fmt_GB (du_total use)
           /\ dk_used d = fmt_GB (du_used use)
           /\ dk_free d = fmt_GB (du_free use))
   /\ s_processes s
      = firstn 8 (sort_desc pi_memory_percent
                    (flat_map proc_entry (process_iter os)))
   /\ (forall p, In p (s_processes s) ->
         exists q rss,
           In q (process_iter os) /\ proc_rss q = Ok rss
           /\ pi_cpu_percent p = proc_cpu_percent q
           /\ pi_memory_percent p = proc_memory_percent q
           /\ pi_memory_mb p = truediv rss (1024 ^ 2)))
  /\ (os_percent_okb os = true -> snapshot_percent_okb s = true)
  /\ (os_sizes_okb os = true -> snapshot_sizes_okb s = true).
Proof.
  intros Hc Hi. apply collect_inv in Hc.
  destruct Hc as (pl & dk & procs & sn & _ & Hd & Hpr & _ & _ & _ & Hinfo).
  rewrite Hinfo in Hi. injection Hi as <-.
  apply _disks_ok in Hd. apply _processes_ok in Hpr.
  assert (Hdisk : forall d, In d dk ->
            exists part use,
              In part (disk_partitions os)
              /\ disk_usage os (part_mountpoint part) = Ok use
              /\ d = disk_record os part use).
  { intros d Hin. subst dk. apply in_flat_map in Hin.
    destruct Hin as (part & Hpart & Hin). unfold disk_entry in Hin.
    destruct (disk_usage os (part_mountpoint part)) as [use|] eqn:E; [|contradiction].
    destruct Hin as [<-|[]]. now exists part, use. }
  assert (Hproc : forall p, In p procs ->
            exists q rss,
              In q (process_iter os) /\ proc_rss q = Ok rss
              /\ pi_cpu_percent p = proc_cpu_percent q
              /\ pi_memory_percent p = proc_memory_percent q
              /\ pi_memory_mb p = truediv rss (1024 ^ 2)).
  { intros p Hin. subst procs. now apply in_sorted_top, in_proc_entry in Hin. }
  split; [|split].
  - cbn [s_cpu s_memory s_disks s_network s_processes _cpu _memory _network
         cpu_usage cpu_per_cpu mem_ram_percent mem_total_ram mem_used_ram
         mem_swap net_bytes_sent net_bytes_recv net_packets_sent net_packets_recv].
    do 10 (split; [reflexivity|]). split; [exact Hd|]. split.
    + intros d Hin. destruct (Hdisk d Hin) as (part & use & Hp & Hu & ->).
      exists part, use. now repeat split.
    + split; [exact Hpr | exact Hproc].
  - intros Hp. unfold os_percent_okb in Hp. repeat rewrite andb_true_iff in Hp.
    destruct Hp as [[[[Hp1 Hp2] Hp3] Hp4] Hp5].
    rewrite forallb_forall in Hp4, Hp5.
    unfold snapshot_percent_okb.
    cbn [s_cpu s_memory s_disks s_processes _cpu _memory cpu_usage cpu_per_cpu
         mem_ram_percent].
    rewrite Hp1, Hp2, Hp3. cbn [andb].
    apply andb_true_iff. split.
    + apply forallb_forall. intros d Hin.
      destruct (Hdisk d Hin) as (part & use & Hpart & Hu & ->).
      specialize (Hp4 _ Hpart). rewrite Hu in Hp4. exact Hp4.
    + apply forallb_forall. intros p Hin.
      destruct (Hproc p Hin) as (q & rss & Hq & _ & -> & -> & _).
      exact (Hp5 _ Hq).
  - intros Hz. unfold os_sizes_okb in Hz. repeat rewrite andb_true_iff in Hz.
    destruct Hz as [[[[[[[[[[[Hz1 Hz2] Hz3] Hz4] Hz5] Hz6] Hz7] Hz8] Hz9] Hz10] Hz12] Hz11].
    rewrite forallb_forall in Hz5, Hz11, Hz12.
    apply Z.leb_le in Hz1, Hz2, Hz3, Hz4, Hz7, Hz8.
    unfold snapshot_sizes_okb.
    cbn [s_memory s_disks s_network s_processes _memory _network mem_total_ram
         mem_used_ram mem_swap net_bytes_sent net_bytes_recv net_packets_sent
         net_packets_recv].
    rewrite (fmt_GB_no_minus _ Hz1), (fmt_GB_no_minus _ Hz2).
    rewrite (fmt_MB_no_minus _ Hz7), (fmt_MB_no_minus _ Hz8), Hz9, Hz10.
    repeat rewrite andb_true_r. cbn [andb].
    repeat (apply andb_true_iff; split).
    + unfold format_fixed. repeat rewrite no_minus_app.
      rewrite !format_fixed_Q_no_minus;
        [reflexivity | apply truediv_nonneg; [assumption | reflexivity] ..].
    + apply forallb_forall. intros d Hin.
      destruct (Hdisk d Hin) as (part & use & Hpart & Hu & ->).
      specialize (Hz5 _ Hpart). rewrite Hu in Hz5. cbn [ok_forall] in Hz5.
      repeat rewrite andb_true_iff in Hz5. destruct Hz5 as [[Ht Hu'] Hf].
      apply Z.leb_le in Ht, Hu', Hf. cbn [disk_record dk_total dk_used dk_free dk_io].
      rewrite !fmt_GB_no_minus by assumption.
      now rewrite disk_io_no_minus.
    + apply forallb_forall. intros [k v] Hin. cbn [snd].
      destruct (interfaces_loop_inv os
                  (fun _ v => opt_forall (fun st => no_minus (st_speed st)
                                                    && (0 <=? st_mtu st))
                                (if_stats v) = true)
                  (net_if_addrs os) [] eq_refl) as [_ Hall].
      { intros ? ? []. }
      { intros k' addrs _. unfold iface_entry.
        destruct (addrs_loop addrs [] None) as [ips mac]. cbn [if_stats].
        destruct (dict_get (net_if_stats os) k') as [stat|] eqn:E; [|reflexivity].
        apply dict_get_in in E. specialize (Hz12 _ E). cbn [snd] in Hz12.
        cbn [opt_forall st_speed st_mtu]. rewrite Hz12, andb_true_r.
        destruct (0 <? nic_speed stat) eqn:Es; [|reflexivity].
        rewrite no_minus_app, andb_true_r. unfold str_of_Z.
        apply Z.ltb_lt in Es. destruct (Z.ltb_spec (nic_speed stat) 0); [lia|].
        apply digits_no_minus, str_of_N_digits. }
      exact (Hall _ _ Hin).
    + apply forallb_forall. intros p Hin.
      destruct (Hproc p Hin) as (q & rss & Hq & Hrss & _ & _ & ->).
      specialize (Hz11 _ Hq). rewrite Hrss in Hz11. cbn [ok_forall] in Hz11.
      apply Z.leb_le in Hz11. apply Qle_bool_iff.
      apply truediv_nonneg; [assumption | reflexivity].
Qed.

(** ** Sensors *)

Lemma sensors_loop_in (items : list (str * list shwtemp))
  (acc : list (str * list float)) (name : str) (readings : list float) :
  In (name, readings) (sensors_loop items acc) ->
  In (name, readings) acc
  \/ exists entries, In (name, entries) items
                     /\ readings = map temp_current (firstn 2 entries).
Proof.
  revert acc. induction items as [|[n es] items IH]; cbn [sensors_loop]; intros acc H.
  - now left.
  - destruct (IH _ H) as [Hacc|(entries & Hin & ->)].
    + destruct (dict_set_in _ _ _ _ _ Hacc) as [[-> ->]|Hold]; [|now left].
      right. exists es. split; [now left | reflexivity].
    + right. exists entries. split; [now right | reflexivity].
Qed.

(** ** Inaccessible partitions *)

Lemma disks_loop_total (os : OS) (parts : list sdiskpart) (acc : list disk_info) :
  forallb (fun part => match disk_usage os (part_mountpoint part) with
                       | Ok _ => true
                       | Raise e => catches [PermissionError; OSError] e
                       end) parts = true ->
  disks_loop os parts acc = Ok (acc ++ flat_map (disk_entry os) parts).
Proof.
  revert acc. induction parts as [|part parts IH]; cbn [disks_loop flat_map forallb];
    intros acc H.
  - now rewrite app_nil_r.
  - apply andb_true_iff in H. destruct H as [Hp Hrest].
    unfold disk_entry at 1.
    destruct (disk_usage os (part_mountpoint part)) as [use|e].
    + rewrite (IH _ Hrest), <- app_assoc. reflexivity.
    + rewrite Hp. apply (IH _ Hrest).
Qed.

(** C4: when the usage lookups fail only with [PermissionError] or
    [OSError], the disk collector returns normally; its list holds, in the
    order of the partitions, one record for each partition whose lookup
    succeeded, and no record for the mount point of a partition whose lookup
    raised. *)
Theorem disks_skip_inaccessible (os : OS) :
  usage_errors_caught os = true ->
  exists disks,
    _disks os = Ok disks
    /\ disks = flat_map (disk_entry os) (disk_partitions os)
    /\ (forall part e, In part (disk_partitions os) ->
          disk_usage os (part_mountpoint part) = Raise e ->
          disk_entry os part = []
          /\ forall d, In d disks -> dk_mountpoint d <> part_mountpoint part)
    /\ (forall part use, In part (disk_partitions os) ->
          disk_usage os (part_mountpoint part) = Ok use ->
          disk_entry os part = [disk_record os part use]
          /\ In (disk_record os part use) disks).
Proof.
  intros H. exists (flat_map (disk_entry os) (disk_partitions os)).
  split; [exact (disks_loop_total os _ [] H)|].
  split; [reflexivity|]. split.
  - intros part e Hin He. split; [unfold disk_entry; now rewrite He|].
    intros d Hd Heq. apply in_flat_map in Hd. destruct Hd as (part' & _ & Hd).
    unfold disk_entry in Hd.
    destruct (disk_usage os (part_mountpoint part')) as [use|] eqn:E; [|contradiction].
    destruct Hd as [<-|[]]. cbn [disk_record dk_mountpoint] in Heq.
    rewrite Heq in E. congruence.
  - intros part use Hin Hu.
    assert (He : disk_entry os part = [disk_record os part use])
      by (unfold disk_entry; now rewrite Hu).
    split; [exact He|]. apply in_flat_map. exists part. split; [exact Hin|].
    rewrite He. now left.
Qed.

(** ** The text report *)

Lemma text_lines_sections (time0 : str) (s : snapshot) :
  text_lines time0 s
  = lines_before_users time0 s ++ users_lines (s_users s) ++ boot_lines (s_boot s).
Proof.
  unfold text_lines, lines_before_users, lines_before_interfaces.
  repeat rewrite <- app_assoc. reflexivity.
Qed.

Lemma addrs_loop_spec (addrs : list snicaddr) (ips : list str) (mac : option str) :
  fst (addrs_loop addrs ips mac) = ips ++ map ip_text (filter is_ip addrs).
Proof.
  revert ips mac. induction addrs as [|a addrs IH]; intros ips mac;
    cbn [addrs_loop filter].
  - cbn [map fst]. now rewrite app_nil_r.
  - unfold is_ip at 1, ip_text. destruct (addr_family a) eqn:E; rewrite IH;
      cbn [map]; unfold ip_text; try rewrite E; try reflexivity;
      rewrite <- app_assoc; reflexivity.
Qed.

(** ** Rendering is a function of the snapshot *)

Lemma collect_time (os : OS) (self r : SystemReport) :
  collect os self = Ok r ->
  exists s, info r = Some s /\ s_time s = time r /\ fmt r = fmt self.
Proof.
  intros H. apply collect_inv in H.
  destruct H as (pl & dk & pr & sn & _ & _ & _ & _ & Hf & Ht & Hi).
  eexists. split; [exact Hi|]. split; [now rewrite Ht | exact Hf].
Qed.

(** C5: the two renderers read nothing but the snapshot.  Two collected
    reports with the same snapshot, whatever the hosts, the clocks and the
    formats they were made with, render to the same text and to the same JSON
    string, which are the renderings of that snapshot value. *)
Theorem renderers_depend_on_snapshot_only
  (os1 os2 : OS) (self1 self2 r1 r2 : SystemReport) :
  collect os1 self1 = Ok r1 -> collect os2 self2 = Ok r2 ->
  info r1 = info r2 ->
  text_report r1 = text_report r2
  /\ json_report r1 = json_report r2
  /\ exists s, info r1 = Some s
               /\ text_report r1 = Ok (join NL (text_lines (s_time s) s))
               /\ json_report r1 = dumps (snapshot_json s).
Proof.
  intros H1 H2 Heq.
  apply collect_time in H1. destruct H1 as (s1 & Hi1 & Ht1 & _).
  apply collect_time in H2. destruct H2 as (s2 & Hi2 & Ht2 & _).
  assert (s1 = s2) by congruence. subst s2.
  unfold text_report, json_report. rewrite Hi1, Hi2, <- Ht1, <- Ht2.
  split; [reflexivity|]. split; [reflexivity|].
  exists s1. repeat split; reflexivity.
Qed.

(** ** Saving and printing *)

Lemma text_report_collected (r : SystemReport) (s : snapshot) :
  info r = Some s -> text_report r = Ok (join NL (text_lines (time r) s)).
Proof. unfold text_report. now intros ->. Qed.

Lemma rendered_as_ok (format : str) (r : SystemReport) (s : snapshot) :
  info r = Some s -> exists content, rendered_as format r = Ok content.
Proof.
  intros H. unfold rendered_as. destruct (str_eqb format (lit "json")).
  - eexists. reflexivity.
  - rewrite (text_report_collected r s H). eexists. reflexivity.
Qed.


(** ** JSON: strings *)

Lemma hex_val_digit (d : N) : (d < 16)%N -> hex_val (hex_digit d) = Some d.
Proof.
  intros H. unfold hex_val, hex_digit, is_digit.
  destruct (N.ltb_spec d 10).
  - replace ((48 <=? 48 + d) && (48 + d <=? 57))%N with true.
    + f_equal. lia.
    + symmetry. apply andb_true_iff. split; apply N.leb_le; lia.
  - replace ((48 <=? 87 + d) && (87 + d <=? 57))%N with false.
    + replace ((97 <=? 87 + d) && (87 + d <=? 102))%N with true.
      * f_equal. lia.
      * symmetry. apply andb_true_iff. split; apply N.leb_le; lia.
    + symmetry. apply andb_false_iff. right. apply N.leb_gt. lia.
Qed.

Lemma decode_u_hex4 (c : N) (rest : str) :
  (c < 65536)%N -> decode_u (hex4 c ++ rest) = Some (c, rest).
Proof.
  intros H. unfold hex4, decode_u. cbn [app].
  rewrite !hex_val_digit by dlia.
  f_equal. f_equal. dlia.
Qed.

Lemma in_range_true (lo hi c : N) :
  (lo <= c)%N -> (c <= hi)%N -> ((lo <=? c) && (c <=? hi))%N = true.
Proof. intros. apply andb_true_iff. split; apply N.leb_le; assumption. Qed.

Lemma in_range_false (lo hi c : N) :
  (c < lo)%N \/ (hi < c)%N -> ((lo <=? c) && (c <=? hi))%N = false.
Proof.
  intros [H|H]; apply andb_false_iff; [left|right]; apply N.leb_gt; assumption.
Qed.

(** one character: decoding what [escape_char] wrote gives the character
    back and goes on with the rest *)
Lemma scanstring_escape_char (c : N) (tail : str) (fuel : nat) :
  text_cp c = true ->
  scanstring (S fuel) (escape_char c ++ tail) = cons_fst c (scanstring fuel tail).
Proof.
  intros Hc. unfold escape_char.
  destruct (N.eqb_spec c 34) as [->|N34]; [reflexivity|].
  destruct (N.eqb_spec c 92) as [->|N92]; [reflexivity|].
  destruct (N.eqb_spec c 8) as [->|N8]; [reflexivity|].
  destruct (N.eqb_spec c 12) as [->|N12]; [reflexivity|].
  destruct (N.eqb_spec c 10) as [->|N10]; [reflexivity|].
  destruct (N.eqb_spec c 13) as [->|N13]; [reflexivity|].
  destruct (N.eqb_spec c 9) as [->|N9]; [reflexivity|].
  destruct ((32 <=? c) && (c <=? 126))%N eqn:Ep.
  - apply andb_true_iff in Ep. destruct Ep as [Hlo Hhi].
    apply N.leb_le in Hlo, Hhi. cbn [app scanstring].
    destruct (N.eqb_spec c 34); [contradiction|].
    destruct (N.eqb_spec c 92); [contradiction|].
    destruct (N.ltb_spec c 32); [lia | reflexivity].
  - unfold text_cp in Hc.
    destruct (N.ltb_spec c 65536) as [Hs|Hl].
    + unfold escape_u. cbn [app scanstring N.eqb Pos.eqb].
      rewrite (decode_u_hex4 c tail Hs).
      rewrite in_range_false; [reflexivity|].
      apply orb_true_iff in Hc. destruct Hc as [Hc|Hc].
      * apply N.ltb_lt in Hc. now left.
      * apply andb_true_iff in Hc. destruct Hc as [Hc _].
        apply N.leb_le in Hc. right. lia.
    + assert (Hmax : (c < 1114112)%N).
      { apply orb_true_iff in Hc. destruct Hc as [Hc|Hc].
        - apply N.ltb_lt in Hc. lia.
        - apply andb_true_iff in Hc. destruct Hc as [_ Hc]. now apply N.ltb_lt in Hc. }
      unfold escape_u. cbn [app scanstring N.eqb Pos.eqb].
      rewrite <- app_assoc.
      rewrite (decode_u_hex4 (55296 + (c - 65536) / 1024)%N) by dlia.
      rewrite in_range_true by dlia.
      cbn [app].
      rewrite (decode_u_hex4 (56320 + (c - 65536) mod 1024)%N) by dlia.
      rewrite in_range_true by dlia.
      replace (65536 + ((55296 + (c - 65536) / 1024 - 55296) * 1024
                        + (56320 + (c - 65536) mod 1024 - 56320)))%N with c by dlia.
      reflexivity.
Qed.

Lemma scanstring_encode (s rest : str) (fuel : nat) :
  text_ok s = true -> (length s < fuel)%nat ->
  scanstring fuel (flat_map escape_char s ++ 34%N :: rest) = Some (s, rest).
Proof.
  revert fuel. induction s as [|c s IH]; intros fuel Hs Hf.
  - destruct fuel; [inversion Hf | reflexivity].
  - destruct fuel; [inversion Hf|].
    cbn [text_ok forallb] in Hs. apply andb_true_iff in Hs. destruct Hs as [Hc Hs].
    cbn [flat_map]. rewrite <- app_assoc, (scanstring_escape_char c _ fuel Hc).
    rewrite IH; [reflexivity | exact Hs | cbn [length] in Hf; lia].
Qed.

(** ** JSON: numbers *)

Lemma digits_val_app (a : N) (x y : str) :
  digits_val a (x ++ y) = digits_val (digits_val a x) y.
Proof.
  revert a. induction x as [|d x IH]; intros a; cbn [app digits_val];
    [reflexivity | apply IH].
Qed.

Lemma digits_fuel_val (fuel : nat) (n : N) :
  (n < 2 ^ N.of_nat fuel)%N -> digits_val 0 (digits_fuel fuel n) = n.
Proof.
  revert n. induction fuel as [|f IH]; intros n H.
  - cbn in H. assert (n = 0%N) by lia. subst. reflexivity.
  - cbn [digits_fuel]. destruct (N.ltb_spec n 10) as [Hlt|Hge].
    + cbn [digits_val]. lia.
    + rewrite digits_val_app, IH; [cbn [digits_val]; dlia|].
      rewrite Nnat.Nat2N.inj_succ, N.pow_succ_r' in H.
      revert H. generalize (2 ^ N.of_nat f)%N. intros p H. dlia.
Qed.

Lemma str_of_N_val (n : N) : digits_val 0 (str_of_N n) = n.
Proof.
  unfold str_of_N. apply digits_fuel_val.
  rewrite Nnat.Nat2N.inj_succ, Nnat.N2Nat.id.
  destruct n as [|p]; [reflexivity|].
  apply N.log2_spec. reflexivity.
Qed.

Lemma str_of_N_cons (n : N) :
  exists c t, str_of_N n = c :: t /\ is_digit c = true.
Proof.
  pose proof (str_of_N_digits n) as Hd. unfold str_of_N in *.
  cbn [digits_fuel] in *.
  destruct (n <? 10)%N.
  - do 2 eexists. split; [reflexivity|]. cbn [forallb] in Hd.
    now apply andb_true_iff in Hd.
  - destruct (digits_fuel _ (n / 10)) as [|c t].
    + do 2 eexists. split; [reflexivity|]. cbn [app forallb] in Hd.
      now apply andb_true_iff in Hd.
    + do 2 eexists. split; [reflexivity|]. cbn [app forallb] in Hd.
      now apply andb_true_iff in Hd.
Qed.

Lemma digit_not_minus (c : N) : is_digit c = true -> (c =? 45)%N = false.
Proof.
  unfold is_digit. intros H. apply andb_true_iff in H. destruct H as [H _].
  apply N.leb_le in H. apply N.eqb_neq. lia.
Qed.

Lemma digit_numchar (c : N) : is_digit c = true -> is_numchar c = true.
Proof. unfold is_numchar. now intros ->. Qed.

Lemma digits_numchars (s : str) :
  forallb is_digit s = true -> forallb is_numchar s = true.
Proof.
  induction s as [|c s IH]; cbn [forallb]; [reflexivity|].
  intros H. apply andb_true_iff in H. destruct H as [Hc Hs].
  now rewrite (digit_numchar c Hc), IH.
Qed.

Lemma str_of_Z_token (z : Z) :
  forallb is_numchar (str_of_Z z) = true
  /\ is_int_token (str_of_Z z) = true
  /\ int_of_token (str_of_Z z) = z.
Proof.
  unfold str_of_Z. destruct (Z.ltb_spec z 0) as [Hneg|Hpos].
  - pose proof (str_of_N_digits (Z.abs_N z)) as Hd.
    destruct (str_of_N_cons (Z.abs_N z)) as (c & t & E & Hc).
    split; [|split].
    + cbn [forallb]. now rewrite (digits_numchars _ Hd).
    + cbn [is_int_token N.eqb Pos.eqb]. rewrite E in *. exact Hd.
    + cbn [int_of_token N.eqb Pos.eqb]. rewrite str_of_N_val. lia.
  - pose proof (str_of_N_digits (Z.to_N z)) as Hd.
    pose proof (str_of_N_val (Z.to_N z)) as Hv.
    destruct (str_of_N_cons (Z.to_N z)) as (c & t & E & Hc).
    split; [exact (digits_numchars _ Hd)|].
    rewrite E in *. cbn [is_int_token int_of_token].
    rewrite (digit_not_minus c Hc). split; [exact Hd|]. rewrite Hv. lia.
Qed.

Lemma span_num_token (tok rest : str) :
  forallb is_numchar tok = true -> delim rest = true ->
  span_num (tok ++ rest) = (tok, rest).
Proof.
  intros Ht Hr. induction tok as [|c tok IH]; cbn [app].
  - destruct rest as [|c rest]; [reflexivity|]. cbn [span_num].
    cbn [delim] in Hr. apply negb_true_iff in Hr. now rewrite Hr.
  - cbn [forallb] in Ht. apply andb_true_iff in Ht. destruct Ht as [Hc Ht].
    cbn [span_num]. rewrite Hc, (IH Ht). reflexivity.
Qed.

Lemma scan_number_int (z : Z) (rest : str) :
  delim rest = true -> scan_number (str_of_Z z ++ rest) = Some (JInt z, rest).
Proof.
  intros Hr. destruct (str_of_Z_token z) as (Hn & Hi & Hv).
  unfold scan_number. rewrite (span_num_token _ _ Hn Hr), Hi, Hv. reflexivity.
Qed.

Lemma scan_number_float (x : float) (rest : str) :
  delim rest = true -> scan_number (float_repr x ++ rest) = Some (JFloat x, rest).
Proof.
  intros Hr. unfold scan_number.
  rewrite (span_num_token _ _ (repr_numchars x) Hr), repr_not_int, float_of_repr.
  reflexivity.
Qed.

(** a value that starts with a number character is read as a number *)
Lemma scan_once_number (fuel : nat) (c : N) (s : str) :
  is_numchar c = true -> scan_once (S fuel) (c :: s) = scan_number (c :: s).
Proof.
  intros H. cbn [scan_once].
  unfold is_numchar, is_digit in H.
  destruct (N.eqb_spec c 34) as [->|_]; [discriminate|].
  destruct (N.eqb_spec c 123) as [->|_]; [discriminate|].
  destruct (N.eqb_spec c 91) as [->|_]; [discriminate|].
  destruct (N.eqb_spec c 110) as [->|_]; [discriminate|].
  destruct (N.eqb_spec c 116) as [->|_]; [discriminate|].
  destruct (N.eqb_spec c 102) as [->|_]; [discriminate|].
  reflexivity.
Qed.

(** ** JSON: documents *)

Lemma json_induction (P : json -> Prop) :
  P JNull -> (forall b, P (JBool b)) -> (forall z, P (JInt z)) ->
  (forall x, P (JFloat x)) -> (forall s, P (JStr s)) ->
  (forall l, Forall P l -> P (JArr l)) ->
  (forall m, Forall (fun kv => P (snd kv)) m -> P (JObj m)) ->
  forall v, P v.
Proof.
  intros Hn Hb Hi Hf Hs Ha Ho. fix IH 1. intros [ | b | z | x | s | l | m ].
  - exact Hn.
  - apply Hb.
  - apply Hi.
  - apply Hf.
  - apply Hs.
  - apply Ha. induction l as [|e l IHl]; constructor; [apply IH | exact IHl].
  - apply Ho. induction m as [|[k e] m IHm]; constructor; [apply IH | exact IHm].
Qed.

Lemma skip_ws_head (c : N) (t : str) : is_ws c = false -> skip_ws (c :: t) = c :: t.
Proof. intros H. cbn [skip_ws]. now rewrite H. Qed.

Lemma skip_ws_spaces (n : nat) (s : str) : skip_ws (repeat 32%N n ++ s) = skip_ws s.
Proof. induction n as [|n IH]; [reflexivity | exact IH]. Qed.

Lemma skip_ws_nl_indent (level : nat) (s : str) :
  skip_ws (nl_indent level ++ s) = skip_ws s.
Proof. unfold nl_indent. cbn [app skip_ws is_ws N.eqb Pos.eqb orb]. apply skip_ws_spaces. Qed.

Lemma numchar_not_ws (c : N) : is_numchar c = true -> is_ws c = false.
Proof.
  unfold is_numchar, is_digit, is_ws. intros H.
  destruct (N.eqb_spec c 32) as [->|_]; [discriminate|].
  destruct (N.eqb_spec c 9) as [->|_]; [discriminate|].
  destruct (N.eqb_spec c 10) as [->|_]; [discriminate|].
  destruct (N.eqb_spec c 13) as [->|_]; [discriminate|].
  reflexivity.
Qed.

Lemma numchar_value_start (c : N) : is_numchar c = true -> value_start c.
Proof.
  intros H. split; [now apply numchar_not_ws|].
  unfold is_numchar, is_digit in H.
  destruct (N.eqb_spec c 93) as [->|_]; [discriminate|].
  destruct (N.eqb_spec c 125) as [->|_]; [discriminate|].
  split; reflexivity.
Qed.

Lemma str_of_Z_cons (z : Z) :
  exists c t, str_of_Z z = c :: t /\ is_numchar c = true.
Proof.
  destruct (str_of_Z_token z) as (Hn & Hi & _).
  destruct (str_of_Z z) as [|c t]; [discriminate|].
  exists c, t. split; [reflexivity|]. cbn [forallb] in Hn.
  now apply andb_true_iff in Hn.
Qed.

Lemma float_repr_cons (x : float) :
  exists c t, float_repr x = c :: t /\ is_numchar c = true.
Proof.
  pose proof (repr_numchars x) as Hn. pose proof (repr_nonempty x) as Hne.
  destruct (float_repr x) as [|c t]; [contradiction|].
  exists c, t. split; [reflexivity|]. cbn [forallb] in Hn.
  now apply andb_true_iff in Hn.
Qed.

Lemma encode_head (level : nat) (v : json) :
  exists c t, encode level v = c :: t /\ value_start c.
Proof.
  destruct v as [ | [|] | z | x | s | [|e l] | [|kv m] ];
    try (do 2 eexists; split; [reflexivity | repeat split; reflexivity]).
  - destruct (str_of_Z_cons z) as (c & t & E & Hc).
    exists c, t. split; [exact E | now apply numchar_value_start].
  - destruct (float_repr_cons x) as (c & t & E & Hc).
    exists c, t. split; [exact E | now apply numchar_value_start].
Qed.

Lemma skip_ws_encode (level : nat) (v : json) (rest : str) :
  skip_ws (encode level v ++ rest) = encode level v ++ rest.
Proof.
  destruct (encode_head level v) as (c & t & E & Hws & _).
  rewrite E. cbn [app]. now apply skip_ws_head.
Qed.

Lemma join_cons2 (sep p q : str) (ps : list str) :
  join sep (p :: q :: ps) = p ++ sep ++ join sep (q :: ps).
Proof. reflexivity. Qed.

Lemma length_escape (s : str) : (length s <= length (flat_map escape_char s))%nat.
Proof.
  induction s as [|c s IH]; [reflexivity|].
  cbn [flat_map length]. rewrite length_app.
  assert (1 <= length (escape_char c))%nat; [|lia].
  unfold escape_char, escape_u.
  repeat match goal with |- context [if ?b then _ else _] => destruct b end;
    cbn [length app]; lia.
Qed.

Lemma scan_string_value (s rest : str) (fuel : nat) :
  text_ok s = true ->
  scanstring (length (flat_map escape_char s ++ 34%N :: rest))
    (flat_map escape_char s ++ 34%N :: rest) = Some (s, rest).
Proof.
  intros Hs. apply scanstring_encode; [exact Hs|].
  rewrite length_app. cbn [length]. pose proof (length_escape s). lia.
Qed.

Lemma dict_set_fresh {V} (d : list (str * V)) (k : str) (v : V) :
  existsb (str_eqb k) (map fst d) = false -> dict_set d k v = d ++ [(k, v)].
Proof.
  induction d as [|[k0 v0] d IH]; cbn [dict_set map fst existsb app]; [reflexivity|].
  intros H. apply orb_false_iff in H. destruct H as [Hk Hd].
  assert (E : str_eqb k0 k = false).
  { destruct (str_eqb k0 k) eqn:E; [|reflexivity].
    apply str_eqb_eq in E. subst. now rewrite str_eqb_refl in Hk. }
  rewrite E, (IH Hd). reflexivity.
Qed.

Lemma fold_dict_set_distinct {V} (m acc : list (str * V)) :
  distinct (map fst (acc ++ m)) = true ->
  fold_left (fun d kv => dict_set d (fst kv) (snd kv)) m acc = acc ++ m.
Proof.
  revert acc. induction m as [|[k v] m IH]; intros acc H; cbn [fold_left fst snd].
  - now rewrite app_nil_r.
  - assert (Hk : existsb (str_eqb k) (map fst acc) = false).
    { clear IH. induction acc as [|[k0 v0] acc IHa]; [reflexivity|].
      cbn [app map fst distinct existsb] in *.
      apply andb_true_iff in H. destruct H as [H0 Hrest].
      rewrite (IHa Hrest), orb_false_r.
      apply negb_true_iff in H0. rewrite map_app, existsb_app in H0.
      cbn [map fst existsb] in H0.
      apply orb_false_iff in H0. destruct H0 as [_ H0].
      apply orb_false_iff in H0. destruct H0 as [H0 _].
      destruct (str_eqb k k0) eqn:E; [|reflexivity].
      apply str_eqb_eq in E. subst. now rewrite str_eqb_refl in H0. }
    rewrite (dict_set_fresh acc k v Hk), IH; rewrite <- app_assoc; [reflexivity|exact H].
Qed.

Lemma dict_of_pairs_distinct {V} (m : list (str * V)) :
  distinct (map fst m) = true -> dict_of_pairs m = m.
Proof. intros H. exact (fold_dict_set_distinct m [] H). Qed.

Lemma delim_nl_indent (level : nat) (s : str) : delim (nl_indent level ++ s) = true.
Proof. reflexivity. Qed.

Lemma delim_item_sep (level : nat) (s : str) : delim (item_sep level ++ s) = true.
Proof. reflexivity. Qed.

Lemma scan_items_encoded (l : list json) :
  Forall reads_back l ->
  forall (e : json) (level level' : nat) (rest : str) (fuel : nat),
    reads_back e -> json_ok e = true -> forallb json_ok l = true ->
    (S (jsize e) + list_sum (map (fun x => S (jsize x)) l) <= fuel)%nat ->
    scan_items fuel
      (join (item_sep level') (map (encode level') (e :: l))
       ++ nl_indent level ++ 93%N :: rest)
    = Some (e :: l, rest).
Proof.
  induction 1 as [|e' l He' Hl IH]; intros e level level' rest fuel He Hok Hall Hfuel.
  - change (list_sum (map _ [])) with 0%nat in Hfuel.
    destruct fuel as [|fuel]; [lia|].
    cbn [map join scan_items].
    rewrite (He level' _ fuel Hok); [|lia | apply delim_nl_indent].
    rewrite skip_ws_nl_indent, skip_ws_head by reflexivity. reflexivity.
  - change (list_sum (map ?f (e' :: l)))
      with (f e' + list_sum (map f l))%nat in Hfuel. cbv beta in Hfuel.
    destruct fuel as [|fuel]; [lia|].
    cbn [forallb] in Hall. apply andb_true_iff in Hall. destruct Hall as [Hok' Hall].
    cbn [map]. rewrite join_cons2. rewrite <- !app_assoc.
    cbn [scan_items].
    rewrite (He level' _ fuel Hok); [|lia | apply delim_item_sep].
    unfold item_sep at 1. cbn [app]. rewrite skip_ws_head by reflexivity.
    cbn [N.eqb Pos.eqb]. rewrite skip_ws_nl_indent.
    change (encode level' e' :: map (encode level') l)
      with (map (encode level') (e' :: l)).
    assert (Hj : exists c t, join (item_sep level') (map (encode level') (e' :: l))
                             = c :: t /\ is_ws c = false).
    { destruct (encode_head level' e') as (c & t & E & Hws & _).
      destruct l as [|e'' l].
      - cbn [map join]. rewrite E. now exists c, t.
      - cbn [map]. rewrite join_cons2, E. cbn [app]. now eexists c, _. }
    destruct Hj as (c & t & Ej & Hws).
    rewrite Ej at 1. cbn [app]. rewrite (skip_ws_head c _ Hws).
    change (c :: t ++ ?x) with ((c :: t) ++ x). rewrite <- Ej.
    rewrite (IH e' level level' rest fuel He' Hok' Hall); [reflexivity | lia].
Qed.

Lemma encode_member_unfold (level : nat) (kv : str * json) (tail : str) :
  encode_member level kv ++ tail
  = 34%N :: flat_map escape_char (fst kv)
            ++ 34%N :: 58%N :: 32%N :: encode level (snd kv) ++ tail.
Proof.
  unfold encode_member, encode_str. change (lit ": ") with [58%N; 32%N].
  cbn [app]. now rewrite <- !app_assoc.
Qed.

Lemma scan_members_encoded (m : list (str * json)) :
  Forall (fun kv => reads_back (snd kv)) m ->
  forall (kv : str * json) (level level' : nat) (rest : str) (fuel : nat),
    reads_back (snd kv) -> text_ok (fst kv) = true -> json_ok (snd kv) = true ->
    forallb (fun kv => text_ok (fst kv) && json_ok (snd kv)) m = true ->
    (S (jsize (snd kv)) + list_sum (map (fun x => S (jsize (snd x))) m) <= fuel)%nat ->
    scan_members fuel
      (join (item_sep level') (map (encode_member level') (kv :: m))
       ++ nl_indent level ++ 125%N :: rest)
    = Some (kv :: m, rest).
Proof.
  induction 1 as [|kv' m Hkv' Hm IH];
    intros [k v] level level' rest fuel Hv Hk Hok Hall Hfuel; cbn [fst snd] in *.
  - change (list_sum (map _ [])) with 0%nat in Hfuel.
    destruct fuel as [|fuel]; [lia|].
    cbn [map join]. rewrite encode_member_unfold. cbn [fst snd].
    cbn [scan_members N.eqb Pos.eqb].
    rewrite (scan_string_value k _ fuel Hk).
    rewrite skip_ws_head by reflexivity. cbn [N.eqb Pos.eqb].
    cbn [skip_ws is_ws N.eqb Pos.eqb orb]. rewrite skip_ws_encode.
    rewrite (Hv level' _ fuel Hok); [|lia | apply delim_nl_indent].
    rewrite skip_ws_nl_indent, skip_ws_head by reflexivity. reflexivity.
  - change (list_sum (map ?f (kv' :: m)))
      with (f kv' + list_sum (map f m))%nat in Hfuel. cbv beta in Hfuel.
    destruct fuel as [|fuel]; [lia|].
    cbn [forallb] in Hall. apply andb_true_iff in Hall. destruct Hall as [Hok' Hall].
    apply andb_true_iff in Hok'. destruct Hok' as [Hk' Hok'].
    cbn [map]. rewrite join_cons2. rewrite <- !app_assoc.
    rewrite encode_member_unfold. cbn [fst snd].
    cbn [scan_members N.eqb Pos.eqb].
    rewrite (scan_string_value k _ fuel Hk).
    rewrite skip_ws_head by reflexivity. cbn [N.eqb Pos.eqb].
    cbn [skip_ws is_ws N.eqb Pos.eqb orb]. rewrite skip_ws_encode.
    rewrite (Hv level' _ fuel Hok); [|lia | apply delim_item_sep].
    unfold item_sep at 1. cbn [app]. rewrite skip_ws_head by reflexivity.
    cbn [N.eqb Pos.eqb]. rewrite skip_ws_nl_indent.
    change (encode_member level' kv' :: map (encode_member level') m)
      with (map (encode_member level') (kv' :: m)).
    assert (Hj : exists t, join (item_sep level') (map (encode_member level') (kv' :: m))
                           = 34%N :: t).
    { destruct m as [|kv'' m].
      - cbn [map join]. unfold encode_member, encode_str. cbn [app]. now eexists.
      - cbn [map]. rewrite join_cons2. unfold encode_member at 1, encode_str.
        cbn [app]. now eexists. }
    destruct Hj as (t & Ej).
    rewrite Ej at 1. cbn [app]. rewrite skip_ws_head by reflexivity.
    change (34%N :: t ++ ?x) with ((34%N :: t) ++ x). rewrite <- Ej.
    rewrite (IH kv' level level' rest fuel Hkv' Hk' Hok' Hall); [|lia].
    destruct kv'. reflexivity.
Qed.

Lemma encode_arr (level : nat) (e : json) (l : list json) :
  encode level (JArr (e :: l))
  = 91%N :: nl_indent (S level)
    ++ join (item_sep (S level)) (map (encode (S level)) (e :: l))
    ++ nl_indent level ++ [93%N].
Proof. reflexivity. Qed.

Lemma encode_obj (level : nat) (kv : str * json) (m : list (str * json)) :
  encode level (JObj (kv :: m))
  = 123%N :: nl_indent (S level)
    ++ join (item_sep (S level)) (map (encode_member (S level)) (kv :: m))
    ++ nl_indent level ++ [125%N].
Proof. reflexivity. Qed.

Lemma encode_reads_back (v : json) : reads_back v.
Proof.
  induction v as [ | b | z | x | s | l IHl | m IHm ] using json_induction;
    intros level rest fuel Hok Hfuel Hrest;
    (destruct fuel as [|fuel]; [cbn in Hfuel; lia|]).
  - reflexivity.
  - destruct b; reflexivity.
  - cbn [encode]. destruct (str_of_Z_cons z) as (c & t & E & Hc).
    pose proof (scan_number_int z rest Hrest) as H. rewrite E in *. cbn [app] in *.
    now rewrite scan_once_number.
  - cbn [encode]. destruct (float_repr_cons x) as (c & t & E & Hc).
    pose proof (scan_number_float x rest Hrest) as H. rewrite E in *. cbn [app] in *.
    now rewrite scan_once_number.
  - cbn [encode json_ok] in *. unfold encode_str. cbn [app]. rewrite <- app_assoc.
    cbn [app scan_once N.eqb Pos.eqb].
    now rewrite (scan_string_value s rest fuel Hok).
  - destruct l as [|e l]; [reflexivity|].
    rewrite encode_arr. cbn [app]. rewrite <- !app_assoc. cbn [app].
    cbn [scan_once N.eqb Pos.eqb]. rewrite skip_ws_nl_indent.
    assert (Hj : exists c t, join (item_sep (S level)) (map (encode (S level)) (e :: l))
                             = c :: t /\ value_start c).
    { destruct (encode_head (S level) e) as (c & t & E & Hs).
      destruct l as [|e' l].
      - cbn [map join]. rewrite E. now exists c, t.
      - cbn [map]. rewrite join_cons2, E. cbn [app]. now eexists c, _. }
    destruct Hj as (c & t & Ej & Hws & H93 & _).
    rewrite Ej at 1. cbn [app]. rewrite (skip_ws_head c _ Hws), H93.
    change (c :: t ++ ?x) with ((c :: t) ++ x). rewrite <- Ej.
    inversion IHl as [|? ? He Hl]; subst.
    cbn [json_ok forallb] in Hok. apply andb_true_iff in Hok. destruct Hok as [Hoe Hol].
    cbn [jsize] in Hfuel.
    change (list_sum (map ?f (e :: l)))
      with (f e + list_sum (map f l))%nat in Hfuel. cbv beta in Hfuel.
    rewrite (scan_items_encoded l Hl e level (S level) rest fuel He Hoe Hol); [reflexivity|lia].
  - destruct m as [|kv m]; [reflexivity|].
    rewrite encode_obj. cbn [app]. rewrite <- !app_assoc. cbn [app].
    cbn [scan_once N.eqb Pos.eqb]. rewrite skip_ws_nl_indent.
    assert (Hj : exists t, join (item_sep (S level))
                             (map (encode_member (S level)) (kv :: m)) = 34%N :: t).
    { destruct m as [|kv' m].
      - cbn [map join]. unfold encode_member, encode_str. cbn [app]. now eexists.
      - cbn [map]. rewrite join_cons2. unfold encode_member at 1, encode_str.
        cbn [app]. now eexists. }
    destruct Hj as (t & Ej).
    rewrite Ej at 1. cbn [app]. rewrite skip_ws_head by reflexivity.
    cbn [N.eqb Pos.eqb].
    change (34%N :: t ++ ?x) with ((34%N :: t) ++ x). rewrite <- Ej.
    inversion IHm as [|? ? Hkv Hm]; subst.
    cbn [json_ok] in Hok. apply andb_true_iff in Hok. destruct Hok as [Hall Hdist].
    cbn [forallb] in Hall. apply andb_true_iff in Hall. destruct Hall as [Hkvok Hall].
    apply andb_true_iff in Hkvok. destruct Hkvok as [Hk Hv].
    cbn [jsize] in Hfuel.
    change (list_sum (map ?f (kv :: m)))
      with (f kv + list_sum (map f m))%nat in Hfuel. cbv beta in Hfuel.
    rewrite (scan_members_encoded m Hm kv level (S level) rest fuel Hkv Hk Hv Hall);
      [|lia].
    now rewrite (dict_of_pairs_distinct _ Hdist).
Qed.

Lemma join_length_ge {A} (size : A -> nat) (enc : A -> str) (sep : str) (l : list A) :
  Forall (fun a => (size a <= length (enc a))%nat) l ->
  (1 <= length sep)%nat ->
  (list_sum (map (fun a => S (size a)) l) <= length (join sep (map enc l)) + 1)%nat.
Proof.
  intros Hl Hsep. induction Hl as [|a l Ha Hl IH]; [cbn; lia|].
  change (list_sum (map ?f (a :: l))) with (f a + list_sum (map f l))%nat.
  cbv beta. destruct l as [|b l].
  - cbn [map join list_sum fold_right]. lia.
  - cbn [map] in *. rewrite join_cons2, !length_app. lia.
Qed.

Lemma jsize_le_length (v : json) (level : nat) :
  (jsize v <= length (encode level v))%nat.
Proof.
  revert level.
  induction v as [ | b | z | x | s | l IHl | m IHm ] using json_induction; intros level.
  - cbn. lia.
  - destruct b; cbn; lia.
  - cbn [encode jsize]. destruct (str_of_Z_cons z) as (c & t & -> & _). cbn [length]. lia.
  - cbn [encode jsize]. destruct (float_repr_cons x) as (c & t & -> & _). cbn [length]. lia.
  - cbn [encode jsize]. unfold encode_str. cbn [length]. lia.
  - destruct l as [|e l]; [cbn; lia|].
    rewrite encode_arr. cbn [jsize length]. rewrite !length_app.
    assert (H : (list_sum (map (fun a => S (jsize a)) (e :: l))
                 <= length (join (item_sep (S level))
                              (map (encode (S level)) (e :: l))) + 1)%nat).
    { apply join_length_ge; [|cbn; lia].
      rewrite Forall_forall in *. intros a Ha. apply IHl. exact Ha. }
    cbn [nl_indent length] in *. lia.
  - destruct m as [|kv m]; [cbn; lia|].
    rewrite encode_obj. cbn [jsize length]. rewrite !length_app.
    assert (H : (list_sum (map (fun a => S (jsize (snd a))) (kv :: m))
                 <= length (join (item_sep (S level))
                              (map (encode_member (S level)) (kv :: m))) + 1)%nat).
    { apply (join_length_ge (fun a => jsize (snd a))); [|cbn; lia].
      rewrite Forall_forall in *. intros a Ha. unfold encode_member.
      rewrite !length_app. specialize (IHm a Ha (S level)). lia. }
    cbn [nl_indent length] in *. lia.
Qed.

(** parsing the output of [dumps] gives the value back *)
Lemma loads_dumps (v : json) : json_ok v = true -> loads (dumps v) = Some v.
Proof.
  intros Hok. unfold loads, dumps.
  pose proof (skip_ws_encode 0 v []) as Hs. rewrite app_nil_r in Hs. rewrite Hs.
  pose proof (encode_reads_back v 0%nat [] (length (encode 0 v)) Hok
                (jsize_le_length v 0) eq_refl) as H.
  rewrite app_nil_r in H. rewrite H. reflexivity.
Qed.

(** ** The snapshot is well-formed JSON *)

Lemma text_ok_app (a b : str) : text_ok (a ++ b) = text_ok a && text_ok b.
Proof. apply forallb_app. Qed.

Lemma digits_text_ok (s : str) : forallb is_digit s = true -> text_ok s = true.
Proof.
  unfold text_ok. induction s as [|c s IH]; cbn [forallb]; [reflexivity|].
  intros H. apply andb_true_iff in H. destruct H as [Hc Hs].
  rewrite (IH Hs), andb_true_r. unfold is_digit in Hc. unfold text_cp.
  apply andb_true_iff in Hc. destruct Hc as [_ Hc]. apply N.leb_le in Hc.
  apply orb_true_iff. left. apply N.ltb_lt. lia.
Qed.

Lemma str_of_N_text_ok (n : N) : text_ok (str_of_N n) = true.
Proof. apply digits_text_ok, str_of_N_digits. Qed.

Lemma str_of_Z_text_ok (z : Z) : text_ok (str_of_Z z) = true.
Proof.
  unfold str_of_Z. destruct (z <? 0); [|apply str_of_N_text_ok].
  change (45%N :: ?l) with ([45%N] ++ l). now rewrite text_ok_app, str_of_N_text_ok.
Qed.

Lemma repeat_text_ok (c : N) (n : nat) : text_cp c = true -> text_ok (repeat c n) = true.
Proof.
  intros H. unfold text_ok. induction n as [|n IH]; cbn [repeat forallb];
    [reflexivity | now rewrite H, IH].
Qed.

Lemma zpad_text_ok (w : nat) (n : N) : text_ok (zpad w n) = true.
Proof.
  unfold zpad. now rewrite text_ok_app, repeat_text_ok, str_of_N_text_ok.
Qed.

Lemma format_fixed_Q_text_ok (prec : nat) (q : Q) :
  text_ok (format_fixed_Q prec q) = true.
Proof.
  unfold format_fixed_Q. rewrite !text_ok_app, str_of_N_text_ok.
  destruct (Qneg q); destruct prec; try reflexivity;
    change (46%N :: ?l) with ([46%N] ++ l);
    now rewrite text_ok_app, zpad_text_ok.
Qed.

Lemma fmt_GB_text_ok (n : Z) : text_ok (fmt_GB n) = true.
Proof. unfold fmt_GB, format_fixed. now rewrite text_ok_app, format_fixed_Q_text_ok. Qed.

Lemma fmt_MB_text_ok (n : Z) : text_ok (fmt_MB n) = true.
Proof. unfold fmt_MB, format_fixed. now rewrite text_ok_app, format_fixed_Q_text_ok. Qed.

Lemma strftime_HMS_text_ok (d : datetime) : text_ok (strftime_HMS d) = true.
Proof. unfold strftime_HMS. now rewrite !text_ok_app, !zpad_text_ok. Qed.

Lemma strftime_full_text_ok (d : datetime) : text_ok (strftime_full d) = true.
Proof.
  unfold strftime_full. now rewrite !text_ok_app, !zpad_text_ok, strftime_HMS_text_ok.
Qed.

Lemma forallb_map_json {A} (f : A -> json) (l : list A) :
  (forall a, In a l -> json_ok (f a) = true) -> forallb json_ok (map f l) = true.
Proof.
  intros H. apply forallb_forall. intros v Hv. apply in_map_iff in Hv.
  destruct Hv as (a & <- & Ha). now apply H.
Qed.

Lemma jopt_int_ok (o : option Z) : json_ok (jopt JInt o) = true.
Proof. now destruct o. Qed.

Lemma jopt_str_ok (o : option str) :
  opt_forall text_ok o = true -> json_ok (jopt JStr o) = true.
Proof. now destruct o. Qed.

Lemma platform_json_ok (p : platform_info) :
  text_ok (pl_system p) = true -> text_ok (pl_release p) = true ->
  text_ok (pl_version p) = true -> text_ok (pl_host p) = true ->
  text_ok (pl_ip p) = true -> json_ok (platform_json p) = true.
Proof. intros. unfold platform_json. obj_ok; assumption. Qed.

Lemma cpu_json_ok (c : cpu_info) :
  text_ok (cpu_freq_s c) = true -> json_ok (cpu_json c) = true.
Proof.
  intros. unfold cpu_json. obj_ok; try assumption; try apply jopt_int_ok.
  now apply forallb_map_json.
Qed.

Lemma memory_json_ok (m : memory_info) :
  text_ok (mem_total_ram m) = true -> text_ok (mem_used_ram m) = true ->
  text_ok (mem_swap m) = true -> json_ok (memory_json m) = true.
Proof. intros. unfold memory_json. obj_ok; assumption. Qed.

Lemma disk_json_ok (d : disk_info) :
  text_ok (dk_device d) = true -> text_ok (dk_mountpoint d) = true ->
  text_ok (dk_fstype d) = true -> text_ok (dk_total d) = true ->
  text_ok (dk_used d) = true -> text_ok (dk_free d) = true ->
  opt_forall (fun rw => text_ok (fst rw) && text_ok (snd rw)) (dk_io d) = true ->
  json_ok (disk_json d) = true.
Proof.
  intros ? ? ? ? ? ? Hio. unfold disk_json.
  destruct (dk_io d) as [[r w]|]; cbn [opt_forall fst snd] in Hio.
  - apply andb_true_iff in Hio. destruct Hio. obj_ok; assumption.
  - obj_ok; assumption.
Qed.

Lemma stats_json_ok (o : option iface_stats) :
  opt_forall (fun st => text_ok (st_is_up st) && text_ok (st_speed st)) o = true ->
  json_ok (stats_json o) = true.
Proof.
  destruct o as [st|]; [|reflexivity]. cbn [opt_forall]. intros H.
  apply andb_true_iff in H. destruct H. unfold stats_json. obj_ok; assumption.
Qed.

Lemma iface_json_ok (i : iface_info) :
  forallb text_ok (if_ip_addresses i) = true ->
  opt_forall text_ok (if_mac i) = true ->
  opt_forall (fun st => text_ok (st_is_up st) && text_ok (st_speed st)) (if_stats i)
  = true ->
  json_ok (iface_json i) = true.
Proof.
  intros Hip Hmac Hst. unfold iface_json. obj_ok.
  - apply forallb_map_json. intros a Ha. rewrite forallb_forall in Hip. now apply Hip.
  - now apply jopt_str_ok.
  - now apply stats_json_ok.
Qed.

Lemma proc_json_ok (p : proc_info) :
  text_ok (pi_name p) = true -> json_ok (proc_json p) = true.
Proof. intros. unfold proc_json. obj_ok; assumption. Qed.

Lemma user_json_ok (u : user_info) :
  text_ok (us_name u) = true -> text_ok (us_host u) = true ->
  text_ok (us_started u) = true -> json_ok (user_json u) = true.
Proof. intros. unfold user_json. obj_ok; assumption. Qed.

Lemma map_fst_keyed {A B} (f : A -> B) (l : list (str * A)) :
  map fst (map (fun '(k, a) => (k, f a)) l) = map fst l.
Proof.
  induction l as [|[k a] l IH]; [reflexivity|]. cbn [map fst]. now rewrite IH.
Qed.

Lemma keyed_json_ok {A} (f : A -> json) (l : list (str * A)) :
  distinct (map fst l) = true ->
  (forall k a, In (k, a) l -> text_ok k = true /\ json_ok (f a) = true) ->
  json_ok (JObj (map (fun '(k, a) => (k, f a)) l)) = true.
Proof.
  intros Hd Hall. cbn [json_ok]. rewrite map_fst_keyed, Hd, andb_true_r.
  apply forallb_forall. intros [k v] Hin. apply in_map_iff in Hin.
  destruct Hin as ([k' a] & [= <- <-] & Hin). cbn [fst snd].
  destruct (Hall _ _ Hin) as [Hk Hv]. now rewrite Hk, Hv.
Qed.

Lemma addrs_loop_text (addrs : list snicaddr) (ips : list str) (mac : option str) :
  forallb (fun a => text_ok (addr_address a) && opt_forall text_ok (addr_netmask a))
    addrs = true ->
  forallb text_ok ips = true -> opt_forall text_ok mac = true ->
  forallb text_ok (fst (addrs_loop addrs ips mac)) = true
  /\ opt_forall text_ok (snd (addrs_loop addrs ips mac)) = true.
Proof.
  revert ips mac. induction addrs as [|a addrs IH]; intros ips mac Ha Hips Hmac;
    cbn [addrs_loop forallb] in *; [now split|].
  apply andb_true_iff in Ha. destruct Ha as [Ha Hrest].
  apply andb_true_iff in Ha. destruct Ha as [Haddr Hmask].
  destruct (addr_family a); apply IH; try assumption.
  - rewrite forallb_app, Hips. cbn [forallb]. rewrite !text_ok_app, Haddr.
    destruct (addr_netmask a); cbn [opt_forall str_of_optstr] in *;
      [now rewrite Hmask | reflexivity].
  - rewrite forallb_app, Hips. cbn [forallb]. now rewrite text_ok_app, Haddr.
Qed.

Lemma iface_entry_json_ok (os : OS) (iface : str) (addrs : list snicaddr) :
  forallb (fun a => text_ok (addr_address a) && opt_forall text_ok (addr_netmask a))
    addrs = true ->
  json_ok (iface_json (iface_entry os iface addrs)) = true.
Proof.
  intros Ha. unfold iface_entry.
  destruct (addrs_loop_text addrs [] None Ha eq_refl eq_refl) as [Hips Hmac].
  destruct (addrs_loop addrs [] None) as [ips mac]. cbn [fst snd] in *.
  apply iface_json_ok; cbn [if_ip_addresses if_mac if_stats]; try assumption.
  destruct (dict_get (net_if_stats os) iface) as [stat|]; [|reflexivity].
  cbn [opt_forall st_is_up st_speed].
  destruct (nic_isup stat); destruct (0 <? nic_speed stat);
    rewrite ?text_ok_app, ?str_of_Z_text_ok; reflexivity.
Qed.

Lemma sensors_loop_distinct (items : list (str * list shwtemp))
  (acc : list (str * list float)) :
  distinct (map fst acc) = true ->
  distinct (map fst (sensors_loop items acc)) = true.
Proof.
  revert acc. induction items as [|[k es] items IH]; intros acc Hd;
    cbn [sensors_loop]; [exact Hd|].
  apply IH. now apply dict_set_distinct.
Qed.

Lemma network_json_ok (os : OS) :
  forallb (fun ka => text_ok (fst ka)
                     && forallb (fun a => text_ok (addr_address a)
                                          && opt_forall text_ok (addr_netmask a))
                          (snd ka))
    (net_if_addrs os) = true ->
  json_ok (network_json (_network os)) = true.
Proof.
  intros H. unfold network_json, _network.
  cbn [net_bytes_sent net_bytes_recv net_packets_sent net_packets_recv net_interfaces].
  destruct (interfaces_loop_inv os
              (fun k v => text_ok k = true /\ json_ok (iface_json v) = true)
              (net_if_addrs os) [] eq_refl) as [Hd Hall].
  { intros k v []. }
  { intros k addrs Hin. rewrite forallb_forall in H. specialize (H _ Hin).
    cbn [fst snd] in H. apply andb_true_iff in H. destruct H as [Hk Ha].
    split; [exact Hk | now apply iface_entry_json_ok]. }
  pose proof (keyed_json_ok iface_json _ Hd Hall) as Hobj.
  cbn [json_ok forallb fst snd map]. cbn [json_ok] in Hobj.
  rewrite Hobj, !fmt_MB_text_ok. reflexivity.
Qed.

Lemma sensors_json_ok (os : OS) (sn : sensors_info) :
  ok_forall (forallb (fun ke => text_ok (fst ke))) (sensors_temperatures os) = true ->
  _sensors os = Ok sn -> json_ok (sensors_json sn) = true.
Proof.
  intros Hk Hs. unfold _sensors in Hs.
  destruct (sensors_temperatures os) as [temps|e].
  - injection Hs as <-. cbn [ok_forall] in Hk. unfold sensors_json.
    apply (keyed_json_ok (fun rs => JArr (map (fun c => JObj [(lit "current", JFloat c)]) rs))).
    + destruct temps; [reflexivity | now apply sensors_loop_distinct].
    + intros k rs Hin.
      assert (Hin' : In (k, rs) (sensors_loop temps [])).
      { destruct temps; [destruct Hin | exact Hin]. }
      apply sensors_loop_in in Hin'. destruct Hin' as [[]|(es & Hes & ->)].
      rewrite forallb_forall in Hk. split; [exact (Hk _ Hes)|].
      cbn [json_ok]. now apply forallb_map_json.
  - split_if Hs; [|discriminate]. injection Hs as <-. reflexivity.
Qed.

(** every collected snapshot is well-formed JSON when the strings of the
    host are text *)
Lemma collect_json_ok (os : OS) (self r : SystemReport) (s : snapshot) :
  collect os self = Ok r -> info r = Some s ->
  os_text_okb os = true -> text_ok (time self) = true ->
  json_ok (snapshot_json s) = true.
Proof.
  intros Hc Hi Hos Htime. apply collect_inv in Hc.
  destruct Hc as (pl & dk & procs & sn & Hpl & Hd & Hpr & Hsn & _ & _ & Hinfo).
  rewrite Hinfo in Hi. injection Hi as <-.
  apply _disks_ok in Hd. apply _processes_ok in Hpr.
  unfold os_text_okb in Hos. repeat rewrite andb_true_iff in Hos.
  destruct Hos as [[[[[[[[[H1 H2] H3] H4] H5] H6] H7] H8] H9] H10].
  unfold snapshot_json.
  cbn [s_time s_platform s_cpu s_memory s_disks s_network s_processes s_users
       s_boot s_sensors].
  obj_ok.
  - exact Htime.
  - unfold _platform, bind in Hpl.
    destruct (gethostbyname os (gethostname os)) as [ip|]; [|discriminate].
    injection Hpl as <-. now apply platform_json_ok.
  - apply cpu_json_ok. unfold _cpu. cbn [cpu_freq_s].
    destruct (cpu_freq os); [|reflexivity].
    unfold format_fixed. now rewrite text_ok_app, format_fixed_Q_text_ok.
  - apply memory_json_ok; unfold _memory;
      cbn [mem_total_ram mem_used_ram mem_swap]; try apply fmt_GB_text_ok.
    unfold format_fixed. now rewrite !text_ok_app, !format_fixed_Q_text_ok.
  - apply forallb_map_json. intros d Hin. subst dk.
    apply in_flat_map in Hin. destruct Hin as (part & Hpart & Hin).
    rewrite forallb_forall in H6. specialize (H6 _ Hpart).
    repeat rewrite andb_true_iff in H6. destruct H6 as [[Hdev Hmp] Hfs].
    unfold disk_entry in Hin.
    destruct (disk_usage os (part_mountpoint part)) as [use|]; [|contradiction].
    destruct Hin as [<-|[]].
    apply disk_json_ok; cbn [disk_record dk_device dk_mountpoint dk_fstype dk_total
                             dk_used dk_free dk_io];
      try assumption; try apply fmt_GB_text_ok.
    unfold disk_io_of. destruct (disk_io_counters os) as [[table|]|]; try reflexivity.
    destruct (dict_get table (strip_slashes (part_device part))); [|reflexivity].
    cbn [opt_forall fst snd]. now rewrite !fmt_MB_text_ok.
  - now apply network_json_ok.
  - apply forallb_map_json. intros p Hin. subst procs.
    apply in_sorted_top in Hin. apply in_flat_map in Hin.
    destruct Hin as (q & Hq & Hin). unfold proc_entry in Hin.
    destruct (proc_rss q); [|contradiction]. destruct Hin as [<-|[]].
    apply proc_json_ok. cbn [pi_name]. rewrite forallb_forall in H8. now apply H8.
  - apply forallb_map_json. intros u Hin. unfold _users in Hin.
    apply in_map_iff in Hin. destruct Hin as (u0 & <- & Hu0).
    rewrite forallb_forall in H9. specialize (H9 _ Hu0).
    apply andb_true_iff in H9. destruct H9 as [Hn Hh].
    apply user_json_ok; cbn [us_name us_host us_started]; try assumption.
    apply strftime_HMS_text_ok.
  - apply strftime_full_text_ok.
  - now apply (sensors_json_ok os).
Qed.

(** ** Nothing is lost between the snapshot and its JSON form *)

Lemma map_inj {A B} (f : A -> B) :
  (forall a b, f a = f b -> a = b) ->
  forall l1 l2, map f l1 = map f l2 -> l1 = l2.
Proof.
  intros Hf. induction l1 as [|a l1 IH]; intros [|b l2] H; try discriminate;
    [reflexivity|].
  cbn [map] in H. injection H as Hab Hl. f_equal; [now apply Hf | now apply IH].
Qed.

Lemma jopt_int_inj (o1 o2 : option Z) : jopt JInt o1 = jopt JInt o2 -> o1 = o2.
Proof. destruct o1, o2; cbn [jopt]; congruence. Qed.

Lemma jopt_str_inj (o1 o2 : option str) : jopt JStr o1 = jopt JStr o2 -> o1 = o2.
Proof. destruct o1, o2; cbn [jopt]; congruence. Qed.

Lemma JFloat_inj (x y : float) : JFloat x = JFloat y -> x = y.
Proof. congruence. Qed.

Lemma JStr_inj (x y : str) : JStr x = JStr y -> x = y.
Proof. congruence. Qed.

Lemma platform_json_inj (p1 p2 : platform_info) :
  platform_json p1 = platform_json p2 -> p1 = p2.
Proof. destruct p1, p2. unfold platform_json. cbn. congruence. Qed.

Lemma cpu_json_inj (c1 c2 : cpu_info) : cpu_json c1 = cpu_json c2 -> c1 = c2.
Proof.
  destruct c1 as [p1 l1 f1 u1 pc1], c2 as [p2 l2 f2 u2 pc2]. unfold cpu_json.
  cbn [cpu_physical_cores cpu_logical_cores cpu_freq_s cpu_usage cpu_per_cpu].
  intros H.
  assert (Hp : jopt JInt p1 = jopt JInt p2) by congruence.
  assert (Hl : jopt JInt l1 = jopt JInt l2) by congruence.
  assert (Hpc : map JFloat pc1 = map JFloat pc2) by congruence.
  apply jopt_int_inj in Hp, Hl. apply (map_inj _ JFloat_inj) in Hpc.
  congruence.
Qed.

Lemma memory_json_inj (m1 m2 : memory_info) :
  memory_json m1 = memory_json m2 -> m1 = m2.
Proof. destruct m1, m2. unfold memory_json. cbn. congruence. Qed.

Lemma disk_json_inj (d1 d2 : disk_info) : disk_json d1 = disk_json d2 -> d1 = d2.
Proof.
  destruct d1 as [a1 b1 c1 t1 u1 f1 p1 [[r1 w1]|]],
           d2 as [a2 b2 c2 t2 u2 f2 p2 [[r2 w2]|]];
    unfold disk_json; cbn; congruence.
Qed.

Lemma stats_json_inj (o1 o2 : option iface_stats) :
  stats_json o1 = stats_json o2 -> o1 = o2.
Proof.
  destruct o1 as [[a1 b1 c1]|], o2 as [[a2 b2 c2]|]; unfold stats_json; cbn;
    congruence.
Qed.

Lemma iface_json_inj (i1 i2 : iface_info) : iface_json i1 = iface_json i2 -> i1 = i2.
Proof.
  destruct i1 as [ip1 mac1 st1], i2 as [ip2 mac2 st2]. unfold iface_json.
  cbn [if_ip_addresses if_mac if_stats]. intros H.
  assert (Hip : map JStr ip1 = map JStr ip2) by congruence.
  assert (Hmac : jopt JStr mac1 = jopt JStr mac2) by congruence.
  assert (Hst : stats_json st1 = stats_json st2) by congruence.
  apply (map_inj _ JStr_inj) in Hip. apply jopt_str_inj in Hmac.
  apply stats_json_inj in Hst. congruence.
Qed.

Lemma keyed_inj {A} (f : A -> json) :
  (forall a b, f a = f b -> a = b) ->
  forall l1 l2 : list (str * A),
    map (fun '(k, a) => (k, f a)) l1 = map (fun '(k, a) => (k, f a)) l2 -> l1 = l2.
Proof.
  intros Hf. apply map_inj. intros [k1 a1] [k2 a2] H.
  injection H as -> Ha. now rewrite (Hf _ _ Ha).
Qed.

Lemma network_json_inj (n1 n2 : network_info) :
  network_json n1 = network_json n2 -> n1 = n2.
Proof.
  destruct n1 as [a1 b1 c1 d1 i1], n2 as [a2 b2 c2 d2 i2]. unfold network_json.
  cbn [net_bytes_sent net_bytes_recv net_packets_sent net_packets_recv net_interfaces].
  intros H.
  assert (Hi : map (fun '(k, i) => (k, iface_json i)) i1
               = map (fun '(k, i) => (k, iface_json i)) i2) by congruence.
  apply (keyed_inj _ iface_json_inj) in Hi. congruence.
Qed.

Lemma proc_json_inj (p1 p2 : proc_info) : proc_json p1 = proc_json p2 -> p1 = p2.
Proof. destruct p1, p2. unfold proc_json. cbn. congruence. Qed.

Lemma user_json_inj (u1 u2 : user_info) : user_json u1 = user_json u2 -> u1 = u2.
Proof. destruct u1, u2. unfold user_json. cbn. congruence. Qed.

Lemma readings_json_inj (r1 r2 : list float) :
  JArr (map (fun c => JObj [(lit "current", JFloat c)]) r1)
  = JArr (map (fun c => JObj [(lit "current", JFloat c)]) r2) -> r1 = r2.
Proof.
  intros H. injection H as H. revert H. apply map_inj. congruence.
Qed.

Lemma sensors_json_inj (s1 s2 : sensors_info) :
  sensors_json s1 = sensors_json s2 -> s1 = s2.
Proof.
  destruct s1 as [|m1], s2 as [|m2]; unfold sensors_json; intros H.
  - reflexivity.
  - destruct m2 as [|[k rs] [|? ?]]; cbn in H; congruence.
  - destruct m1 as [|[k rs] [|? ?]]; cbn in H; congruence.
  - injection H as H. f_equal. revert H. apply keyed_inj. exact readings_json_inj.
Qed.

Lemma snapshot_json_inj (s1 s2 : snapshot) :
  snapshot_json s1 = snapshot_json s2 -> s1 = s2.
Proof.
  destruct s1 as [t1 pl1 c1 m1 d1 n1 p1 u1 b1 sn1],
           s2 as [t2 pl2 c2 m2 d2 n2 p2 u2 b2 sn2].
  unfold snapshot_json.
  cbn [s_time s_platform s_cpu s_memory s_disks s_network s_processes s_users
       s_boot s_sensors].
  intros H.
  assert (Hpl : platform_json pl1 = platform_json pl2) by congruence.
  assert (Hc : cpu_json c1 = cpu_json c2) by congruence.
  assert (Hm : memory_json m1 = memory_json m2) by congruence.
  assert (Hd : map disk_json d1 = map disk_json d2) by congruence.
  assert (Hn : network_json n1 = network_json n2) by congruence.
  assert (Hp : map proc_json p1 = map proc_json p2) by congruence.
  assert (Hu : map user_json u1 = map user_json u2) by congruence.
  assert (Hs : sensors_json sn1 = sensors_json sn2) by congruence.
  apply platform_json_inj in Hpl. apply cpu_json_inj in Hc.
  apply memory_json_inj in Hm. apply (map_inj _ disk_json_inj) in Hd.
  apply network_json_inj in Hn. apply (map_inj _ proc_json_inj) in Hp.
  apply (map_inj _ user_json_inj) in Hu. apply sensors_json_inj in Hs.
  congruence.
Qed.

(** C6: for every snapshot collected on a host whose strings are text,
    parsing the JSON report gives back the snapshot as the nested
    dictionaries and lists it is, every key with its value; and no other
    snapshot has that reading, so that every field of the snapshot can be
    recovered from the parsed document. *)
Theorem json_report_round_trip
  (os : OS) (now : datetime) (fmt0 : str) (r : SystemReport) (s : snapshot) :
  os_text_okb os = true ->
  collect os (__init__ now fmt0) = Ok r -> info r = Some s ->
  loads (json_report r) = Some (snapshot_json s)
  /\ forall s', loads (json_report r) = Some (snapshot_json s') -> s' = s.
Proof.
  intros Hos Hc Hi.
  assert (Hok : json_ok (snapshot_json s) = true).
  { apply (collect_json_ok os (__init__ now fmt0) r s Hc Hi Hos).
    apply strftime_full_text_ok. }
  assert (Hl : loads (json_report r) = Some (snapshot_json s)).
  { unfold json_report. rewrite Hi. now apply loads_dumps. }
  split; [exact Hl|].
  intros s' Hs'. apply snapshot_json_inj. congruence.
Qed.

End Properties.

(** * The concrete floats satisfy the laws *)

Lemma str_of_N_small (m : N) : (m < 10)%N -> str_of_N m = [(48 + m)%N].
Proof.
  intros H. unfold str_of_N. cbn [digits_fuel].
  apply N.ltb_lt in H. now rewrite H.
Qed.

Lemma not_all_digits (x y : str) : forallb is_digit (x ++ 46%N :: y) = false.
Proof.
  rewrite forallb_app. cbn [forallb]. change (is_digit 46) with false.
  apply andb_false_r.
Qed.

Lemma span_digits_dot (x y : str) :
  forallb is_digit x = true -> span_digits (x ++ 46%N :: y) = (x, 46%N :: y).
Proof.
  induction x as [|c x IH]; cbn [app forallb]; [reflexivity|].
  intros H. apply andb_true_iff in H. destruct H as [Hc Hx].
  cbn [span_digits]. now rewrite Hc, (IH Hx).
Qed.

Lemma tenths_of_body_repr (n : N) :
  tenths_of_body (str_of_N (n / 10) ++ [46%N] ++ str_of_N (n mod 10)) = Some n.
Proof.
  unfold tenths_of_body. cbn [app].
  rewrite (span_digits_dot _ _ (str_of_N_digits (n / 10))).
  pose proof (str_of_N_val (n / 10)) as Hv.
  destruct (str_of_N_cons (n / 10)) as (c & t & E & _). rewrite E in *.
  rewrite (str_of_N_small (n mod 10)) by dlia.
  cbn [N.eqb Pos.eqb andb].
  replace (is_digit (48 + n mod 10)) with true.
  - rewrite Hv. f_equal. dlia.
  - symmetry. unfold is_digit. apply in_range_true; dlia.
Qed.

Lemma tenths_float_laws : PyFloatLaws tenths_float.
Proof.
  constructor; cbn [float float_repr float_of_str f2Q truediv tenths_float].
  - intros z. unfold tenths_repr. rewrite !forallb_app.
    rewrite !(digits_numchars _ (str_of_N_digits _)).
    destruct (z <? 0); reflexivity.
  - intros z. unfold tenths_repr.
    destruct (str_of_N_cons (Z.abs_N z / 10)) as (c & t & E & Hc). rewrite E.
    destruct (z <? 0); cbn [app is_int_token N.eqb Pos.eqb].
    + change (c :: t ++ 46%N :: ?y) with ((c :: t) ++ 46%N :: y).
      apply not_all_digits.
    + rewrite (digit_not_minus c Hc).
      change (c :: t ++ 46%N :: ?y) with ((c :: t) ++ 46%N :: y).
      apply not_all_digits.
  - intros z. unfold tenths_repr.
    destruct (str_of_N_cons (Z.abs_N z / 10)) as (c & t & E & _). rewrite E.
    destruct (z <? 0); discriminate.
  - intros z. unfold tenths_repr, tenths_of_str.
    destruct (Z.ltb_spec z 0) as [Hneg|Hpos].
    + cbn [app N.eqb Pos.eqb]. rewrite tenths_of_body_repr.
      cbn [option_map]. f_equal. lia.
    + cbn [app]. pose proof (tenths_of_body_repr (Z.abs_N z)) as Hb.
      destruct (str_of_N_cons (Z.abs_N z / 10)) as (c & t & E & Hc).
      rewrite E in *. cbn [app] in *. rewrite (digit_not_minus c Hc), Hb.
      cbn [option_map]. f_equal. lia.
  - intros a b Ha Hb. unfold Qle. cbn [Qnum Qden].
    pose proof (Z.quot_pos (10 * a) b ltac:(lia) Hb). lia.
Qed.

(** * The theorems at the sample host *)

Lemma processes_top8_sorted_stable_witness :
  exists s,
    collect sample_os sample_self = Ok sample_report /\ info sample_report = Some s
    /\ (length (s_processes s) <= 8)%nat
    /\ StronglySorted mem_ge (s_processes s)
    /\ (exists sorted,
          Permutation sorted (flat_map proc_entry (process_iter sample_os))
          /\ s_processes s = firstn 8 sorted)
    /\ (forall k : float,
          is_prefix (filter (same_mem k) (s_processes s))
            (filter (same_mem k) (flat_map proc_entry (process_iter sample_os)))).
Proof.
  eexists. split; [reflexivity|]. split; [reflexivity|].
  eapply (processes_top8_sorted_stable sample_os sample_self sample_report);
    reflexivity.
Defined.

(** C2 as stated fails: the collectors do not clamp.  On the busy host the
    snapshot holds a process whose CPU percentage is 250.0. *)
Lemma percentage_above_100_counterexample :
  exists s,
    collect busy_os sample_self = Ok busy_report /\ info busy_report = Some s
    /\ map pi_cpu_percent (s_processes s) = [tenths 2500; tenths 0]
    /\ snapshot_percent_okb s = false.
Proof.
  eexists. split; [reflexivity|]. split; [reflexivity|].
  split; vm_compute; reflexivity.
Defined.

Lemma disks_skip_inaccessible_witness :
  usage_errors_caught sample_os = true
  /\ exists disks,
       _disks sample_os = Ok disks
       /\ map dk_mountpoint disks = [lit "/"; lit "/home"]
       /\ forall d, In d disks -> dk_mountpoint d <> lit "/mnt/vault".
Proof.
  split; [vm_compute; reflexivity|].
  destruct (disks_skip_inaccessible sample_os) as (disks & Hd & Heq & Hskip & _);
    [vm_compute; reflexivity|].
  exists disks. split; [exact Hd|]. split.
  - rewrite Heq. vm_compute. reflexivity.
  - intros d Hin.
    refine (proj2 (Hskip {| part_device := lit "/dev/sdb1";
                            part_mountpoint := lit "/mnt/vault";
                            part_fstype := lit "ext4" |}
                     permission_denied _ eq_refl) d Hin).
    right. left. reflexivity.
Defined.

Lemma renderers_depend_on_snapshot_only_witness :
  collect sample_os sample_self = Ok sample_report
  /\ collect sample_os sample_self_json = Ok sample_report_json
  /\ info sample_report = info sample_report_json
  /\ fmt sample_report <> fmt sample_report_json
  /\ text_report sample_report = text_report sample_report_json
  /\ json_report sample_report = json_report sample_report_json.
Proof.
  split; [reflexivity|]. split; [reflexivity|]. split; [reflexivity|].
  split; [vm_compute; discriminate|].
  destruct (renderers_depend_on_snapshot_only sample_os sample_os
              sample_self sample_self_json sample_report sample_report_json
              eq_refl eq_refl eq_refl) as (Ht & Hj & _).
  split; [exact Ht | exact Hj].
Defined.

Lemma json_report_round_trip_witness :
  exists s,
    os_text_okb sample_os = true
    /\ collect sample_os (__init__ sample_now (lit "text")) = Ok sample_report
    /\ info sample_report = Some s
    /\ loads (json_report sample_report) = Some (snapshot_json s)
    /\ forall s', loads (json_report sample_report) = Some (snapshot_json s') -> s' = s.
Proof.
  eexists. split; [vm_compute; reflexivity|]. split; [reflexivity|].
  split; [reflexivity|].
  apply (json_report_round_trip (FL := tenths_float_laws) sample_os
           sample_now (lit "text") sample_report);
    [vm_compute; reflexivity | reflexivity | reflexivity].
Defined.


(** C9 as stated fails: the report made at 14:05:09 and saved one second
    later goes to a file named after 14:05:10; the capture time is not in
    the name. *)
Lemma filename_not_capture_time_counterexample :
  collect sample_os (__init__ sample_now (lit "text")) = Ok sample_report
  /\ time sample_report = lit "2024-03-09 14:05:09"
  /\ snd (save sample_later (fun _ => Ok tt) sample_report None)
     = Ok (lit "system_report_20240309_140510.txt")
  /\ contains (strftime_compact sample_now)
       (lit "system_report_20240309_140510.txt") = false
  /\ contains (lit "140509") (lit "system_report_20240309_140510.txt") = false.
Proof.
  split; [reflexivity|]. split; [vm_compute; reflexivity|].
  split; [vm_compute; reflexivity|]. split; vm_compute; reflexivity.
Defined.

(** ** The sample report, line by line *)

Example sample_user_lines :
  exists s, info sample_report = Some s
    /\ users_lines (s_users s)
       = [ NL ++ lit "АКТИВНЫЕ ПОЛЬЗОВАТЕЛИ:";
           times 45%N 40;
           lit "alice с 10.0.0.7 (с 09:06:25)";
           lit "bob с localhost (с 01:01:01)" ].
Proof. eexists. split; [reflexivity | vm_compute; reflexivity]. Qed.

Example sample_interface_lines :
  exists s, info sample_report = Some s
    /\ map (fun ki => length (if_ip_addresses (snd ki))) (net_interfaces (s_network s))
       = [2; 3; 0]%nat
    /\ interfaces_lines (net_interfaces (s_network s))
       = [ NL ++ lit "lo:";
           lit "  MAC: 00:00:00:00:00:00";
           lit "  IPv4: 127.0.0.1/255.0.0.0";
           lit "  IPv6: ::1";
           lit "  Статус: UP, Скорость: N/A";
           NL ++ lit "eth0:";
           lit "  MAC: aa:bb:cc:dd:ee:ff";
           lit "  IPv4: 192.168.1.5/255.255.255.0";
           lit "  IPv6: fe80::1";
           lit "  Статус: UP, Скорость: 1000 Mbps" ].
Proof. eexists. split; [reflexivity | split; vm_compute; reflexivity]. Qed.

Example headless_report_has_no_users_section :
  match collect headless_os sample_self with
  | Ok r =>
      match info r with
      | Some s => users_lines (s_users s) = [] /\ s_sensors s = SensorsNA
      | None => False
      end
  | Raise _ => False
  end.
Proof. vm_compute. split; reflexivity. Qed.

(** * Further properties of the collectors, the renderers and the command
    line *)

Section Further.

Context {F : PyFloat} {FL : PyFloatLaws F}.

(** ** Which processes are reported *)

Lemma strongly_sorted_app {A} (R : A -> A -> Prop) (a b : list A) :
  StronglySorted R (a ++ b) -> forall x y, In x a -> In y b -> R x y.
Proof.
  induction a as [|h a IH]; cbn [app]; intros Hs x y Hx Hy; [destruct Hx|].
  inversion Hs as [|? ? Hs' Hall]; subst. destruct Hx as [<-|Hx].
  - rewrite Forall_forall in Hall. apply Hall. apply in_or_app. now right.
  - now apply IH.
Qed.

(** X1: the processes reported are the largest: what is enumerated is the
    reported list together with a remainder, every reported process has at
    least the memory percentage of every process of the remainder, nothing is
    left out when at most 8 are enumerated, and exactly 8 are reported
    otherwise. *)
Theorem reported_processes_are_the_largest (os : OS) (procs : list proc_info) :
  _processes os = Ok procs ->
  exists rest,
    Permutation (procs ++ rest) (flat_map proc_entry (process_iter os))
    /\ (forall p q, In p procs -> In q rest -> mem_ge p q)
    /\ ((length (flat_map proc_entry (process_iter os)) <= 8)%nat -> rest = [])
    /\ ((8 < length (flat_map proc_entry (process_iter os)))%nat ->
        length procs = 8%nat).
Proof.
  intros H. apply _processes_ok in H. subst procs.
  set (enum := flat_map proc_entry (process_iter os)).
  set (sorted := sort_desc pi_memory_percent enum).
  assert (Hlen : length sorted = length enum)
    by apply Permutation_length, sort_desc_perm.
  exists (skipn 8 sorted). split; [|split; [|split]].
  - rewrite firstn_skipn. apply sort_desc_perm.
  - apply strongly_sorted_app. rewrite firstn_skipn. apply sort_desc_sorted.
  - intros Hle. apply skipn_all2. lia.
  - intros Hgt. apply firstn_length_le. lia.
Qed.

(** ** Errors the loops do not catch *)

Lemma processes_loop_app (ps qs : list process) (acc : list proc_info) :
  processes_loop (ps ++ qs) acc
  = match processes_loop ps acc with
    | Ok acc' => processes_loop qs acc'
    | Raise e => Raise e
    end.
Proof.
  revert acc. induction ps as [|p ps IH]; intros acc; cbn [app processes_loop];
    [reflexivity|].
  destruct (proc_rss p) as [rss|e]; [apply IH|].
  destruct (catches _ e); [apply IH | reflexivity].
Qed.

Lemma processes_loop_total (ps : list process) (acc : list proc_info) :
  forallb process_skippable ps = true ->
  processes_loop ps acc = Ok (acc ++ flat_map proc_entry ps).
Proof.
  revert acc. induction ps as [|p ps IH]; intros acc H;
    cbn [processes_loop flat_map forallb] in *.
  - now rewrite app_nil_r.
  - apply andb_true_iff in H. destruct H as [Hp Hrest].
    unfold process_skippable in Hp. unfold proc_entry at 1.
    destruct (proc_rss p) as [rss|e].
    + rewrite (IH _ Hrest), <- app_assoc. reflexivity.
    + rewrite Hp. apply (IH _ Hrest).
Qed.

(** X2: [_processes] returns a list whenever every failing lookup fails
    with [NoSuchProcess] or [AccessDenied]; a lookup that fails otherwise
    makes it raise that very error, whatever comes after it, once the
    processes before it were read or skipped. *)
Theorem processes_skip_or_raise (os : OS) :
  (forallb process_skippable (process_iter os) = true ->
   exists procs, _processes os = Ok procs)
  /\ (forall before p after e,
        process_iter os = before ++ p :: after ->
        forallb process_skippable before = true ->
        proc_rss p = Raise e ->
        catches [NoSuchProcess; AccessDenied] e = false ->
        _processes os = Raise e).
Proof.
  split.
  - intros H. unfold _processes, bind.
    rewrite (processes_loop_total _ [] H). eexists. reflexivity.
  - intros before p after e Hsplit Hb Hp Hc. unfold _processes, bind.
    rewrite Hsplit, processes_loop_app, (processes_loop_total _ [] Hb).
    cbn [processes_loop]. now rewrite Hp, Hc.
Qed.

Lemma disks_loop_app (os : OS) (ps qs : list sdiskpart) (acc : list disk_info) :
  disks_loop os (ps ++ qs) acc
  = match disks_loop os ps acc with
    | Ok acc' => disks_loop os qs acc'
    | Raise e => Raise e
    end.
Proof.
  revert acc. induction ps as [|p ps IH]; intros acc; cbn [app disks_loop];
    [reflexivity|].
  destruct (disk_usage os (part_mountpoint p)) as [use|e]; [apply IH|].
  destruct (catches _ e); [apply IH | reflexivity].
Qed.

(** X3: a usage lookup that fails with an error other than
    [PermissionError] and [OSError] is not skipped: [_disks] raises that error,
    and with it [collect] does when the platform was read. *)
Theorem disks_other_error_aborts
  (os : OS) (self : SystemReport) (before after : list sdiskpart)
  (part : sdiskpart) (e : exn) :
  disk_partitions os = before ++ part :: after ->
  forallb (partition_skippable os) before = true ->
  disk_usage os (part_mountpoint part) = Raise e ->
  catches [PermissionError; OSError] e = false ->
  _disks os = Raise e
  /\ forall ip, gethostbyname os (gethostname os) = Ok ip -> collect os self = Raise e.
Proof.
  intros Hsplit Hb Hp Hc.
  assert (Hd : _disks os = Raise e).
  { unfold _disks. rewrite Hsplit, disks_loop_app.
    rewrite (disks_loop_total os before [] Hb). cbn [disks_loop].
    now rewrite Hp, Hc. }
  split; [exact Hd|].
  intros ip Hip. unfold collect, _platform, bind. now rewrite Hip, Hd.
Qed.

(** ** The I/O counters are an enrichment only *)

Lemma disks_loop_io_independent (os os' : OS) (parts : list sdiskpart)
  (acc acc' : list disk_info) :
  (forall m, disk_usage os m = disk_usage os' m) ->
  map without_io acc = map without_io acc' ->
  result_rel (fun d d' => map without_io d = map without_io d')
    (disks_loop os parts acc) (disks_loop os' parts acc').
Proof.
  intros Hu. revert acc acc'. induction parts as [|part parts IH]; intros acc acc' Ha;
    cbn [disks_loop].
  - exact Ha.
  - rewrite <- Hu. destruct (disk_usage os (part_mountpoint part)) as [use|e].
    + apply IH. rewrite !map_app, Ha. reflexivity.
    + destruct (catches _ e); [now apply IH | reflexivity].
Qed.

(** X4: whatever the query of the I/O counters does (answer, answer
    nothing, raise any error), [_disks] fails or succeeds alike and lists the
    same partitions with the same figures; only the optional counters of a
    record can differ. *)
Theorem disks_listing_independent_of_io (os os' : OS) :
  disk_partitions os = disk_partitions os' ->
  (forall m, disk_usage os m = disk_usage os' m) ->
  result_rel (fun d d' => map without_io d = map without_io d'
                          /\ length d = length d')
    (_disks os) (_disks os').
Proof.
  intros Hp Hu. unfold _disks. rewrite <- Hp.
  pose proof (disks_loop_io_independent os os' (disk_partitions os) [] [] Hu eq_refl) as H.
  destruct (disks_loop os (disk_partitions os) []) as [d|e];
    destruct (disks_loop os' (disk_partitions os) []) as [d'|e']; cbn in *;
    try assumption.
  split; [exact H|]. apply (f_equal (@length _)) in H. now rewrite !length_map in H.
Qed.

(** ** The table of interfaces *)

Lemma dict_get_set_same {V} (d : list (str * V)) (k : str) (v : V) :
  dict_get (dict_set d k v) k = Some v.
Proof.
  induction d as [|[k0 v0] d IH]; cbn [dict_set dict_get].
  - now rewrite str_eqb_refl.
  - destruct (str_eqb k0 k) eqn:E; cbn [dict_get]; rewrite E; [reflexivity | exact IH].
Qed.

Lemma dict_get_set_other {V} (d : list (str * V)) (k k' : str) (v : V) :
  k' <> k -> dict_get (dict_set d k v) k' = dict_get d k'.
Proof.
  intros Hne. induction d as [|[k0 v0] d IH]; cbn [dict_set dict_get].
  - destruct (str_eqb k k') eqn:E; [|reflexivity].
    apply str_eqb_eq in E. congruence.
  - destruct (str_eqb k0 k) eqn:E; cbn [dict_get].
    + apply str_eqb_eq in E. subst k0.
      destruct (str_eqb k k') eqn:E'; [|reflexivity].
      apply str_eqb_eq in E'. congruence.
    + destruct (str_eqb k0 k'); [reflexivity | exact IH].
Qed.

Lemma interfaces_loop_distinct (os : OS) (items : list (str * list snicaddr))
  (acc : list (str * iface_info)) :
  distinct (map fst acc ++ map fst items) = true ->
  interfaces_loop os items acc
  = acc ++ map (fun ka => (fst ka, iface_entry os (fst ka) (snd ka))) items.
Proof.
  revert acc. induction items as [|[k addrs] items IH]; intros acc Hd;
    cbn [interfaces_loop map fst snd].
  - now rewrite app_nil_r.
  - assert (Hk : existsb (str_eqb k) (map fst acc) = false).
    { clear IH. induction acc as [|[k0 v0] acc IHa]; [reflexivity|].
      cbn [map fst app distinct existsb] in *.
      apply andb_true_iff in Hd. destruct Hd as [H0 Hrest].
      rewrite (IHa Hrest), orb_false_r.
      apply negb_true_iff in H0. rewrite existsb_app in H0.
      apply orb_false_iff in H0. destruct H0 as [_ H0].
      cbn [existsb] in H0. apply orb_false_iff in H0. destruct H0 as [H0 _].
      destruct (str_eqb k k0) eqn:E; [|reflexivity].
      apply str_eqb_eq in E. subst. now rewrite str_eqb_refl in H0. }
    rewrite (dict_set_fresh acc k _ Hk), IH.
    + now rewrite <- app_assoc.
    + rewrite map_app. cbn [map fst]. now rewrite <- app_assoc.
Qed.

Lemma dict_get_map_entry (os : OS) (items : list (str * list snicaddr)) (k : str) :
  dict_get (map (fun ka => (fst ka, iface_entry os (fst ka) (snd ka))) items) k
  = option_map (iface_entry os k) (dict_get items k).
Proof.
  induction items as [|[k0 addrs] items IH]; cbn [map dict_get fst snd]; [reflexivity|].
  destruct (str_eqb k0 k) eqn:E; [|exact IH].
  apply str_eqb_eq in E. now subst.
Qed.

Lemma last_cons {A} (x d : A) (l : list A) : last (x :: l) d = last l x.
Proof.
  revert x d. induction l as [|y l IH]; intros x d; [reflexivity|].
  change (last (x :: y :: l) d) with (last (y :: l) d). now rewrite !IH.
Qed.

Lemma addrs_loop_mac (addrs : list snicaddr) (ips : list str) (mac : option str) :
  snd (addrs_loop addrs ips mac)
  = last (map (fun a => Some (addr_address a)) (filter is_link addrs)) mac.
Proof.
  revert ips mac. induction addrs as [|a addrs IH]; intros ips mac;
    cbn [addrs_loop filter]; [reflexivity|].
  unfold is_link at 1. destruct (addr_family a); rewrite IH; try reflexivity.
  cbn [map]. now rewrite last_cons.
Qed.

(** X5: the interfaces of the snapshot are those of the address table, in
    its order (the table is a dictionary: its names are distinct).  Looking
    a name up in the snapshot gives the entry made from its addresses: all
    its IPv4 and IPv6 addresses, the last link-layer address listed as MAC,
    and statistics exactly when the statistics table knows the name. *)
Theorem interfaces_follow_address_table (os : OS) :
  distinct (map fst (net_if_addrs os)) = true ->
  map fst (net_interfaces (_network os)) = map fst (net_if_addrs os)
  /\ (forall k,
        dict_get (net_interfaces (_network os)) k
        = option_map (iface_entry os k) (dict_get (net_if_addrs os) k))
  /\ (forall k addrs,
        if_ip_addresses (iface_entry os k addrs) = map ip_text (filter is_ip addrs)
        /\ if_mac (iface_entry os k addrs) = last_link addrs
        /\ (if_stats (iface_entry os k addrs) = None
            <-> dict_get (net_if_stats os) k = None)).
Proof.
  intros Hd.
  assert (Hl : net_interfaces (_network os)
               = map (fun ka => (fst ka, iface_entry os (fst ka) (snd ka)))
                   (net_if_addrs os)).
  { unfold _network. cbn [net_interfaces].
    now rewrite (interfaces_loop_distinct os (net_if_addrs os) []). }
  split; [|split].
  - rewrite Hl, map_map. reflexivity.
  - intros k. rewrite Hl. apply dict_get_map_entry.
  - intros k addrs. unfold iface_entry, last_link.
    pose proof (addrs_loop_spec addrs [] None) as Hip.
    pose proof (addrs_loop_mac addrs [] None) as Hmac.
    destruct (addrs_loop addrs [] None) as [ips mac]. cbn [fst snd] in *.
    cbn [if_ip_addresses if_mac if_stats].
    split; [exact Hip|]. split; [exact Hmac|].
    destruct (dict_get (net_if_stats os) k); split; congruence.
Qed.

(** ** Collecting again *)

(** X6: [collect] builds the snapshot anew from the answers of the
    operating system and keeps nothing of an earlier one; the time of the
    snapshot stays the time at which the report object was made, however late
    [collect] is called again. *)
Theorem collect_again (os1 os2 : OS) (self r1 : SystemReport) :
  collect os1 self = Ok r1 ->
  collect os2 r1 = collect os2 self
  /\ forall r2 s2, collect os2 r1 = Ok r2 -> info r2 = Some s2 ->
       s_time s2 = time self /\ time r2 = time self /\ fmt r2 = fmt self.
Proof.
  intros H1. destruct (collect_time _ _ _ H1) as (s1 & _ & _ & Hf).
  apply collect_inv in H1.
  destruct H1 as (? & ? & ? & ? & _ & _ & _ & _ & _ & Ht & _).
  assert (Heq : collect os2 r1 = collect os2 self).
  { unfold collect. now rewrite Hf, Ht. }
  split; [exact Heq|].
  intros r2 s2 H2 Hi. rewrite Heq in H2.
  apply collect_inv in H2.
  destruct H2 as (? & ? & ? & ? & _ & _ & _ & _ & Hf2 & Ht2 & Hi2).
  rewrite Hi2 in Hi. injection Hi as <-. now repeat split.
Qed.

(** ** What [main] prints and writes *)

Lemma save_cases (now : datetime) (open_w : str -> result unit)
  (self : SystemReport) (fname : option str) (content : str) :
  rendered_as (fmt self) self = Ok content ->
  save now open_w self fname
  = match open_w (save_name now (fmt self) fname) with
    | Ok _ =>
        match utf8_error content with
        | None => ([WriteFile (save_name now (fmt self) fname) content],
                   Ok (save_name now (fmt self) fname))
        | Some e => ([WriteFile (save_name now (fmt self) fname) []], Raise e)
        end
    | Raise e => ([], Raise e)
    end.
Proof.
  intros Hr. unfold save, save_name, extension_of, io_bind, io_lift.
  unfold rendered_as in Hr. rewrite Hr.
  destruct (open_w _) as [[]|e]; [destruct (utf8_error content)|]; reflexivity.
Qed.





(** X8: errors outside the per-item handlers are fatal.  When the host
    name cannot be resolved, or when the sensor query raises anything but
    [AttributeError] while every other collector succeeds, [collect] raises
    that error and [main], whatever the flags, prints the error line and
    nothing else: no report, no file. *)
Theorem fatal_collector_errors (w : World) (a : args) (e : exn) :
  (gethostbyname (w_os w) (gethostname (w_os w)) = Raise e ->
   (forall self, collect (w_os w) self = Raise e) /\ main w a = [error_line e])
  /\ (forall ip,
        gethostbyname (w_os w) (gethostname (w_os w)) = Ok ip ->
        usage_errors_caught (w_os w) = true ->
        forallb process_skippable (process_iter (w_os w)) = true ->
        sensors_temperatures (w_os w) = Raise e ->
        catches [AttributeError] e = false ->
        (forall self, collect (w_os w) self = Raise e) /\ main w a = [error_line e]).
Proof.
  assert (Hmain : (forall self, collect (w_os w) self = Raise e) ->
                  main w a = [error_line e]).
  { intros Hc. unfold main, main_body. now rewrite Hc. }
  split.
  - intros Hip.
    assert (Hc : forall self, collect (w_os w) self = Raise e).
    { intros self. unfold collect, _platform, bind. now rewrite Hip. }
    split; [exact Hc | now apply Hmain].
  - intros ip Hip Hd Hp Hs Hcatch.
    assert (Hc : forall self, collect (w_os w) self = Raise e).
    { intros self. unfold collect, _platform, _disks, _processes, _sensors, bind.
      rewrite Hip, (disks_loop_total (w_os w) _ [] Hd),
        (processes_loop_total _ [] Hp), Hs, Hcatch. reflexivity. }
    split; [exact Hc | now apply Hmain].
Qed.


(** ** Reports that were never collected *)

(** X10: on a report object that was never collected the text renderer
    raises [KeyError] and [save] in a text format writes no file, whatever
    name it is given; the JSON renderer gives the empty object, which [save]
    does write. *)
Theorem uncollected_report (now0 now : datetime) (fmt0 : str)
  (open_w : str -> result unit) (fname : option str) :
  text_report (__init__ now0 fmt0) = Raise (key_error "platform")
  /\ json_report (__init__ now0 fmt0) = lit "{}"
  /\ loads (json_report (__init__ now0 fmt0)) = Some (JObj [])
  /\ (fmt0 <> lit "json" ->
      save now open_w (__init__ now0 fmt0) fname = ([], Raise (key_error "platform")))
  /\ (fmt0 = lit "json" -> open_w (save_name now fmt0 fname) = Ok tt ->
      save now open_w (__init__ now0 fmt0) fname
      = ([WriteFile (save_name now fmt0 fname) (lit "{}")],
         Ok (save_name now fmt0 fname))).
Proof.
  split; [reflexivity|]. split; [reflexivity|]. split; [reflexivity|]. split.
  - intros Hne. unfold save, io_bind, io_lift. cbn [fmt __init__].
    destruct (str_eqb fmt0 (lit "json")) eqn:E; [|reflexivity].
    apply str_eqb_eq in E. contradiction.
  - intros -> Ho.
    rewrite (save_cases now open_w (__init__ now0 (lit "json")) fname (lit "{}") eq_refl).
    cbn [fmt __init__]. now rewrite Ho.
Qed.

(** ** Widths of numbers and timestamps *)

Lemma digits_fuel_width (fuel : nat) (n : N) (w : nat) :
  (n < 10 ^ N.of_nat (S w))%N -> (length (digits_fuel fuel n) <= S w)%nat.
Proof.
  revert n w. induction fuel as [|f IH]; intros n w H; cbn [digits_fuel];
    [cbn; lia|].
  destruct (N.ltb_spec n 10) as [Hlt|Hge]; [cbn; lia|].
  rewrite length_app. cbn [length].
  destruct w as [|w]; [cbn in H; lia|].
  assert (Hdiv : (n / 10 < 10 ^ N.of_nat (S w))%N).
  { rewrite (Nnat.Nat2N.inj_succ (S w)), N.pow_succ_r' in H.
    revert H. generalize (10 ^ N.of_nat (S w))%N. intros p H. dlia. }
  specialize (IH _ _ Hdiv). lia.
Qed.

Lemma zpad_length (w : nat) (n : N) :
  (n < 10 ^ N.of_nat (S w))%N -> length (zpad (S w) n) = S w.
Proof.
  intros H. unfold zpad. rewrite length_app, repeat_length.
  pose proof (digits_fuel_width (S (N.to_nat (N.log2 n))) n w H) as Hl.
  fold (str_of_N n) in Hl. lia.
Qed.

Lemma digits_val_zeros (k : nat) (s : str) :
  digits_val 0 (repeat 48%N k ++ s) = digits_val 0 s.
Proof. induction k as [|k IH]; [reflexivity | exact IH]. Qed.

Lemma zpad_val (w : nat) (n : N) : digits_val 0 (zpad w n) = n.
Proof. unfold zpad. now rewrite digits_val_zeros, str_of_N_val. Qed.

Lemma zpad_inj (w : nat) (n m : N) : zpad w n = zpad w m -> n = m.
Proof. intros H. apply (f_equal (digits_val 0)) in H. now rewrite !zpad_val in H. Qed.

Lemma app_inj_length {A} (a a' b b' : list A) :
  length a = length a' -> a ++ b = a' ++ b' -> a = a' /\ b = b'.
Proof.
  revert a'. induction a as [|x a IH]; intros [|x' a'] Hl H; try discriminate.
  - now split.
  - cbn [app] in H. injection H as -> H. cbn [length] in Hl.
    destruct (IH a' ltac:(lia) H) as [-> ->]. now split.
Qed.

Lemma valid_datetime_widths (d : datetime) :
  valid_datetime d = true ->
  length (zpad 4 (year d)) = 4%nat /\ length (zpad 2 (month d)) = 2%nat
  /\ length (zpad 2 (day d)) = 2%nat /\ length (zpad 2 (hour d)) = 2%nat
  /\ length (zpad 2 (minute d)) = 2%nat /\ length (zpad 2 (second d)) = 2%nat.
Proof.
  unfold valid_datetime. intros H. repeat rewrite andb_true_iff in H.
  destruct H as [[[[[[[[H1 H2] H3] H4] H5] H6] H7] H8] H9].
  apply N.leb_le in H2, H4, H6. apply N.ltb_lt in H7, H8, H9.
  repeat split; apply zpad_length; cbn; lia.
Qed.

(** X11: for a [datetime] object of a four-digit year the stamps have a fixed
    width (8 characters for HH:MM:SS, 19 for the time of the report and of
    the boot, 15 in a file name), and the stamp of a file name determines the
    clock reading: default file names made at different seconds differ, so
    that one report does not overwrite another. *)
Theorem timestamps_fixed_width_and_distinct (d1 d2 : datetime) (f1 f2 : str) :
  valid_datetime d1 = true -> valid_datetime d2 = true ->
  length (strftime_HMS d1) = 8%nat
  /\ length (strftime_full d1) = 19%nat
  /\ length (strftime_compact d1) = 15%nat
  /\ (strftime_compact d1 = strftime_compact d2 -> d1 = d2)
  /\ (save_name d1 f1 None = save_name d2 f2 None ->
      d1 = d2 /\ extension_of f1 = extension_of f2).
Proof.
  intros V1 V2.
  destruct (valid_datetime_widths d1 V1) as (Y1 & M1 & D1 & h1 & m1 & s1).
  destruct (valid_datetime_widths d2 V2) as (Y2 & M2 & D2 & h2 & m2 & s2).
  assert (Hhms : length (strftime_HMS d1) = 8%nat).
  { unfold strftime_HMS. rewrite !length_app, h1, m1, s1. reflexivity. }
  assert (Hc1 : length (strftime_compact d1) = 15%nat).
  { unfold strftime_compact. rewrite !length_app, Y1, M1, D1, h1, m1, s1. reflexivity. }
  assert (Hc2 : length (strftime_compact d2) = 15%nat).
  { unfold strftime_compact. rewrite !length_app, Y2, M2, D2, h2, m2, s2. reflexivity. }
  assert (Hinj : strftime_compact d1 = strftime_compact d2 -> d1 = d2).
  { unfold strftime_compact. intros H.
    apply app_inj_length in H; [|congruence]. destruct H as [Hy H].
    apply app_inj_length in H; [|congruence]. destruct H as [Hm H].
    apply app_inj_length in H; [|congruence]. destruct H as [Hd H].
    apply app_inj_length in H; [|reflexivity]. destruct H as [_ H].
    apply app_inj_length in H; [|congruence]. destruct H as [Hh H].
    apply app_inj_length in H; [|congruence]. destruct H as [Hmi Hs].
    apply zpad_inj in Hy, Hm, Hd, Hh, Hmi, Hs.
    destruct d1, d2. cbn in *. congruence. }
  split; [exact Hhms|]. split.
  { unfold strftime_full. rewrite !length_app, Y1, M1, D1, Hhms. reflexivity. }
  split; [exact Hc1|]. split; [exact Hinj|].
  unfold save_name. cbn [truthy_optstr]. rewrite <- !app_assoc. intros H.
  apply app_inj_length in H; [|reflexivity]. destruct H as [_ H].
  apply app_inj_length in H; [|congruence]. destruct H as [Hd He].
  split; [now apply Hinj | exact He].
Qed.

(** ** Rounding and the formatted figures *)

Lemma round_half_even_bounds (x : Q) :
  (inject_Z (round_half_even x) - (1 # 2) <= x
   /\ x <= inject_Z (round_half_even x) + (1 # 2))%Q.
Proof.
  unfold round_half_even.
  pose proof (Qfloor_le x) as Hlo. pose proof (Qlt_floor x) as Hhi.
  rewrite inject_Z_plus in Hhi. change (inject_Z 1) with 1%Q in Hhi.
  destruct (Qcompare (x - inject_Z (Qfloor x)) (1 # 2)) eqn:E.
  - apply Qeq_alt in E.
    destruct (Z.even (Qfloor x)); [|rewrite inject_Z_plus; change (inject_Z 1) with 1%Q];
      split; lra.
  - apply Qlt_alt in E. split; lra.
  - apply Qgt_alt in E. rewrite inject_Z_plus. change (inject_Z 1) with 1%Q.
    split; lra.
Qed.

Lemma round_half_even_nonneg (x : Q) : (0 <= x)%Q -> 0 <= round_half_even x.
Proof.
  intros H. destruct (round_half_even_bounds x) as [_ Hhi].
  destruct (Z.le_gt_cases 0 (round_half_even x)) as [|Hneg]; [assumption|].
  assert (Hq : (inject_Z (round_half_even x) <= inject_Z (-1))%Q)
    by (rewrite <- Zle_Qle; lia).
  change (inject_Z (-1)) with (-1 # 1)%Q in Hq. lra.
Qed.

Lemma round_half_even_le (x : Q) (n : Z) :
  (x <= inject_Z n)%Q -> round_half_even x <= n.
Proof.
  intros H. destruct (round_half_even_bounds x) as [Hlo _].
  destruct (Z.le_gt_cases (round_half_even x) n) as [|Hgt]; [assumption|].
  assert (Hq : (inject_Z (n + 1) <= inject_Z (round_half_even x))%Q)
    by (rewrite <- Zle_Qle; lia).
  rewrite inject_Z_plus in Hq. change (inject_Z 1) with 1%Q in Hq. lra.
Qed.

(** X12: what [format(x, '.1f')] writes is within 0.05 of [x]: the text is
    a minus sign if [x] is negative, the digits of an integer part, a point
    and one digit, and the number these digits denote differs from the
    magnitude of [x] by at most one twentieth. *)
Theorem one_decimal_is_accurate (q : Q) :
  exists a b : N,
    format_fixed_Q 1 q
    = (if Qneg q then [45%N] else []) ++ str_of_N a ++ [46%N] ++ str_of_N b
    /\ (b < 10)%N
    /\ length (str_of_N b) = 1%nat
    /\ (Qabs (inject_Z (Z.of_N a) + inject_Z (Z.of_N b) * (1 # 10) - Qabs q)
        <= 1 # 20)%Q.
Proof.
  set (n := round_half_even (Qabs q * inject_Z 10)).
  assert (Hn : 0 <= n).
  { apply round_half_even_nonneg. pose proof (Qabs_nonneg q).
    change (inject_Z 10) with (10 # 1)%Q. nra. }
  exists (Z.to_N (n / 10)), (Z.to_N (n mod 10)).
  assert (Hb : (Z.to_N (n mod 10) < 10)%N) by dlia.
  split; [|split; [exact Hb|split]].
  - unfold format_fixed_Q. change (10 ^ Z.of_nat 1) with 10. fold n.
    unfold zpad. rewrite (str_of_N_small _ Hb). reflexivity.
  - now rewrite (str_of_N_small _ Hb).
  - rewrite !Z2N.id by dlia.
    destruct (round_half_even_bounds (Qabs q * inject_Z 10)) as [Hlo Hhi]. fold n in Hlo, Hhi.
    assert (Hsplit : (inject_Z n == inject_Z (n / 10) * inject_Z 10 + inject_Z (n mod 10))%Q).
    { rewrite <- inject_Z_mult, <- inject_Z_plus.
      rewrite (Z.div_mod n 10) at 1 by lia. now rewrite Z.mul_comm. }
    change (inject_Z 10) with (10 # 1)%Q in *.
    apply Qabs_Qle_condition. split; lra.
Qed.

(** ** The process table is aligned *)

Lemma rjust_length (w : nat) (s : str) :
  (length s <= w)%nat -> length (rjust w s) = w.
Proof. intros H. unfold rjust. rewrite length_app, repeat_length. lia. Qed.

Lemma ljust_length (w : nat) (s : str) :
  (length s <= w)%nat -> length (ljust w s) = w.
Proof. intros H. unfold ljust. rewrite length_app, repeat_length. lia. Qed.

Lemma str_of_N_width (n : N) (w : nat) :
  (n < 10 ^ N.of_nat (S w))%N -> (length (str_of_N n) <= S w)%nat.
Proof. apply digits_fuel_width. Qed.

Lemma one_decimal_width (q : Q) :
  (0 <= q)%Q -> (q <= 999)%Q -> (length (format_fixed_Q 1 q) <= 5)%nat.
Proof.
  intros H0 H1. unfold format_fixed_Q. rewrite (Qneg_nonneg q H0).
  change (10 ^ Z.of_nat 1) with 10.
  set (n := round_half_even (Qabs q * inject_Z 10)).
  assert (Habs : (Qabs q == q)%Q) by now apply Qabs_pos.
  assert (Hn0 : 0 <= n).
  { apply round_half_even_nonneg. change (inject_Z 10) with (10 # 1)%Q. lra. }
  assert (Hn1 : n <= 9990).
  { apply round_half_even_le. change (inject_Z 10) with (10 # 1)%Q.
    change (inject_Z 9990) with (9990 # 1)%Q. lra. }
  cbn [app]. rewrite length_app. cbn [length].
  pose proof (str_of_N_width (Z.to_N (n / 10)) 2 ltac:(cbn; dlia)).
  rewrite (zpad_length 0 (Z.to_N (n mod 10))) by (cbn; dlia). lia.
Qed.

Lemma enumerate_index {A} (start : N) (l : list A) (i : N) (x : A) :
  In (i, x) (enumerate start l) -> (start <= i < start + N.of_nat (length l))%N.
Proof.
  revert start. induction l as [|y l IH]; intros start; cbn [enumerate length];
    [intros []|].
  intros [[= <- <-]|H]; [lia|]. specialize (IH _ H). lia.
Qed.

Lemma enumerate_snd {A} (start : N) (l : list A) (i : N) (x : A) :
  In (i, x) (enumerate start l) -> In x l.
Proof.
  revert start. induction l as [|y l IH]; intros start; cbn [enumerate];
    [intros []|].
  intros [[= <- <-]|H]; [now left | right; eapply IH; eauto].
Qed.

(** X13: the process table is aligned.  For at most 9 processes whose PID
    has at most six digits and whose percentages lie between 0 and 999, every
    line of the table has 56 characters: the name is cut or padded to exactly
    20, whatever its length. *)
Theorem process_table_aligned (procs : list proc_info) :
  (length procs <= 9)%nat -> forallb fits_columns procs = true ->
  (forall name, length (ljust 20 (firstn 20 name)) = 20%nat)
  /\ Forall (fun line => length line = 56%nat)
       (map (fun ip => proc_line (fst ip) (snd ip)) (enumerate 1%N procs)).
Proof.
  intros Hlen Hfit.
  assert (Hname : forall name, length (ljust 20 (firstn 20 name)) = 20%nat).
  { intros name. apply ljust_length. apply firstn_le_length. }
  split; [exact Hname|].
  apply Forall_forall. intros line Hin. apply in_map_iff in Hin.
  destruct Hin as ([i p] & <- & Hin). cbn [fst snd].
  pose proof (enumerate_index _ _ _ _ Hin) as Hi.
  apply enumerate_snd in Hin. rewrite forallb_forall in Hfit.
  specialize (Hfit _ Hin). unfold fits_columns in Hfit.
  repeat rewrite andb_true_iff in Hfit.
  destruct Hfit as [[[[[Hp0 Hp1] Hc0] Hc1] Hm0] Hm1].
  apply Z.leb_le in Hp0. apply Z.ltb_lt in Hp1.
  apply Qle_bool_iff in Hc0, Hc1, Hm0, Hm1.
  unfold proc_line, format_fixed. rewrite !length_app, Hname.
  rewrite (str_of_N_small i) by lia.
  rewrite (rjust_length 6).
  2:{ unfold str_of_Z. destruct (Z.ltb_spec (pi_pid p) 0); [lia|].
      apply (str_of_N_width _ 5). cbn. lia. }
  rewrite !(rjust_length 5) by (apply one_decimal_width; assumption).
  reflexivity.
Qed.

(** ** The JSON report is plain ASCII *)

Lemma forallb_weaken {A} (p q : A -> bool) (l : list A) :
  (forall x, p x = true -> q x = true) -> forallb p l = true -> forallb q l = true.
Proof.
  intros H. rewrite !forallb_forall. intros Hl x Hx. apply H, Hl, Hx.
Qed.

Lemma is_digit_json_char (c : N) : is_digit c = true -> json_char c = true.
Proof.
  unfold is_digit, json_char. intros H. apply andb_true_iff in H as [H1 H2].
  apply N.leb_le in H1, H2. apply orb_true_iff. right.
  apply andb_true_iff. split; apply N.leb_le; lia.
Qed.

Lemma is_numchar_json_char (c : N) : is_numchar c = true -> json_char c = true.
Proof.
  unfold is_numchar. rewrite !orb_true_iff.
  intros [[[[[H|H]|H]|H]|H]|H]; [now apply is_digit_json_char|..];
    apply N.eqb_eq in H; subst c; reflexivity.
Qed.

Lemma hex_digit_json_char (d : N) : (d < 16)%N -> json_char (hex_digit d) = true.
Proof.
  intros H. unfold hex_digit, json_char. apply orb_true_iff. right.
  destruct (N.ltb_spec d 10); apply andb_true_iff; split; apply N.leb_le; lia.
Qed.

Lemma escape_u_json_char (n : N) : forallb json_char (escape_u n) = true.
Proof.
  unfold escape_u, hex4. cbn [forallb].
  rewrite !hex_digit_json_char by (apply N.mod_upper_bound; discriminate).
  reflexivity.
Qed.

Lemma escape_char_json_char (c : N) : forallb json_char (escape_char c) = true.
Proof.
  unfold escape_char.
  repeat match goal with
         | |- context [if ?b then _ else _] => destruct b eqn:?; [try reflexivity|]
         end.
  - cbn [forallb]. unfold json_char.
    match goal with H : (_ && _)%bool = true |- _ => rewrite H end.
    now rewrite orb_true_r.
  - apply escape_u_json_char.
  - rewrite forallb_app, !escape_u_json_char. reflexivity.
Qed.

Lemma encode_str_json_char (s : str) : forallb json_char (encode_str s) = true.
Proof.
  unfold encode_str. cbn [forallb]. rewrite forallb_app.
  replace (forallb json_char (flat_map escape_char s)) with true; [reflexivity|].
  symmetry. induction s as [|c s IH]; [reflexivity|].
  cbn [flat_map]. now rewrite forallb_app, escape_char_json_char.
Qed.

Lemma nl_indent_json_char (level : nat) : forallb json_char (nl_indent level) = true.
Proof.
  unfold nl_indent. cbn [forallb]. change (json_char 10) with true. cbn [andb].
  induction (2 * level)%nat as [|n IH]; [reflexivity | exact IH].
Qed.

Lemma join_json_char (sep : str) (parts : list str) :
  forallb json_char sep = true ->
  Forall (fun p => forallb json_char p = true) parts ->
  forallb json_char (join sep parts) = true.
Proof.
  intros Hsep. induction 1 as [|p ps Hp Hps IH]; [reflexivity|].
  destruct ps as [|q ps]; [exact Hp|].
  change (join sep (p :: q :: ps)) with (p ++ sep ++ join sep (q :: ps)).
  now rewrite !forallb_app, Hp, Hsep, IH.
Qed.

Lemma str_of_Z_json_char (z : Z) : forallb json_char (str_of_Z z) = true.
Proof.
  unfold str_of_Z. destruct (z <? 0); cbn [forallb];
    rewrite (forallb_weaken _ _ _ is_digit_json_char (str_of_N_digits _));
    reflexivity.
Qed.

Lemma encode_json_char (v : json) (level : nat) :
  forallb json_char (encode level v) = true.
Proof.
  revert level.
  induction v as [ | b | z | x | s | l IHl | m IHm ] using json_induction;
    intros level.
  - reflexivity.
  - destruct b; reflexivity.
  - apply str_of_Z_json_char.
  - cbn [encode]. exact (forallb_weaken _ _ _ is_numchar_json_char (repr_numchars x)).
  - apply encode_str_json_char.
  - destruct l as [|e l]; [reflexivity|].
    cbn [encode]. rewrite !forallb_app, !nl_indent_json_char.
    rewrite join_json_char; [reflexivity | |].
    + unfold item_sep. cbn [forallb]. now rewrite nl_indent_json_char.
    + apply Forall_map. revert IHl. apply Forall_impl. intros a Ha. apply Ha.
  - destruct m as [|e m]; [reflexivity|].
    cbn [encode]. rewrite !forallb_app, !nl_indent_json_char.
    rewrite join_json_char; [reflexivity | |].
    + unfold item_sep. cbn [forallb]. now rewrite nl_indent_json_char.
    + apply Forall_map. revert IHm. apply Forall_impl. intros a Ha.
      now rewrite !forallb_app, encode_str_json_char, Ha.
Qed.

(** X14: the JSON report is plain ASCII.  Whatever characters the names of
    hosts, interfaces, processes and users contain, the text that
    [json_report] returns consists of printable ASCII characters and line
    feeds only, and it is never empty. *)
Theorem json_report_is_ascii (self : SystemReport) :
  forallb json_char (json_report self) = true /\ json_report self <> [].
Proof.
  split; [apply encode_json_char|].
  unfold json_report, dumps, info_json.
  destruct (info self) as [s|]; [|discriminate].
  unfold snapshot_json. cbn [encode]. discriminate.
Qed.
(** ** Texts that UTF-8 encodes *)

Lemma utf8_error_from_encodable (pos : N) (s : str) :
  encodable s = true -> utf8_error_from pos s = None.
Proof.
  unfold encodable. revert pos. induction s as [|c s IH]; intros pos H; [reflexivity|].
  cbn [forallb] in H. apply andb_true_iff in H. destruct H as [Hc Hs].
  apply negb_true_iff in Hc. cbn [utf8_error_from]. rewrite Hc. now apply IH.
Qed.

Lemma json_char_encodable (s : str) : forallb json_char s = true -> encodable s = true.
Proof.
  unfold encodable. apply forallb_weaken. intros c H.
  unfold json_char in H. unfold is_surrogate. apply negb_true_iff.
  apply orb_true_iff in H. destruct H as [H|H].
  - apply N.eqb_eq in H. subst c. reflexivity.
  - apply andb_true_iff in H. destruct H as [H1 H2]. apply N.leb_le in H1, H2.
    apply andb_false_iff. left. apply N.leb_gt. lia.
Qed.

Lemma json_report_encodable (self : SystemReport) : utf8_error (json_report self) = None.
Proof.
  apply utf8_error_from_encodable, json_char_encodable.
  unfold json_report, dumps. apply encode_json_char.
Qed.

Lemma rendered_json_encodable (format : str) (r : SystemReport) (rendered : str) :
  rendered_as format r = Ok rendered -> format = lit "json" ->
  utf8_error rendered = None.
Proof.
  intros Hr ->. unfold rendered_as in Hr. rewrite str_eqb_refl in Hr.
  injection Hr as <-. apply json_report_encodable.
Qed.

Lemma utf8_error_nonempty (s : str) (e : exn) : utf8_error s = Some e -> s <> [].
Proof. intros H ->. discriminate H. Qed.

(** ** Sensors *)

Lemma distinct_app_fresh (ks : list str) (k : str) (rest : list str) :
  distinct (ks ++ k :: rest) = true -> existsb (str_eqb k) ks = false.
Proof.
  induction ks as [|k0 ks IH]; [reflexivity|].
  cbn [app distinct existsb]. intros Hd.
  apply andb_true_iff in Hd. destruct Hd as [H0 Hrest].
  rewrite (IH Hrest), orb_false_r.
  apply negb_true_iff in H0. rewrite existsb_app in H0.
  apply orb_false_iff in H0. destruct H0 as [_ H0].
  cbn [existsb] in H0. apply orb_false_iff in H0. destruct H0 as [H0 _].
  destruct (str_eqb k k0) eqn:E; [|reflexivity].
  apply str_eqb_eq in E. subst. now rewrite str_eqb_refl in H0.
Qed.

Lemma sensors_loop_entries (items : list (str * list shwtemp))
  (acc : list (str * list float)) :
  distinct (map fst acc ++ map fst items) = true ->
  sensors_loop items acc = acc ++ map sensor_entry items.
Proof.
  revert acc. induction items as [|[k entries] items IH]; intros acc Hd;
    cbn [sensors_loop map fst snd].
  - now rewrite app_nil_r.
  - cbn [map fst] in Hd.
    rewrite (dict_set_fresh acc k _ (distinct_app_fresh _ _ _ Hd)), IH.
    + now rewrite <- app_assoc.
    + rewrite map_app. cbn [map fst]. now rewrite <- app_assoc.
Qed.

Lemma not_attribute_error (e : exn) :
  exn_cls e <> AttributeError -> catches [AttributeError] e = false.
Proof.
  unfold catches. cbn [existsb]. destruct (exn_cls e); intros H;
    try reflexivity. contradiction.
Qed.

(** C3, as the collector has it: it returns the placeholder
    [{"info": "N/A"}] exactly when the sensor query is missing
    ([AttributeError]); any other error of the query leaves the collector.
    When the query answers, the result has one entry for each reported group,
    in order (the groups are the keys of a dictionary), holding the current
    temperatures of the first two readings of the group and nothing else; so a
    platform whose query reports no group gets the empty mapping, not the
    placeholder. *)
Theorem sensors_placeholder_or_two_readings (os : OS) :
  (_sensors os = Ok SensorsNA
   <-> exists e, sensors_temperatures os = Raise e /\ exn_cls e = AttributeError)
  /\ sensors_json SensorsNA = JObj [(lit "info", JStr (lit "N/A"))]
  /\ (forall e, sensors_temperatures os = Raise e -> exn_cls e <> AttributeError ->
        _sensors os = Raise e)
  /\ (forall temps, sensors_temperatures os = Ok temps ->
        distinct (map fst temps) = true ->
        _sensors os = Ok (SensorsMap (map sensor_entry temps))
        /\ (forall name entries, In (name, entries) temps ->
              In (name, map temp_current (firstn 2 entries)) (map sensor_entry temps)
              /\ (length (map temp_current (firstn 2 entries)) <= 2)%nat
              /\ length (map temp_current (firstn 2 entries))
                 = Nat.min 2 (length entries)))
  /\ (sensors_temperatures os = Ok [] ->
        _sensors os = Ok (SensorsMap [])
        /\ sensors_json (SensorsMap []) = JObj []
        /\ _sensors os <> Ok SensorsNA).
Proof.
  split; [|split; [reflexivity|split; [|split]]].
  - unfold _sensors. split.
    + destruct (sensors_temperatures os) as [temps|e]; [discriminate|].
      unfold catches. cbn [existsb]. intros H. exists e. split; [reflexivity|].
      destruct (exn_cls e); try discriminate H. reflexivity.
    + intros (e & -> & He). unfold catches. now rewrite He.
  - intros e He Hne. unfold _sensors. now rewrite He, (not_attribute_error e Hne).
  - intros temps Ht Hd. split.
    + unfold _sensors. rewrite Ht. destruct temps as [|g temps]; [reflexivity|].
      now rewrite (sensors_loop_entries (g :: temps) [] Hd).
    + intros name entries Hin. split; [|split].
      * apply in_map_iff. exists (name, entries). split; [reflexivity | exact Hin].
      * rewrite length_map. apply firstn_le_length.
      * now rewrite length_map, length_firstn.
  - intros Ht. unfold _sensors. rewrite Ht. repeat split; discriminate.
Qed.

(** ** The sections of the text report *)

(** C7, as the renderer has it: with no session the text report has no
    users section, its lines pass from the process list to the boot time;
    with at least one session the section is its heading, a separator and
    exactly one line per session, and that line is the name, the letter "с",
    the host and, in brackets, the letter "с" and the login time: the words
    "from" and "since" are not printed.  In a collected report there is one
    such line for each session the system reports, with the login time as
    HH:MM:SS. *)
Theorem users_section_of_text_report (r : SystemReport) (s : snapshot) :
  info r = Some s ->
  (s_users s = [] ->
     text_report r
     = Ok (join NL (lines_before_users (time r) s ++ boot_lines (s_boot s))))
  /\ (s_users s <> [] ->
        text_report r
        = Ok (join NL
                (lines_before_users (time r) s
                 ++ [NL ++ lit "АКТИВНЫЕ ПОЛЬЗОВАТЕЛИ:"; times 45%N 40]
                 ++ map (fun u => us_name u ++ lit " с " ++ us_host u
                                  ++ lit " (с " ++ us_started u ++ lit ")")
                      (s_users s)
                 ++ boot_lines (s_boot s)))
        /\ length (map (fun u => us_name u ++ lit " с " ++ us_host u
                                 ++ lit " (с " ++ us_started u ++ lit ")")
                     (s_users s))
           = length (s_users s))
  /\ (forall os self, collect os self = Ok r ->
        length (s_users s) = length (users os)
        /\ (users os = [] <-> s_users s = [])
        /\ map (fun u => us_name u ++ lit " с " ++ us_host u
                         ++ lit " (с " ++ us_started u ++ lit ")")
             (s_users s)
           = map (session_line os) (users os)
        /\ forall u, In u (s_users s) ->
             exists d, us_started u
                       = zpad 2 (hour d) ++ lit ":" ++ zpad 2 (minute d)
                         ++ lit ":" ++ zpad 2 (second d)).
Proof.
  intros Hi. rewrite (text_report_collected r s Hi), text_lines_sections.
  split; [|split].
  - intros ->. reflexivity.
  - intros Hne. split; [|apply length_map].
    unfold users_lines. destruct (s_users s); [contradiction|].
    cbn [truthy_list]. rewrite <- app_assoc. reflexivity.
  - intros os self Hc. apply collect_inv in Hc.
    destruct Hc as (pl & dk & pr & sn & _ & _ & _ & _ & _ & _ & Hinfo).
    rewrite Hinfo in Hi. injection Hi as <-. cbn [s_users]. unfold _users.
    split; [apply length_map|]. split; [|split].
    + destruct (users os); cbn [map]; split; intros H; try reflexivity;
        discriminate H.
    + rewrite map_map. apply map_ext. intros u.
      unfold session_line, strftime_HMS. cbn [us_name us_host us_started].
      repeat rewrite <- app_assoc. reflexivity.
    + intros u Hin. apply in_map_iff in Hin. destruct Hin as (u0 & <- & _).
      exists (fromtimestamp os (user_started u0)). cbn [us_started].
      unfold strftime_HMS. reflexivity.
Qed.

Lemma flat_map_pair {A B C} (f : A -> B -> list C) (l : list (A * B)) :
  flat_map (fun '(a, b) => f a b) l = flat_map (fun ab => f (fst ab) (snd ab)) l.
Proof. apply flat_map_ext. now intros [a b]. Qed.

(** C10: in the text report, between the network totals and the process
    list, the interfaces of the snapshot contribute each in turn: no line at
    all when its list of IP addresses is empty, and otherwise its name, its
    MAC address if any, one line for each of its first 2 addresses and no
    other address, and its status if known.  The snapshot of a collected
    report has one entry for each interface the system lists, and the entry
    keeps every IPv4 and IPv6 address of the interface, however many. *)
Theorem interfaces_in_text_report (r : SystemReport) (s : snapshot) :
  info r = Some s ->
  text_report r
  = Ok (join NL
          (lines_before_interfaces (time r) s
           ++ flat_map (fun ki => iface_lines (fst ki) (snd ki))
                (net_interfaces (s_network s))
           ++ processes_lines (s_processes s) ++ users_lines (s_users s)
           ++ boot_lines (s_boot s)))
  /\ (forall iface inf, if_ip_addresses inf = [] -> iface_lines iface inf = [])
  /\ (forall iface inf, if_ip_addresses inf <> [] ->
        exists mac_lines stats_lines,
          iface_lines iface inf
          = [NL ++ iface ++ lit ":"] ++ mac_lines
            ++ map (fun ip => lit "  " ++ ip) (firstn 2 (if_ip_addresses inf))
            ++ stats_lines
          /\ mac_lines = (if truthy_optstr (if_mac inf)
                          then [lit "  MAC: " ++ str_of_optstr (if_mac inf)] else [])
          /\ stats_lines = match if_stats inf with
                           | Some st => [lit "  Статус: " ++ st_is_up st ++ lit ", "
                                         ++ lit "Скорость: " ++ st_speed st]
                           | None => []
                           end
          /\ length (firstn 2 (if_ip_addresses inf))
             = Nat.min 2 (length (if_ip_addresses inf)))
  /\ (forall os self, collect os self = Ok r ->
        distinct (map fst (net_if_addrs os)) = true ->
        net_interfaces (s_network s)
        = map (fun ka => (fst ka, iface_entry os (fst ka) (snd ka))) (net_if_addrs os)
        /\ forall iface addrs, In (iface, addrs) (net_if_addrs os) ->
             exists inf,
               In (iface, inf) (net_interfaces (s_network s))
               /\ if_ip_addresses inf = map ip_text (filter is_ip addrs)
               /\ length (if_ip_addresses inf) = length (filter is_ip addrs)).
Proof.
  intros Hi. split; [|split; [|split]].
  - rewrite (text_report_collected r s Hi). do 2 f_equal.
    unfold text_lines, lines_before_interfaces, interfaces_lines.
    rewrite flat_map_pair. repeat rewrite <- app_assoc. reflexivity.
  - intros iface inf H. unfold iface_lines. now rewrite H.
  - intros iface inf H. unfold iface_lines.
    destruct (if_ip_addresses inf) as [|ip ips] eqn:E; [contradiction|].
    cbn [truthy_list]. do 2 eexists. split; [reflexivity|].
    split; [reflexivity|]. split; [reflexivity|]. apply length_firstn.
  - intros os self Hc Hd. apply collect_inv in Hc.
    destruct Hc as (pl & dk & pr & sn & _ & _ & _ & _ & _ & _ & Hinfo).
    rewrite Hinfo in Hi. injection Hi as <-. cbn [s_network _network net_interfaces].
    assert (Hl : interfaces_loop os (net_if_addrs os) []
                 = map (fun ka => (fst ka, iface_entry os (fst ka) (snd ka)))
                     (net_if_addrs os))
      by now rewrite (interfaces_loop_distinct os (net_if_addrs os) []).
    split; [exact Hl|]. intros iface addrs Hin.
    exists (iface_entry os iface addrs).
    assert (Hip : if_ip_addresses (iface_entry os iface addrs)
                  = map ip_text (filter is_ip addrs)).
    { unfold iface_entry. pose proof (addrs_loop_spec addrs [] None) as H.
      destruct (addrs_loop addrs [] None) as [ips mac]. exact H. }
    split; [|split; [exact Hip | now rewrite Hip, length_map]].
    rewrite Hl. apply in_map_iff. exists (iface, addrs). now split.
Qed.

(** ** Saving and printing *)

(** C9, as [save] has it: when no file name is supplied ([None] or the
    empty string) the file [save] opens is [system_report_] followed by the
    date and time read from the clock at the moment of saving, as
    YYYYMMDD_HHMMSS, followed by [.json] when the format is ["json"] and by
    [.txt] otherwise.  When that file can be opened, the report is written
    to it and the name returned if the report can be encoded, as a JSON
    report always can; otherwise the file is left empty and the error of the
    codec is raised. *)
Theorem default_filename_embeds_save_time
  (now : datetime) (open_w : str -> result unit)
  (self : SystemReport) (s : snapshot) (fname : option str) :
  info self = Some s -> truthy_optstr fname = false ->
  open_w (lit "system_report_" ++ strftime_compact now ++ extension_of (fmt self))
  = Ok tt ->
  exists content,
    rendered_as (fmt self) self = Ok content
    /\ (utf8_error content = None ->
        save now open_w self fname
        = ([WriteFile (lit "system_report_" ++ strftime_compact now
                       ++ extension_of (fmt self)) content],
           Ok (lit "system_report_" ++ strftime_compact now
               ++ extension_of (fmt self))))
    /\ (forall e, utf8_error content = Some e ->
        save now open_w self fname
        = ([WriteFile (lit "system_report_" ++ strftime_compact now
                       ++ extension_of (fmt self)) []],
           Raise e))
    /\ (fmt self = lit "json" ->
        extension_of (fmt self) = lit ".json" /\ utf8_error content = None)
    /\ (fmt self <> lit "json" -> extension_of (fmt self) = lit ".txt").
Proof.
  intros Hi Hf Ho.
  destruct (rendered_as_ok (fmt self) self s Hi) as (content & Hc).
  exists content. split; [exact Hc|].
  pose proof (save_cases now open_w self fname content Hc) as Hs.
  unfold save_name in Hs. rewrite Hf, <- app_assoc, Ho in Hs.
  split; [|split; [|split]].
  - intros Hu. now rewrite Hs, Hu.
  - intros e Hu. now rewrite Hs, Hu.
  - intros Hj. split.
    + rewrite Hj. reflexivity.
    + exact (rendered_json_encodable _ _ _ Hc Hj).
  - intros Hne. unfold extension_of.
    destruct (str_eqb (fmt self) (lit "json")) eqn:E; [|reflexivity].
    apply str_eqb_eq in E. contradiction.
Qed.


End Further.

(** * File names and time stamps in order *)











(** * The further theorems at the sample hosts *)

Lemma reported_processes_are_the_largest_witness :
  _processes sample_os = Ok sample_top
  /\ exists rest,
       Permutation (sample_top ++ rest) (flat_map proc_entry (process_iter sample_os))
       /\ (forall p q, In p sample_top -> In q rest -> mem_ge p q)
       /\ ((length (flat_map proc_entry (process_iter sample_os)) <= 8)%nat -> rest = [])
       /\ ((8 < length (flat_map proc_entry (process_iter sample_os)))%nat ->
           length sample_top = 8%nat).
Proof.
  split; [reflexivity|].
  exact (reported_processes_are_the_largest sample_os sample_top eq_refl).
Defined.

Lemma processes_skip_or_raise_witness :
  (forallb process_skippable (process_iter sample_os) = true
   /\ exists procs, _processes sample_os = Ok procs)
  /\ (catches [NoSuchProcess; AccessDenied] out_of_memory = false
      /\ _processes crashing_os = Raise out_of_memory).
Proof.
  split.
  - split; [vm_compute; reflexivity|].
    apply (proj1 (processes_skip_or_raise sample_os)). vm_compute; reflexivity.
  - split; [reflexivity|].
    apply (proj2 (processes_skip_or_raise crashing_os)
             [ mk_process 1 "systemd" 0 1 (Ok 12582912);
               mk_process 500 "kworker" 1 0 (Raise access_denied) ]
             (mk_process 9 "ghost" 0 0 (Raise out_of_memory))
             [ mk_process 702 "bash" 0 3 (Ok 5242880) ]
             out_of_memory);
      reflexivity.
Defined.

Lemma disks_other_error_aborts_witness :
  catches [PermissionError; OSError] out_of_memory = false
  /\ _disks broken_disk_os = Raise out_of_memory
  /\ collect broken_disk_os sample_self = Raise out_of_memory.
Proof.
  split; [reflexivity|].
  destruct (disks_other_error_aborts broken_disk_os sample_self
              (firstn 2 (disk_partitions sample_os)) []
              {| part_device := lit "/dev/sda2"; part_mountpoint := lit "/home";
                 part_fstype := lit "xfs" |}
              out_of_memory eq_refl eq_refl eq_refl eq_refl) as [H1 H2].
  split; [exact H1 | exact (H2 _ eq_refl)].
Defined.

Lemma disks_listing_independent_of_io_witness :
  disk_io_counters sample_os <> disk_io_counters quiet_disk_os
  /\ result_rel
       (fun d d' : list (disk_info (F := tenths_float)) =>
          map without_io d = map without_io d' /\ length d = length d')
       (_disks sample_os) (_disks quiet_disk_os).
Proof.
  split; [discriminate|].
  apply (disks_listing_independent_of_io sample_os quiet_disk_os);
    [reflexivity | intros m; reflexivity].
Defined.

Lemma interfaces_follow_address_table_witness :
  distinct (map fst (net_if_addrs sample_os)) = true
  /\ map fst (net_interfaces (_network sample_os)) = [lit "lo"; lit "eth0"; lit "tun0"]
  /\ dict_get (net_interfaces (_network sample_os)) (lit "tun0")
     = Some (iface_entry sample_os (lit "tun0") [addr_of AF_LINK "12:34:56:78:9a:bc"]).
Proof.
  split; [vm_compute; reflexivity|].
  destruct (interfaces_follow_address_table sample_os) as (H1 & H2 & _);
    [vm_compute; reflexivity|].
  split; [exact H1 | exact (H2 (lit "tun0"))].
Defined.

Lemma collect_again_witness :
  collect sample_os sample_self = Ok sample_report
  /\ collect later_os sample_report = collect later_os sample_self
  /\ collect later_os sample_report = Ok later_report
  /\ time later_report = time sample_self.
Proof.
  split; [reflexivity|].
  destruct (collect_again sample_os later_os sample_self sample_report eq_refl)
    as [H1 H2].
  split; [exact H1|]. split; [reflexivity|].
  exact (proj1 (proj2 (H2 later_report _ eq_refl eq_refl))).
Defined.


Lemma fatal_collector_errors_witness :
  (gethostbyname unnamed_os (gethostname unnamed_os) = Raise unknown_host
   /\ main (world_of unnamed_os (fun _ => Ok tt)) bare_args = [error_line unknown_host])
  /\ (sensors_temperatures broken_sensors_os = Raise io_error
      /\ catches [AttributeError] io_error = false
      /\ main (world_of broken_sensors_os (fun _ => Ok tt)) print_and_save
         = [error_line io_error]).
Proof.
  split.
  - split; [reflexivity|].
    exact (proj2 (proj1 (fatal_collector_errors
                           (world_of unnamed_os (fun _ => Ok tt)) bare_args unknown_host)
                    eq_refl)).
  - split; [reflexivity|]. split; [reflexivity|].
    refine (proj2 (proj2 (fatal_collector_errors
                            (world_of broken_sensors_os (fun _ => Ok tt))
                            print_and_save io_error)
                     (lit "127.0.1.1") eq_refl _ _ eq_refl eq_refl));
      vm_compute; reflexivity.
Defined.


Lemma uncollected_report_witness :
  lit "text" <> lit "json"
  /\ save sample_later (fun _ => Ok tt) (__init__ (F := tenths_float) sample_now (lit "text")) None
     = ([], Raise (key_error "platform"))
  /\ save sample_later (fun _ => Ok tt) (__init__ (F := tenths_float) sample_now (lit "json")) None
     = ([WriteFile (save_name sample_later (lit "json") None) (lit "{}")],
        Ok (save_name sample_later (lit "json") None)).
Proof.
  assert (Hne : lit "text" <> lit "json") by (vm_compute; discriminate).
  split; [exact Hne|]. split.
  - exact (proj1 (proj2 (proj2 (proj2
             (uncollected_report (F := tenths_float) sample_now sample_later (lit "text")
                (fun _ => Ok tt) None)))) Hne).
  - exact (proj2 (proj2 (proj2 (proj2
             (uncollected_report (F := tenths_float) sample_now sample_later (lit "json")
                (fun _ => Ok tt) None)))) eq_refl eq_refl).
Defined.

Lemma timestamps_fixed_width_and_distinct_witness :
  valid_datetime sample_now = true /\ valid_datetime sample_later = true
  /\ length (strftime_HMS sample_now) = 8%nat
  /\ length (strftime_full sample_now) = 19%nat
  /\ length (strftime_compact sample_now) = 15%nat
  /\ save_name sample_now (lit "text") None <> save_name sample_later (lit "json") None.
Proof.
  split; [vm_compute; reflexivity|]. split; [vm_compute; reflexivity|].
  destruct (timestamps_fixed_width_and_distinct sample_now sample_later
              (lit "text") (lit "json") eq_refl eq_refl) as (H1 & H2 & H3 & _ & H5).
  split; [exact H1|]. split; [exact H2|]. split; [exact H3|].
  intros H. destruct (H5 H) as [Hd _]. discriminate Hd.
Defined.

Lemma process_table_aligned_witness :
  (length sample_top <= 9)%nat /\ forallb fits_columns sample_top = true
  /\ Forall (fun line => length line = 56%nat)
       (map (fun ip => proc_line (fst ip) (snd ip)) (enumerate 1%N sample_top)).
Proof.
  assert (H1 : (length sample_top <= 9)%nat) by (vm_compute; lia).
  assert (H2 : forallb fits_columns sample_top = true) by (vm_compute; reflexivity).
  split; [exact H1|]. split; [exact H2|].
  exact (proj2 (process_table_aligned sample_top H1 H2)).
Defined.

Lemma json_report_is_ascii_witness :
  forallb json_char (json_report sample_report_json) = true
  /\ json_report sample_report_json <> [].
Proof.
  exact (json_report_is_ascii (FL := tenths_float_laws) sample_report_json).
Defined.


(** * The theorems of the claims at the sample hosts *)

Lemma snapshot_ranges_follow_os_witness :
  exists s,
    collect sample_os sample_self = Ok sample_report /\ info sample_report = Some s
    /\ cpu_usage (s_cpu s) = cpu_percent sample_os
    /\ cpu_per_cpu (s_cpu s) = cpu_percent_percpu sample_os
    /\ map dk_percent (s_disks s) = [tenths 400; tenths 400]
    /\ os_percent_okb sample_os = true /\ os_sizes_okb sample_os = true
    /\ snapshot_percent_okb s = true /\ snapshot_sizes_okb s = true.
Proof.
  eexists. split; [reflexivity|]. split; [reflexivity|].
  destruct (snapshot_ranges_follow_os (FL := tenths_float_laws)
              sample_os sample_self sample_report _ eq_refl eq_refl)
    as ((H1 & H2 & _) & Hp & Hz).
  split; [exact H1|]. split; [exact H2|]. split; [reflexivity|].
  assert (Ep : os_percent_okb sample_os = true) by (vm_compute; reflexivity).
  assert (Ez : os_sizes_okb sample_os = true) by (vm_compute; reflexivity).
  split; [exact Ep|]. split; [exact Ez|]. split; [exact (Hp Ep) | exact (Hz Ez)].
Defined.

Lemma sensors_placeholder_or_two_readings_witness :
  (sensors_temperatures headless_os = Raise attribute_error
   /\ _sensors headless_os = Ok SensorsNA)
  /\ (sensors_temperatures broken_sensors_os = Raise io_error
      /\ _sensors broken_sensors_os = Raise io_error)
  /\ (exists temps,
        sensors_temperatures sample_os = Ok temps
        /\ distinct (map fst temps) = true
        /\ map (fun g => length (snd g)) temps = [3%nat]
        /\ _sensors sample_os
           = Ok (SensorsMap [(lit "coretemp", [tenths 450; tenths 470])])).
Proof.
  split; [|split].
  - split; [reflexivity|].
    apply (proj1 (sensors_placeholder_or_two_readings headless_os)).
    exists attribute_error. split; reflexivity.
  - split; [reflexivity|].
    apply (proj1 (proj2 (proj2 (sensors_placeholder_or_two_readings
                                  broken_sensors_os))) io_error eq_refl).
    discriminate.
  - eexists. split; [reflexivity|]. split; [reflexivity|]. split; [reflexivity|].
    exact (proj1 (proj1 (proj2 (proj2 (proj2 (sensors_placeholder_or_two_readings
                                               sample_os))))
                    _ eq_refl eq_refl)).
Defined.

(** C3 as stated fails: on a host whose sensor query answers and reports no
    sensor, as psutil does where there is no hardware sensor, the collector
    returns the empty mapping, and it is the empty mapping that the report
    holds. *)
Lemma no_sensor_gives_empty_mapping_counterexample :
  sensors_temperatures no_sensor_os = Ok []
  /\ _sensors no_sensor_os = Ok (SensorsMap [])
  /\ _sensors no_sensor_os <> Ok SensorsNA
  /\ collect no_sensor_os sample_self = Ok no_sensor_report
  /\ option_map (fun s => sensors_json (s_sensors s)) (info no_sensor_report)
     = Some (JObj []).
Proof.
  split; [reflexivity|]. split; [reflexivity|]. split; [discriminate|].
  split; reflexivity.
Defined.

Lemma users_section_of_text_report_witness :
  (exists s,
     info sample_report = Some s
     /\ s_users s <> []
     /\ text_report sample_report
        = Ok (join NL
                (lines_before_users (time sample_report) s
                 ++ [NL ++ lit "АКТИВНЫЕ ПОЛЬЗОВАТЕЛИ:"; times 45%N 40]
                 ++ [lit "alice с 10.0.0.7 (с 09:06:25)";
                     lit "bob с localhost (с 01:01:01)"]
                 ++ boot_lines (s_boot s))))
  /\ (exists s,
        info headless_report = Some s
        /\ s_users s = []
        /\ text_report headless_report
           = Ok (join NL (lines_before_users (time headless_report) s
                          ++ boot_lines (s_boot s)))).
Proof.
  split.
  - eexists. split; [reflexivity|].
    destruct (users_section_of_text_report sample_report _ eq_refl) as (_ & H & _).
    split; [discriminate|].
    exact (proj1 (H ltac:(discriminate))).
  - eexists. split; [reflexivity|].
    destruct (users_section_of_text_report headless_report _ eq_refl) as (H & _).
    split; [reflexivity | exact (H eq_refl)].
Defined.

(** C7 as stated fails in the format of the line: the report of the sample
    host has the line of alice with the letter "с" twice, and neither "from"
    nor "since" anywhere. *)
Lemma session_line_not_in_english_counterexample :
  text_report sample_report = Ok sample_text
  /\ contains (lit "alice с 10.0.0.7 (с 09:06:25)") sample_text = true
  /\ contains (lit "alice from 10.0.0.7 (since 09:06:25)") sample_text = false
  /\ contains (lit "from") sample_text = false
  /\ contains (lit "since") sample_text = false.
Proof.
  split; [reflexivity|]. split; [vm_compute; reflexivity|].
  split; [vm_compute; reflexivity|]. split; vm_compute; reflexivity.
Defined.

Lemma interfaces_in_text_report_witness :
  exists s,
    info sample_report = Some s
    /\ collect sample_os sample_self = Ok sample_report
    /\ distinct (map fst (net_if_addrs sample_os)) = true
    /\ map (fun ki => (fst ki, length (if_ip_addresses (snd ki))))
         (net_interfaces (s_network s))
       = [(lit "lo", 2%nat); (lit "eth0", 3%nat); (lit "tun0", 0%nat)]
    /\ net_interfaces (s_network s)
       = map (fun ka => (fst ka, iface_entry sample_os (fst ka) (snd ka)))
           (net_if_addrs sample_os)
    /\ text_report sample_report
       = Ok (join NL
               (lines_before_interfaces (time sample_report) s
                ++ [ NL ++ lit "lo:";
                     lit "  MAC: 00:00:00:00:00:00";
                     lit "  IPv4: 127.0.0.1/255.0.0.0";
                     lit "  IPv6: ::1";
                     lit "  Статус: UP, Скорость: N/A";
                     NL ++ lit "eth0:";
                     lit "  MAC: aa:bb:cc:dd:ee:ff";
                     lit "  IPv4: 192.168.1.5/255.255.255.0";
                     lit "  IPv6: fe80::1";
                     lit "  Статус: UP, Скорость: 1000 Mbps" ]
                ++ processes_lines (s_processes s) ++ users_lines (s_users s)
                ++ boot_lines (s_boot s))).
Proof.
  eexists. split; [reflexivity|]. split; [reflexivity|].
  assert (Hd : distinct (map fst (net_if_addrs sample_os)) = true)
    by (vm_compute; reflexivity).
  split; [exact Hd|]. split; [vm_compute; reflexivity|].
  destruct (interfaces_in_text_report sample_report _ eq_refl) as (Ht & _ & _ & Hc).
  split; [exact (proj1 (Hc sample_os sample_self eq_refl Hd)) | exact Ht].
Defined.


Lemma default_filename_embeds_save_time_witness :
  (exists s, info sample_report = Some s)
  /\ truthy_optstr None = false
  /\ utf8_error sample_text = None
  /\ save sample_later (fun _ => Ok tt) sample_report None
     = ([WriteFile (lit "system_report_20240309_140510.txt") sample_text],
        Ok (lit "system_report_20240309_140510.txt")).
Proof.
  split; [eexists; reflexivity|]. split; [reflexivity|].
  assert (Hu : utf8_error sample_text = None) by (vm_compute; reflexivity).
  split; [exact Hu|].
  destruct (default_filename_embeds_save_time (FL := tenths_float_laws)
              sample_later (fun _ => Ok tt) sample_report _ None
              eq_refl eq_refl eq_refl)
    as (content & Hr & Hs & _).
  assert (E : Ok sample_text = Ok content) by exact Hr.
  injection E as <-.
  exact (Hs Hu).
Defined.

(** ** A report that cannot be encoded *)

(** On the host with the process name that is not text, the bare run leaves
    the file empty and prints the error of the codec. *)
Example unencodable_report_leaves_empty_file :
  collect badly_named_os sample_self = Ok badly_named_report
  /\ text_report badly_named_report = Ok badly_named_text
  /\ nth_error badly_named_text 1246 = Some 56575%N
  /\ main (world_of badly_named_os (fun _ => Ok tt)) bare_args
     = [ WriteFile (lit "system_report_20240309_140510.txt") [];
         Print (lit "Ошибка: 'utf-8' codec can't encode character '\udcff' in position 1246: surrogates not allowed") ].
Proof.
  split; [reflexivity|]. split; [reflexivity|].
  split; vm_compute; reflexivity.
Qed.
